(** * Evidence locker: the ingestion and integrity pipeline

    A shallow embedding of the TypeScript sources of the evidence locker
    (core/hasher.ts, core/mime.ts, core/errors.ts, core/auth.ts,
    api/upload.ts, api/admin.ts) and the properties of the specification
    that can be settled on them.

    Conventions of the embedding.
    - A JavaScript string is the sequence of its UTF-16 code units; the
      embedding covers the code units below 256, one [ascii] each, so
      ["160"] is the no-break space that [trim] removes and the code units
      192..222 are the Latin-1 capitals that [toLowerCase] maps.
    - Timestamps ([Date]) are milliseconds as [Z]; every [new Date()] the
      source evaluates is a separate clock reading handed to the handler.
    - Values the source draws at random ([crypto.randomUUID()]) or that the
      database generates (row ids) are explicit inputs of the handlers.
    - Logging and metrics do not influence replies or the catalog and are
      left out. *)

From Stdlib Require Import ZArith NArith Ascii String List Bool Lia.
From Stdlib Require Import Numbers.DecimalString.
From stdpp Require Import base option gmap strings list fin_maps.

Local Open Scope Z_scope.
Local Open Scope string_scope.

(** ** JavaScript string primitives *)

Module Js.

(** Numeric value of a code unit. *)
Definition codeUnit (c : ascii) : N := N_of_ascii c.

(** [String.prototype.toLowerCase] on one code unit below 256: the ASCII
    capitals and the Latin-1 capitals (all of 192..222 but the
    multiplication sign 215) move up by 32. *)
Definition toLowerCaseUnit (c : ascii) : ascii :=
  let n := codeUnit c in
  if ((65 <=? n) && (n <=? 90))%N
     || ((192 <=? n) && (n <=? 222) && negb (n =? 215))%N
  then ascii_of_N (n + 32) else c.

Fixpoint toLowerCase (s : string) : string :=
  match s with
  | EmptyString => EmptyString
  | String c r => String (toLowerCaseUnit c) (toLowerCase r)
  end.

(** WhiteSpace and LineTerminator code units below 256: TAB, LF, VT, FF,
    CR, SP and NBSP. *)
Definition isWhiteSpace (c : ascii) : bool :=
  let n := codeUnit c in
  (((9 <=? n) && (n <=? 13)) || (n =? 32) || (n =? 160))%N.

Fixpoint trimStart (s : string) : string :=
  match s with
  | EmptyString => EmptyString
  | String c r => if isWhiteSpace c then trimStart r else s
  end.

Fixpoint trimEnd (s : string) : string :=
  match s with
  | EmptyString => EmptyString
  | String c r =>
      match trimEnd r with
      | EmptyString => if isWhiteSpace c then EmptyString else String c EmptyString
      | r' => String c r'
      end
  end.

(** [s.trim()]. *)
Definition trim (s : string) : string := trimEnd (trimStart s).

(** [s.slice(a, b)] for constants [0 <= a <= b]. *)
Definition slice (a b : nat) (s : string) : string :=
  String.substring a (b - a) s.

(** [xs.join(sep)]. *)
Fixpoint join (sep : string) (xs : list string) : string :=
  match xs with
  | [] => ""
  | [x] => x
  | x :: rest => x +:+ sep +:+ join sep rest
  end.

(** [s.split(sep)] for a one-unit separator: the segments between the
    occurrences of [sep]; never the empty list. *)
Fixpoint split (sep : ascii) (s : string) : list string :=
  match s with
  | EmptyString => [EmptyString]
  | String c r =>
      if Ascii.eqb c sep then EmptyString :: split sep r
      else match split sep r with
           | seg :: segs => String c seg :: segs
           | [] => [String c EmptyString]
           end
  end.

(** [xs.pop()] on the result of a split: the last segment. *)
Definition pop (xs : list string) : option string := last (A:=string) xs.

(** Truthiness of a string value: only the empty string is falsy. *)
Definition truthy (s : string) : bool := negb (String.eqb s "").

(** Truthiness of a nullable string: [null]/[undefined] and [""] are
    falsy. *)
Definition truthyOpt (o : option string) : bool :=
  match o with Some s => truthy s | None => false end.

(** Does the code unit [c] occur in [s]? *)
Fixpoint occurs (c : ascii) (s : string) : bool :=
  match s with
  | EmptyString => false
  | String d r => Ascii.eqb d c || occurs c r
  end.

(** Does the two-unit sequence [c c] occur in [s]? *)
Fixpoint occursTwice (c : ascii) (s : string) : bool :=
  match s with
  | EmptyString => false
  | String d r =>
      match r with
      | EmptyString => false
      | String e _ => (Ascii.eqb d c && Ascii.eqb e c) || occursTwice c r
      end
  end.

Definition startsWith (c : ascii) (s : string) : bool :=
  match s with
  | EmptyString => false
  | String d _ => Ascii.eqb d c
  end.

End Js.

(** ** core/errors.ts *)

Module Errors.

(** The classes of the error hierarchy; [instanceof] is decided on them. *)
Inductive ErrorClass : Type :=
| ClsValidation | ClsAuthentication | ClsAuthorization | ClsNotFound
| ClsConflict | ClsStorage | ClsHashMismatch | ClsUploadSessionExpired
| ClsFileTooLarge | ClsUnsupportedMimeType | ClsIPFS.

(** An [EvidenceLockerError]: message, code and HTTP status code. *)
Record EvidenceLockerError : Type := mkError {
  cls : ErrorClass;
  message : string;
  code : string;
  statusCode : Z
}.

Definition showZ (z : Z) : string := NilZero.string_of_int (Z.to_int z).

Definition ValidationError (msg : string) : EvidenceLockerError :=
  mkError ClsValidation msg "VALIDATION_ERROR" 400.

Definition AuthenticationError (msg : string) : EvidenceLockerError :=
  mkError ClsAuthentication msg "AUTHENTICATION_ERROR" 401.

Definition AuthorizationError (msg : string) : EvidenceLockerError :=
  mkError ClsAuthorization msg "AUTHORIZATION_ERROR" 403.

Definition NotFoundError (resource : string) (identifier : option string)
  : EvidenceLockerError :=
  let msg :=
    match identifier with
    | Some i =>
        if Js.truthy i
        then resource +:+ " with identifier '" +:+ i +:+ "' not found"
        else resource +:+ " not found"
    | None => resource +:+ " not found"
    end in
  mkError ClsNotFound msg "NOT_FOUND" 404.

Definition ConflictError (msg : string) : EvidenceLockerError :=
  mkError ClsConflict msg "CONFLICT" 409.

Definition StorageError (msg : string) : EvidenceLockerError :=
  mkError ClsStorage msg "STORAGE_ERROR" 500.

Definition HashMismatchError (expected actual : string) : EvidenceLockerError :=
  mkError ClsHashMismatch
    ("Hash mismatch: expected '" +:+ Js.slice 0 8 expected
       +:+ "...' but got '" +:+ Js.slice 0 8 actual +:+ "...'")
    "HASH_MISMATCH" 409.

Definition UploadSessionExpiredError (uploadId : string) : EvidenceLockerError :=
  mkError ClsUploadSessionExpired
    ("Upload session '" +:+ uploadId +:+ "' has expired")
    "UPLOAD_SESSION_EXPIRED" 410.

Definition FileTooLargeError (size maxSize : Z) : EvidenceLockerError :=
  mkError ClsFileTooLarge
    ("File size " +:+ showZ size
       +:+ " bytes exceeds maximum allowed size of " +:+ showZ maxSize
       +:+ " bytes")
    "FILE_TOO_LARGE" 413.

Definition UnsupportedMimeTypeError (mimeType : string) (allowedTypes : list string)
  : EvidenceLockerError :=
  mkError ClsUnsupportedMimeType
    ("MIME type '" +:+ mimeType +:+ "' is not allowed. Allowed types: "
       +:+ Js.join ", " allowedTypes)
    "UNSUPPORTED_MIME_TYPE" 415.

Definition IPFSError (msg : string) : EvidenceLockerError :=
  mkError ClsIPFS msg "IPFS_ERROR" 500.

(** What a [throw] can carry: an error of the hierarchy, or an error of
    the runtime or of a library (a [TypeError], a database error, a file
    system error), which no [instanceof] test of the handlers matches. *)
Inductive Exn : Type :=
| Locker (e : EvidenceLockerError)
| Foreign (what : string).

Definition instanceof (x : Exn) (c : ErrorClass) : bool :=
  match x with
  | Locker e =>
      match cls e, c with
      | ClsValidation, ClsValidation
      | ClsAuthentication, ClsAuthentication
      | ClsAuthorization, ClsAuthorization
      | ClsNotFound, ClsNotFound
      | ClsConflict, ClsConflict
      | ClsStorage, ClsStorage
      | ClsHashMismatch, ClsHashMismatch
      | ClsUploadSessionExpired, ClsUploadSessionExpired
      | ClsFileTooLarge, ClsFileTooLarge
      | ClsUnsupportedMimeType, ClsUnsupportedMimeType
      | ClsIPFS, ClsIPFS => true
      | _, _ => false
      end
  | Foreign _ => false
  end.

(** The outcome of a computation that may throw. *)
Inductive Result (A : Type) : Type :=
| Ok (a : A)
| Throw (x : Exn).
Arguments Ok {A} a.
Arguments Throw {A} x.

End Errors.

(** ** core/hasher.ts *)

Module Hasher.

(** The character class [[a-f0-9]]. *)
Definition isLowerHex (c : ascii) : bool :=
  let n := Js.codeUnit c in
  (((48 <=? n) && (n <=? 57)) || ((97 <=? n) && (n <=? 102)))%N.

Fixpoint allUnits (p : ascii -> bool) (s : string) : bool :=
  match s with
  | EmptyString => true
  | String c r => p c && allUnits p r
  end.

(** [/^[a-f0-9]{64}$/.test(hash)]. *)
Definition validateSha256Hash (hash : string) : bool :=
  (String.length hash =? 64)%nat && allUnits isLowerHex hash.

(** [hash.replace(/^0x/i, '').toLowerCase()]. *)
Definition normalizeSha256Hash (hash : string) : string :=
  Js.toLowerCase
    match hash with
    | String z (String x r) =>
        if Ascii.eqb z "0" && (Ascii.eqb x "x" || Ascii.eqb x "X") then r else hash
    | _ => hash
    end.

End Hasher.

(** ** core/mime.ts *)

Module Mime.
Import Errors.

Definition DEFAULT_ALLOWED_MIME_TYPES : list string :=
  [ "application/pdf"; "image/png"; "image/jpeg"; "image/jpg"; "text/csv";
    "application/json"; "application/zip"; "application/x-zip-compressed";
    "text/plain"; "application/octet-stream" ].

Definition getAllowedMimeTypes : list string := DEFAULT_ALLOWED_MIME_TYPES.

(** [xs.includes(x)] on strings. *)
Definition includes (xs : list string) (x : string) : bool :=
  existsb (String.eqb x) xs.

Definition isAllowedMimeType (mimeType : string) : bool :=
  includes getAllowedMimeTypes (Js.toLowerCase mimeType).

Definition validateMimeType (mimeType : string) : Result unit :=
  if negb (isAllowedMimeType mimeType)
  then Throw (Locker (UnsupportedMimeTypeError mimeType getAllowedMimeTypes))
  else Ok tt.

(** The character class of the first replacement: less-than,
    greater-than, colon, double quote (code unit 34), slash, backslash,
    bar, question mark and star. *)
Definition dangerousUnits : list ascii :=
  [ "<"%char; ">"%char; ":"%char; "034"%char; "/"%char; "\"%char;
    "|"%char; "?"%char; "*"%char ].

Definition isDangerous (c : ascii) : bool :=
  existsb (Ascii.eqb c) dangerousUnits.

(** No dangerous code unit occurs in [s]. *)
Fixpoint clean (s : string) : bool :=
  match s with
  | EmptyString => true
  | String c r => negb (isDangerous c) && clean r
  end.

(** The first replacement: every dangerous code unit becomes an
    underscore. *)
Fixpoint replaceDangerous (s : string) : string :=
  match s with
  | EmptyString => EmptyString
  | String c r => String (if isDangerous c then "_"%char else c) (replaceDangerous r)
  end.

Definition isDot (c : ascii) : bool := Ascii.eqb c ".".

(** [.replace(/\.\./g, '_')]: matches are found left to right and do not
    overlap. *)
Fixpoint replaceDotDot (s : string) : string :=
  match s with
  | EmptyString => EmptyString
  | String c r =>
      match r with
      | EmptyString => String c EmptyString
      | String c' r' =>
          if isDot c && isDot c' then String "_" (replaceDotDot r')
          else String c (replaceDotDot r)
      end
  end.

(** [.replace(/^\.+/, '')]. *)
Fixpoint removeLeadingDots (s : string) : string :=
  match s with
  | EmptyString => EmptyString
  | String c r => if isDot c then removeLeadingDots r else s
  end.

Definition sanitizeFilename (filename : string) : string :=
  Js.trim (removeLeadingDots (replaceDotDot (replaceDangerous filename))).

Definition generateBucketKey (sha256 filename : string) : string :=
  let sanitizedFilename := sanitizeFilename filename in
  "sha256/" +:+ Js.slice 0 2 sha256 +:+ "/" +:+ Js.slice 2 4 sha256
    +:+ "/" +:+ sha256 +:+ "/" +:+ sanitizedFilename.

(** The layout the data model gives the bucket key of an artifact with
    digest [d] and sanitized filename [sanitized]:
    sha256/d[0:2]/d[2:4]/d/sanitized. *)
Definition keyLayout (d sanitized : string) : string :=
  "sha256/" +:+ Js.slice 0 2 d +:+ "/" +:+ Js.slice 2 4 d
    +:+ "/" +:+ d +:+ "/" +:+ sanitized.

Definition mimeMap : list (string * string) :=
  [ ("pdf", "application/pdf"); ("png", "image/png"); ("jpg", "image/jpeg");
    ("jpeg", "image/jpeg"); ("csv", "text/csv"); ("json", "application/json");
    ("zip", "application/zip"); ("txt", "text/plain") ].

Fixpoint lookupOwn (k : string) (m : list (string * string)) : option string :=
  match m with
  | [] => None
  | (k', v) :: rest => if String.eqb k k' then Some v else lookupOwn k rest
  end.

(** [extractMimeFromFilename]; the table is read through its own
    properties only (an extension that names a member of
    [Object.prototype] is not modelled). *)
Definition extractMimeFromFilename (filename : string) : option string :=
  match Js.pop (Js.split "." (Js.toLowerCase filename)) with
  | Some ext =>
      if Js.truthy ext
      then match lookupOwn ext mimeMap with
           | Some m => if Js.truthy m then Some m else None
           | None => None
           end
      else None
  | None => None
  end.

End Mime.

(** ** util/env.ts *)

Module Env.

(** The fields of the configuration the modelled code reads. *)
Record Config : Type := mkConfig {
  S3_ENDPOINT : string;
  S3_BUCKET : string;
  S3_ACCESS_KEY : string;
  S3_SECRET_KEY : string;
  MAX_UPLOAD_BYTES : Z;
  HMAC_APP_KEYS : string
}.

(** One [app:secret] pair of [HMAC_APP_KEYS]: the first two segments of
    the split at the colon, kept when both are non-empty, trimmed. *)
Definition parsePair (pair : string) : option (string * string) :=
  match Js.split ":" pair with
  | app :: key :: _ =>
      if Js.truthy app && Js.truthy key then Some (Js.trim app, Js.trim key)
      else None
  | _ => None
  end.

(** [parseAppKeys]: later pairs overwrite earlier ones. *)
Definition parseAppKeys (config : Config) : gmap string string :=
  fold_left
    (fun keys pair =>
       match parsePair pair with
       | Some (app, key) => <[app := key]> keys
       | None => keys
       end)
    (Js.split "," (HMAC_APP_KEYS config)) ∅.

End Env.

(** ** core/auth.ts *)

Module Auth.
Import Errors.

Record AuthContext : Type := mkAuthContext {
  appKey : string;
  orgId : option string;
  userId : option string
}.

(** The request headers the authenticator reads. *)
Record Headers : Type := mkHeaders {
  x_app_key : option string;
  x_app_sig : option string
}.

Section WithHmac.

(** [createHmac('sha256', secret).update(body).digest('hex')] of node's
    crypto module, as a function of the secret and the body. *)
Variable hmacSha256Hex : string -> string -> string.
Variable config : Env.Config.

Definition generateHMACSignature (body secret : string) : string :=
  hmacSha256Hex secret body.

(** The source computes the expected signature (twice; the first result
    is unused) and compares it with the presented one by the strict
    equality [===] of two strings. *)
Definition verifyHMACSignature (body signature secret : string) : bool :=
  String.eqb (hmacSha256Hex secret body) signature.

(** [appKeys] is read through its own properties only. *)
Definition authenticateRequest (appKey signature body : string) : Result AuthContext :=
  let appKeys := Env.parseAppKeys config in
  if negb (Js.truthyOpt (appKeys !! appKey))
  then Throw (Locker (AuthenticationError ("Invalid app key: " +:+ appKey)))
  else
    let secret := default "" (appKeys !! appKey) in
    if negb (verifyHMACSignature body signature secret)
    then Throw (Locker (AuthenticationError "Invalid signature"))
    else Ok (mkAuthContext appKey None None).

Definition requireAuth (authContext : AuthContext) (requiredApp : string) : Result unit :=
  if Js.truthy requiredApp && negb (String.eqb (appKey authContext) requiredApp)
  then Throw (Locker (AuthorizationError
         ("Access denied: required app '" +:+ requiredApp +:+ "', got '"
            +:+ appKey authContext +:+ "'")))
  else Ok tt.

Definition extractAuthFromHeaders (headers : Headers) : Result AuthContext :=
  match x_app_key headers, x_app_sig headers with
  | Some k, Some sig =>
      if Js.truthy k && Js.truthy sig then Ok (mkAuthContext k None None)
      else Throw (Locker (AuthenticationError
             "Missing authentication headers (x-app-key, x-app-sig)"))
  | _, _ =>
      Throw (Locker (AuthenticationError
        "Missing authentication headers (x-app-key, x-app-sig)"))
  end.

(** The call every handler starts with:
    [authenticateRequest(extractAuthFromHeaders(headers).appKey,
    headers['x-app-sig'], JSON.stringify(body))]; [bodyJson] is the
    serialised body. *)
Definition authenticate (headers : Headers) (bodyJson : string) : Result AuthContext :=
  match extractAuthFromHeaders headers with
  | Throw x => Throw x
  | Ok ctx =>
      authenticateRequest (appKey ctx) (default "" (x_app_sig headers)) bodyJson
  end.

End WithHmac.

End Auth.

(** ** The catalog rows (the Prisma models the handlers read and write) *)

Module UploadSession.

(** Modelled from the spec: the Prisma schema is not among the sources; the
    four values of the status column are those of the data model of the
    specification (the handlers write COMPLETE and ABORTED only). *)
Inductive Status : Type := PENDING | COMPLETE | ABORTED | EXPIRED.

(** Modelled from the spec: the default of the status column, which
    [create] leaves out, is the initial status PENDING of the data model. *)
Definition defaultStatus : Status := PENDING.

Record t : Type := mk {
  id : string;
  sha256Hex : option string;
  filename : string;
  expectedSize : option Z;
  mimeHint : option string;
  uploaderOrgId : option string;
  projectId : option string;
  issuanceId : option string;
  token : string;
  bucketKey : option string;
  status : Status;
  createdAt : Z;
  expiresAt : Z;
  completedAt : option Z
}.

(** [update({ data: { status } })]. *)
Definition setStatus (st : Status) (s : t) : t :=
  mk (id s) (sha256Hex s) (filename s) (expectedSize s) (mimeHint s)
     (uploaderOrgId s) (projectId s) (issuanceId s) (token s) (bucketKey s)
     st (createdAt s) (expiresAt s) (completedAt s).

(** [update({ data: { status, completedAt } })]. *)
Definition setStatusCompletedAt (st : Status) (at_ : Z) (s : t) : t :=
  mk (id s) (sha256Hex s) (filename s) (expectedSize s) (mimeHint s)
     (uploaderOrgId s) (projectId s) (issuanceId s) (token s) (bucketKey s)
     st (createdAt s) (expiresAt s) (Some at_).

End UploadSession.

Module Artifact.

(** Modelled from the spec: the values of the scanStatus column, which is
    declared in the Prisma schema, are those of the data model of the
    specification. *)
Inductive ScanStatus : Type := PENDING | CLEAN | INFECTED.

(** Modelled from the spec: the default of the scanStatus column, which
    [create] leaves out. *)
Definition defaultScanStatus : ScanStatus := PENDING.

Record t : Type := mk {
  id : string;
  sha256Hex : string;
  sizeBytes : Z;
  mime : string;
  filename : string;
  bucketKey : string;
  cidV1 : option string;
  uploaderOrgId : option string;
  projectId : option string;
  issuanceId : option string;
  verifiedAt : option Z;
  scanStatus : ScanStatus;
  createdAt : Z
}.

(** [update({ data: { cidV1 } })]. *)
Definition setCidV1 (cid : string) (a : t) : t :=
  mk (id a) (sha256Hex a) (sizeBytes a) (mime a) (filename a) (bucketKey a)
     (Some cid) (uploaderOrgId a) (projectId a) (issuanceId a) (verifiedAt a)
     (scanStatus a) (createdAt a).

(** [update({ data: { scanStatus, verifiedAt } })]. *)
Definition setScan (st : ScanStatus) (at_ : Z) (a : t) : t :=
  mk (id a) (sha256Hex a) (sizeBytes a) (mime a) (filename a) (bucketKey a)
     (cidV1 a) (uploaderOrgId a) (projectId a) (issuanceId a) (Some at_)
     st (createdAt a).

End Artifact.

(** ** The service state and the collaborators of the handlers *)

Module Sys.
Import Errors.

(** The catalog tables, the object store and the record of the pin
    requests sent to the secondary replica (the content handed to
    [pinFile], latest first). *)
Record State : Type := mkState {
  uploadSessions : gmap string UploadSession.t;
  artifacts : list Artifact.t;
  objects : gmap string string;
  pinLog : list string
}.

(** The two implementations of the [StorageDriver] interface. *)
Inductive StorageDriver : Type := S3StorageDriver | LocalStorageDriver.

(** [createStorageDriver]. *)
Definition createStorageDriver (config : Env.Config) : StorageDriver :=
  if Js.truthy (Env.S3_ENDPOINT config) && Js.truthy (Env.S3_ACCESS_KEY config)
     && Js.truthy (Env.S3_SECRET_KEY config)
  then S3StorageDriver else LocalStorageDriver.

(** What lies outside the sources: the two digests of node's crypto
    module, the configuration, and the pinning service ([None] when
    [createIPFSDriver] returns [null]; the service maps a content to the
    cid it answers, or fails). *)
Record Platform : Type := mkPlatform {
  hmacSha256Hex : string -> string -> string;
  sha256DigestHex : string -> string;
  config : Env.Config;
  ipfs : option (string -> option string)
}.

(** Computations of a handler body: they read and write the state and
    may throw; what was written before a throw stays written. *)
Definition M (A : Type) : Type := State -> State * Result A.

Definition ret {A} (a : A) : M A := fun st => (st, Ok a).
Definition throw {A} (e : EvidenceLockerError) : M A := fun st => (st, Throw (Locker e)).
Definition lift {A} (r : Result A) : M A := fun st => (st, r).
Definition bind {A B} (c : M A) (k : A -> M B) : M B :=
  fun st =>
    match c st with
    | (st', Ok a) => k a st'
    | (st', Throw x) => (st', Throw x)
    end.
Definition gets {A} (f : State -> A) : M A := fun st => (st, Ok (f st)).

Declare Scope sys_scope.
Delimit Scope sys_scope with sys.
Notation "'let*' x ':=' c 'in' k" := (bind c (fun x => k))
  (at level 10, x name, c at level 100, k at level 200) : sys_scope.
Notation "c ';;' k" := (bind c (fun _ => k))
  (at level 100, k at level 200, right associativity) : sys_scope.

Record HashResult : Type := mkHashResult { sha256 : string; sizeBytes : Z }.

Section WithPlatform.
Variable P : Platform.
Local Open Scope sys_scope.

(** [computeHashFromStream] over the chunks of a stored object. *)
Definition computeHashFromStream (content : string) : HashResult :=
  mkHashResult (Js.toLowerCase (sha256DigestHex P content))
               (Z.of_nat (String.length content)).

(** Reading an object and draining its stream. With the S3 driver a
    missing key is a [StorageError]; with the local driver the read
    stream fails with a file-system error while it is consumed. *)
Definition getObject (key : string) : M string :=
  fun st =>
    match objects st !! key with
    | Some content => (st, Ok content)
    | None =>
        match createStorageDriver (config P) with
        | S3StorageDriver =>
            (st, Throw (Locker (StorageError
               ("Object with key '" +:+ key +:+ "' not found"))))
        | LocalStorageDriver => (st, Throw (Foreign "ENOENT"))
        end
    end.

(** [prisma.uploadSession.findUnique({ where: { id } })]. *)
Definition findUploadSession (id : string) : M (option UploadSession.t) :=
  gets (fun st => uploadSessions st !! id).

(** [prisma.uploadSession.create]: the primary key rejects a second row
    with the same id. *)
Definition createUploadSession (s : UploadSession.t) : M UploadSession.t :=
  fun st =>
    match uploadSessions st !! UploadSession.id s with
    | Some _ => (st, Throw (Foreign "Unique constraint failed"))
    | None =>
        (mkState (<[UploadSession.id s := s]> (uploadSessions st))
                 (artifacts st) (objects st) (pinLog st), Ok s)
    end.

(** [prisma.uploadSession.update({ where: { id }, data })]. *)
Definition updateUploadSession (id : string) (f : UploadSession.t -> UploadSession.t)
  : M unit :=
  fun st =>
    match uploadSessions st !! id with
    | None => (st, Throw (Foreign "Record to update not found"))
    | Some s =>
        (mkState (<[id := f s]> (uploadSessions st))
                 (artifacts st) (objects st) (pinLog st), Ok tt)
    end.

Definition hasDigest (d : string) (a : Artifact.t) : bool :=
  String.eqb (Artifact.sha256Hex a) d.

Definition hasId (i : string) (a : Artifact.t) : bool :=
  String.eqb (Artifact.id a) i.

(** [prisma.artifact.findUnique({ where: { sha256Hex } })]. *)
Definition findArtifact (d : string) : M (option Artifact.t) :=
  gets (fun st => find (hasDigest d) (artifacts st)).

(** [prisma.artifact.create]: the primary key and the unique index on
    [sha256Hex] reject a colliding row. *)
Definition createArtifact (a : Artifact.t) : M Artifact.t :=
  fun st =>
    if existsb (hasId (Artifact.id a)) (artifacts st)
       || existsb (hasDigest (Artifact.sha256Hex a)) (artifacts st)
    then (st, Throw (Foreign "Unique constraint failed"))
    else (mkState (uploadSessions st) (artifacts st ++ [a]) (objects st)
                  (pinLog st), Ok a).

(** The row with id [i] changed by [f], every other row kept. *)
Definition onRow (i : string) (f : Artifact.t -> Artifact.t) (a : Artifact.t)
  : Artifact.t :=
  if hasId i a then f a else a.

(** [prisma.artifact.update({ where: { id }, data })]. *)
Definition updateArtifact (i : string) (f : Artifact.t -> Artifact.t) : M unit :=
  fun st =>
    if existsb (hasId i) (artifacts st)
    then (mkState (uploadSessions st) (map (onRow i f) (artifacts st))
                  (objects st) (pinLog st), Ok tt)
    else (st, Throw (Foreign "Record to update not found")).

(** [ipfs.pinFile(stream)] on a driver [pin]: the request is recorded,
    and a refusal of the service is an [IPFSError]. *)
Definition pinFile (pin : string -> option string) (content : string) : M string :=
  fun st =>
    let st' := mkState (uploadSessions st) (artifacts st) (objects st)
                       (content :: pinLog st) in
    match pin content with
    | Some cid => (st', Ok cid)
    | None => (st', Throw (Locker (IPFSError "Failed to pin file to IPFS")))
    end.

(** The direct upload of the second phase: the client's PUT to the
    presigned URL writes the object; the service takes no part in it. *)
Definition putObject (key content : string) (st : State) : State :=
  mkState (uploadSessions st) (artifacts st) (<[key := content]> (objects st))
          (pinLog st).

End WithPlatform.

(** What a handler sends back. *)
Record ErrorBody : Type := mkErrorBody { error : string; errorCode : option string }.

Inductive Reply (A : Type) : Type :=
| Sent (httpStatus : Z) (body : A)
| Failed (httpStatus : Z) (body : ErrorBody).
Arguments Sent {A} httpStatus body.
Arguments Failed {A} httpStatus body.

(** [reply.code(error.statusCode).send({ error: error.message, code: error.code })]. *)
Definition sendError {A} (e : EvidenceLockerError) : Reply A :=
  Failed (statusCode e) (mkErrorBody (message e) (Some (code e))).

(** [reply.code(500).send({ error: 'Internal server error' })]. *)
Definition sendInternal {A} : Reply A :=
  Failed 500 (mkErrorBody "Internal server error" None).

(** The [catch] block of a handler: the errors of the listed classes are
    sent with their own status and code, every other one as a 500. *)
Definition catch {A} (classes : list ErrorClass) (x : Exn) : Reply A :=
  match x with
  | Locker e => if existsb (instanceof x) classes then sendError e else sendInternal
  | Foreign _ => sendInternal
  end.

(** A handler: run the body, answer with its result or through the
    [catch] block. *)
Definition handle {A} (okStatus : Z) (classes : list ErrorClass) (body : M A)
  : State -> State * Reply A :=
  fun st =>
    match body st with
    | (st', Ok a) => (st', Sent okStatus a)
    | (st', Throw x) => (st', catch classes x)
    end.

End Sys.

(** ** api/upload.ts *)

Module Upload.
Import Errors Sys.
Local Open Scope sys_scope.

(** The body of [POST /init] with its headers and its serialisation
    [JSON.stringify(request.body)]. The [context] of the body is parsed
    but never read by the handler. *)
Record InitRequest : Type := mkInitRequest {
  initHeaders : Auth.Headers;
  initBodyJson : string;
  filename : string;
  sizeBytes : option Z;
  mimeHint : option string;
  declaredSha256 : option string
}.

(** The values [POST /init] draws: the three [crypto.randomUUID()] calls
    and the clock readings [Date.now()] and the creation time of the row. *)
Record InitDraw : Type := mkInitDraw {
  uploadIdUUID : string;
  stagingUUID : string;
  tokenUUID : string;
  initNow : Z;
  initCreatedAt : Z
}.

Record InitReply : Type := mkInitReply {
  r_uploadId : string;
  r_token : string;
  r_putUrl : string;
  r_bucketKey : string;
  r_expiresAt : Z
}.

Record CompleteRequest : Type := mkCompleteRequest {
  completeHeaders : Auth.Headers;
  completeBodyJson : string;
  uploadId : string
}.

(** The values [POST /complete] draws: the id the database gives a new
    artifact row and its creation time, and the readings of [new Date()]
    at the expiry check, at [verifiedAt] and at [completedAt]. *)
Record CompleteDraw : Type := mkCompleteDraw {
  artifactRowId : string;
  artifactCreatedAt : Z;
  atExpiryCheck : Z;
  atVerified : Z;
  atCompleted : Z
}.

Record CompleteReply : Type := mkCompleteReply {
  r_artifactId : string;
  r_sha256Hex : string;
  r_sizeBytes : Z;
  r_mime : string;
  r_artifactBucketKey : string;
  r_cidV1 : option string;
  r_downloadUrl : string
}.

Section Routes.
Variable P : Platform.

(** The [try] block of [POST /init]. The columns the handler leaves out
    of [create] take their defaults: the default status, no completedAt,
    no project and no issuance. *)
Definition initBody (req : InitRequest) (d : InitDraw) : M InitReply :=
  let* authContext :=
    lift (Auth.authenticate (hmacSha256Hex P) (config P)
            (initHeaders req) (initBodyJson req)) in
  match sizeBytes req with
  | Some n =>
      if negb (n =? 0)%Z && (Env.MAX_UPLOAD_BYTES (config P) <? n)%Z
      then throw (FileTooLargeError n (Env.MAX_UPLOAD_BYTES (config P)))
      else ret tt
  | None => ret tt
  end ;;
  (if Js.truthyOpt (declaredSha256 req)
      && negb (Hasher.validateSha256Hash
                 (Hasher.normalizeSha256Hash (default "" (declaredSha256 req))))
   then throw (ValidationError "Invalid SHA-256 hash format")
   else ret tt) ;;
  (if Js.truthyOpt (mimeHint req)
   then lift (Mime.validateMimeType (default "" (mimeHint req)))
   else ret tt) ;;
  let uploadId := uploadIdUUID d in
  let bucketKey :=
    if Js.truthyOpt (declaredSha256 req)
    then Mime.generateBucketKey
           (Hasher.normalizeSha256Hash (default "" (declaredSha256 req)))
           (filename req)
    else Mime.generateBucketKey (stagingUUID d) (filename req) in
  let* uploadSession :=
    createUploadSession
      (UploadSession.mk
         uploadId
         (if Js.truthyOpt (declaredSha256 req)
          then Some (Hasher.normalizeSha256Hash (default "" (declaredSha256 req)))
          else None)
         (Mime.sanitizeFilename (filename req))
         (sizeBytes req)
         (if Js.truthyOpt (mimeHint req) then mimeHint req
          else Mime.extractMimeFromFilename (filename req))
         (Auth.orgId authContext)
         None None
         (tokenUUID d)
         (Some bucketKey)
         UploadSession.defaultStatus
         (initCreatedAt d)
         (initNow d + 5 * 60 * 1000)%Z
         None) in
  let putUrl :=
    Env.S3_ENDPOINT (config P) +:+ "/" +:+ Env.S3_BUCKET (config P)
      +:+ "/" +:+ bucketKey in
  ret (mkInitReply uploadId (UploadSession.token uploadSession) putUrl bucketKey
         (UploadSession.expiresAt uploadSession)).

(** [POST /v1/upload/init]. *)
Definition init (req : InitRequest) (d : InitDraw) : State -> State * Reply InitReply :=
  handle 201 [ClsValidation; ClsFileTooLarge; ClsUnsupportedMimeType] (initBody req d).

(** The descriptor both branches of [POST /complete] send. *)
Definition descriptor (artifact : Artifact.t) (cidV1 : option string) : CompleteReply :=
  mkCompleteReply (Artifact.id artifact) (Artifact.sha256Hex artifact)
    (Artifact.sizeBytes artifact) (Artifact.mime artifact)
    (Artifact.bucketKey artifact) cidV1
    ("/v1/artifacts/" +:+ Artifact.sha256Hex artifact).

(** The optional pinning block of [POST /complete]: [null] driver, no
    attempt; otherwise re-open the object, pin it and store the cid; a
    failure of any of the three is caught and only logged. The result
    is the local [cidV1] of the handler. *)
Definition pinNewArtifact (key : string) (artifact : Artifact.t) : M (option string) :=
  match ipfs P with
  | None => ret None
  | Some pin =>
      fun st =>
        match (let* content := getObject P key in
               let* cid := pinFile pin content in
               updateArtifact (Artifact.id artifact) (Artifact.setCidV1 cid) ;;
               ret cid) st with
        | (st', Ok cid) => (st', Ok (Some cid))
        | (st', Throw _) => (st', Ok None)
        end
  end.

(** The test of the hash check:
    [uploadSession.sha256Hex && uploadSession.sha256Hex !== hashResult.sha256]. *)
Definition hashMismatch (uploadSession : UploadSession.t) (hashResult : HashResult)
  : bool :=
  Js.truthyOpt (UploadSession.sha256Hex uploadSession)
  && negb (String.eqb (default "" (UploadSession.sha256Hex uploadSession))
                      (sha256 hashResult)).

(** The [try] block of [POST /complete]. *)
Definition completeBody (req : CompleteRequest) (d : CompleteDraw) : M CompleteReply :=
  let* authContext :=
    lift (Auth.authenticate (hmacSha256Hex P) (config P)
            (completeHeaders req) (completeBodyJson req)) in
  let uploadId := uploadId req in
  let* found := findUploadSession uploadId in
  match found with
  | None => throw (NotFoundError "Upload session" (Some uploadId))
  | Some uploadSession =>
      if (UploadSession.expiresAt uploadSession <? atExpiryCheck d)%Z
      then throw (UploadSessionExpiredError uploadId)
      else if negb (Js.truthyOpt (UploadSession.bucketKey uploadSession))
      then throw (ValidationError "Upload session missing bucket key")
      else
        let key := default "" (UploadSession.bucketKey uploadSession) in
        let* fileStream := getObject P key in
        let hashResult := computeHashFromStream P fileStream in
        if hashMismatch uploadSession hashResult
        then
          updateUploadSession uploadId (UploadSession.setStatus UploadSession.ABORTED) ;;
          throw (HashMismatchError (default "" (UploadSession.sha256Hex uploadSession))
                                   (sha256 hashResult))
        else
          let* existing := findArtifact (sha256 hashResult) in
          match existing with
          | Some artifact =>
              updateUploadSession uploadId
                (UploadSession.setStatusCompletedAt UploadSession.COMPLETE
                   (atCompleted d)) ;;
              ret (descriptor artifact (Artifact.cidV1 artifact))
          | None =>
              let* artifact :=
                createArtifact
                  (Artifact.mk
                     (artifactRowId d)
                     (sha256 hashResult)
                     (Sys.sizeBytes hashResult)
                     (if Js.truthyOpt (UploadSession.mimeHint uploadSession)
                      then default "" (UploadSession.mimeHint uploadSession)
                      else "application/octet-stream")
                     (UploadSession.filename uploadSession)
                     key
                     None
                     (Auth.orgId authContext)
                     (UploadSession.projectId uploadSession)
                     (UploadSession.issuanceId uploadSession)
                     (Some (atVerified d))
                     Artifact.defaultScanStatus
                     (artifactCreatedAt d)) in
              let* cidV1 := pinNewArtifact key artifact in
              updateUploadSession uploadId
                (UploadSession.setStatusCompletedAt UploadSession.COMPLETE
                   (atCompleted d)) ;;
              ret (descriptor artifact cidV1)
          end
  end.

(** [POST /v1/upload/complete]. *)
Definition complete (req : CompleteRequest) (d : CompleteDraw)
  : State -> State * Reply CompleteReply :=
  handle 200 [ClsNotFound; ClsUploadSessionExpired; ClsHashMismatch]
    (completeBody req d).

End Routes.

End Upload.

(** ** api/admin.ts: the rescan route *)

Module Admin.
Import Errors Sys.
Local Open Scope sys_scope.

Record RescanRequest : Type := mkRescanRequest {
  rescanHeaders : Auth.Headers;
  rescanBodyJson : string;
  sha256Hex : string
}.

(** The two readings of [new Date()]: the stored [verifiedAt] and the
    one sent in the reply. *)
Record RescanDraw : Type := mkRescanDraw {
  atVerified : Z;
  atReply : Z
}.

Record RescanReply : Type := mkRescanReply {
  r_message : string;
  r_sha256Hex : string;
  r_scanStatus : Artifact.ScanStatus;
  r_verifiedAt : Z
}.

Section Routes.
Variable P : Platform.

(** The [try] block of [POST /rescan]. *)
Definition rescanBody (req : RescanRequest) (d : RescanDraw) : M RescanReply :=
  let* authContext :=
    lift (Auth.authenticate (hmacSha256Hex P) (config P)
            (rescanHeaders req) (rescanBodyJson req)) in
  lift (Auth.requireAuth authContext "registry") ;;
  let sha256Hex := sha256Hex req in
  let* found := findArtifact sha256Hex in
  match found with
  | None => throw (NotFoundError "Artifact" (Some sha256Hex))
  | Some artifact =>
      let* fileStream := getObject P (Artifact.bucketKey artifact) in
      let hashResult := computeHashFromStream P fileStream in
      if negb (String.eqb (sha256 hashResult) (Artifact.sha256Hex artifact))
      then throw (StorageError "Hash mismatch during rescan")
      else
        updateArtifact (Artifact.id artifact)
          (Artifact.setScan Artifact.CLEAN (atVerified d)) ;;
        ret (mkRescanReply "Artifact rescanned successfully"
               (Artifact.sha256Hex artifact) Artifact.CLEAN (atReply d))
  end.

(** [POST /v1/admin/rescan]. *)
Definition rescan (req : RescanRequest) (d : RescanDraw)
  : State -> State * Reply RescanReply :=
  handle 200 [ClsNotFound; ClsAuthorization; ClsStorage] (rescanBody req d).

End Routes.

End Admin.

(** ** A platform and a scenario to evaluate the handlers on *)

Module Demo.
Import Sys.

(** Agrees with SHA-256 on the two contents the scenarios store; other
    contents get the digest of the empty content. *)
Definition sha256DigestHex (content : string) : string :=
  if String.eqb content "hello world!"
  then "7509e5bda0c762d2bac7f90d758b5b2263fa01ccbc542ab5e3df163be08e6ca9"
  else if String.eqb content "hi"
  then "8f434346648f6b96df89dda901c5176b10a6d83961dd3c1ac88b59b2dc327aa4"
  else "e3b0c44298fc1c149afbf4c8996fb92427ae41e4649b934ca495991b7852b855".

(** A stand-in for HMAC-SHA256: any function of secret and body serves,
    since client and server compute the same one. *)
Definition hmacSha256Hex (secret body : string) : string :=
  "mac(" +:+ secret +:+ "," +:+ body +:+ ")".

Definition config : Env.Config :=
  Env.mkConfig "http://minio:9000" "evidence" "minioadmin" "minioadmin"
    52428800 "registry:secret1,issuer-portal:secret2".

(** No secondary replica. *)
Definition platform : Platform :=
  mkPlatform hmacSha256Hex sha256DigestHex config None.

(** A secondary replica that pins every content under one cid. *)
Definition platformWithIpfs : Platform :=
  mkPlatform hmacSha256Hex sha256DigestHex config (Some (fun _ => Some "bafy-demo")).

Definition signed (app secret body : string) : Auth.Headers :=
  Auth.mkHeaders (Some app) (Some (hmacSha256Hex secret body)).

Definition empty : State := mkState ∅ [] ∅ [].

Definition helloDigest : string :=
  "7509e5bda0c762d2bac7f90d758b5b2263fa01ccbc542ab5e3df163be08e6ca9".

(** Init without a declared digest. *)
Definition initPlain : Upload.InitRequest :=
  Upload.mkInitRequest (signed "issuer-portal" "secret2" "{init}") "{init}"
    "e.pdf" (Some 12) (Some "application/pdf") None.

(** Init declaring the digest of [hello world!]. *)
Definition initDeclared : Upload.InitRequest :=
  Upload.mkInitRequest (signed "issuer-portal" "secret2" "{init}") "{init}"
    "e.pdf" (Some 12) (Some "application/pdf") (Some helloDigest).

Definition initDraw : Upload.InitDraw :=
  Upload.mkInitDraw "upload-1" "123e4567-e89b-42d3-a456-426614174000"
    "token-1" 1000 1000.

Definition stagingKey : string :=
  "sha256/12/3e/123e4567-e89b-42d3-a456-426614174000/e.pdf".

Definition declaredKey : string :=
  "sha256/75/09/7509e5bda0c762d2bac7f90d758b5b2263fa01ccbc542ab5e3df163be08e6ca9/e.pdf".

Definition completeReq : Upload.CompleteRequest :=
  Upload.mkCompleteRequest (signed "issuer-portal" "secret2" "{complete}")
    "{complete}" "upload-1".

(** A complete call at time [now] creating, if it creates one, the
    artifact row [rowId]. *)
Definition completeAt (rowId : string) (now : Z) : Upload.CompleteDraw :=
  Upload.mkCompleteDraw rowId now now now now.

(** After init without a declared digest and the upload of
    [hello world!]. *)
Definition uploadedPlain : State :=
  putObject stagingKey "hello world!" (fst (Upload.init platform initPlain initDraw empty)).

(** After init with the declared digest and the upload of [content]. *)
Definition uploadedDeclared (content : string) : State :=
  putObject declaredKey content (fst (Upload.init platform initDeclared initDraw empty)).

(** The session [upload-1] of a state. *)
Definition session (st : State) : option UploadSession.t :=
  uploadSessions st !! "upload-1".

(** The first scenario completed at time 2000: artifact [artifact-1]. *)
Definition completedPlain : State :=
  fst (Upload.complete platform completeReq (completeAt "artifact-1" 2000) uploadedPlain).

(** The first scenario completed at time 2000 on the platform with a
    secondary replica: [artifact-1] is pinned. *)
Definition completedPinned : State :=
  fst (Upload.complete platformWithIpfs completeReq (completeAt "artifact-1" 2000)
         uploadedPlain).

(** A second session for the same bytes under another name. *)
Definition initAgain : Upload.InitRequest :=
  Upload.mkInitRequest (signed "issuer-portal" "secret2" "{init2}") "{init2}"
    "copy.pdf" (Some 12) (Some "application/pdf") None.

Definition initAgainDraw : Upload.InitDraw :=
  Upload.mkInitDraw "upload-2" "9f1c2d3e-0000-4000-8000-0123456789ab"
    "token-2" 5000 5000.

Definition uploadedAgain : State :=
  putObject "sha256/9f/1c/9f1c2d3e-0000-4000-8000-0123456789ab/copy.pdf"
    "hello world!"
    (fst (Upload.init platformWithIpfs initAgain initAgainDraw completedPinned)).

Definition completeAgainReq : Upload.CompleteRequest :=
  Upload.mkCompleteRequest (signed "issuer-portal" "secret2" "{complete2}")
    "{complete2}" "upload-2".

(** The stored object of [artifact-1] overwritten out of band. *)
Definition corrupted : State := putObject stagingKey "hi" completedPlain.

Definition rescanReq : Admin.RescanRequest :=
  Admin.mkRescanRequest (signed "registry" "secret1" "{rescan}") "{rescan}" helloDigest.

Definition rescanDraw : Admin.RescanDraw := Admin.mkRescanDraw 9000 9001.

End Demo.

(** ** util/logger.ts: the redaction helpers *)

Module Logger.

(** [s.slice(-n)]: the last [n] code units, all of [s] when it is shorter. *)
Definition sliceLast (n : nat) (s : string) : string :=
  String.substring (String.length s - n) n s.


Definition redactToken (token : string) : string :=
  if (String.length token <=? 12)%nat then token
  else Js.slice 0 6 token +:+ "..." +:+ sliceLast 6 token.

End Logger.

(** ** util/env.ts: the CORS allow-list *)

Module Cors.

(** [parseCorsAllowlist], as a function of [config.CORS_ALLOWLIST]:
    nothing for the empty string, otherwise the trimmed, non-empty
    segments between the commas. *)
Definition parseCorsAllowlist (CORS_ALLOWLIST : string) : list string :=
  if negb (Js.truthy CORS_ALLOWLIST) then []
  else List.filter (fun origin => (0 <? String.length origin)%nat)
         (List.map Js.trim (Js.split "," CORS_ALLOWLIST)).

End Cors.

(** ** core/mime.ts: the download header *)

Module Disposition.

(** The double quote, code unit 34. *)
Definition quote : ascii := "034"%char.

(** [getContentDisposition]: the sanitized name between double quotes. *)
Definition getContentDisposition (filename : string) : string :=
  let sanitizedFilename := Mime.sanitizeFilename filename in
  "attachment; filename=" +:+ String quote (sanitizedFilename +:+ String quote EmptyString).

End Disposition.

(** ** core/signed-url.ts *)

Module SignedUrl.

(** The key deriver of this file replaces the dangerous code units and
    does nothing else to the name. *)
Definition generateBucketKey (sha256 filename : string) : string :=
  let sanitizedFilename := Mime.replaceDangerous filename in
  "sha256/" +:+ Js.slice 0 2 sha256 +:+ "/" +:+ Js.slice 2 4 sha256
    +:+ "/" +:+ sha256 +:+ "/" +:+ sanitizedFilename.

End SignedUrl.

(** ** core/hasher.ts: the streaming hasher *)

Module Hashing.
Import Sys.

(** A [StreamingHasher]: what has been fed to the hash object of node's
    crypto module, which digests the concatenation of its updates, and
    the byte count. *)
Record StreamingHasher : Type := mkHasher {
  fed : string;
  sizeBytes : Z
}.

(** The constructor, and [reset]. *)
Definition newHasher : StreamingHasher := mkHasher "" 0.
Definition reset (h : StreamingHasher) : StreamingHasher := mkHasher "" 0.

Definition update (h : StreamingHasher) (chunk : string) : StreamingHasher :=
  mkHasher (fed h +:+ chunk) (sizeBytes h + Z.of_nat (String.length chunk)).

Section WithPlatform.
Variable P : Platform.

Definition digest (h : StreamingHasher) : HashResult :=
  mkHashResult (Js.toLowerCase (sha256DigestHex P (fed h))) (sizeBytes h).

(** [computeHashFromStream] on a stream that delivers [chunks] and ends:
    one [update] per data event, [digest] at the end. *)
Definition hashChunks (chunks : list string) : HashResult :=
  digest (fold_left update chunks newHasher).

(** [computeHashFromBuffer]. *)
Definition computeHashFromBuffer (buffer : string) : HashResult :=
  mkHashResult (Js.toLowerCase (sha256DigestHex P buffer))
               (Z.of_nat (String.length buffer)).

End WithPlatform.

End Hashing.

(** ** core/auth.ts: the upload token and the bearer token *)

Module Tokens.
Import Errors.

(** What [jwt.decode] yields for the token of an upload: the members the
    code reads, each possibly absent. *)
Record UploadClaims : Type := mkUploadClaims {
  c_uploadId : option string;
  c_type : option string;
  c_iat : option Z;
  c_exp : option Z
}.

(** The payload of a bearer token. *)
Record JWTPayload : Type := mkJWTPayload {
  sub : string;
  aud : string;
  jwtOrgId : option string;
  iat : Z;
  exp : Z
}.

(** What [jwt.verify] does: it returns the payload, throws a
    [JsonWebTokenError] (bad signature, malformed or expired token) with a
    message, or fails otherwise. *)
Inductive VerifyOutcome : Type :=
| Verified (payload : JWTPayload)
| JsonWebTokenError (message : string)
| OtherFailure (what : string).

Section WithJwt.

(** [jwt.sign(payload, secret)] and [jwt.decode(token)] of the
    jsonwebtoken library. *)
Variable jwtSign : UploadClaims -> string -> string.
Variable jwtDecode : string -> option UploadClaims.
Variable jwtVerify : string -> string -> VerifyOutcome.
Variable JWT_SECRET : option string.

(** [generateUploadToken]; [nowIat] and [nowExp] are the two readings of
    [Date.now()] and [secret] the hexadecimal string drawn with
    [randomBytes(32)]. *)
Definition generateUploadToken (uploadId : string) (expiresInMinutes : Z)
  (nowIat nowExp : Z) (secret : string) : string :=
  jwtSign
    (mkUploadClaims (Some uploadId) (Some "upload") (Some (nowIat / 1000))
       (Some (nowExp / 1000 + expiresInMinutes * 60)))
    secret.

(** [verifyUploadToken] at the clock reading [now]. The token is decoded,
    not verified. *)
Definition verifyUploadToken (token : string) (now : Z) : Result (option string) :=
  match jwtDecode token with
  | None => Throw (Locker (AuthenticationError "Invalid upload token"))
  | Some decoded =>
      if negb (match c_type decoded with
               | Some t => String.eqb t "upload"
               | None => false
               end)
      then Throw (Locker (AuthenticationError "Invalid upload token"))
      else if match c_exp decoded with
              | Some e => (e <? now / 1000)%Z
              | None => false
              end
      then Throw (Locker (AuthenticationError "Upload token expired"))
      else Ok (c_uploadId decoded)
  end.

(** [verifyJWT]. *)
Definition verifyJWT (token : string) (expectedAudience : option string)
  : Result JWTPayload :=
  if negb (Js.truthyOpt JWT_SECRET)
  then Throw (Locker (AuthenticationError "JWT verification not configured"))
  else
    match jwtVerify token (default "" JWT_SECRET) with
    | Verified payload =>
        if Js.truthyOpt expectedAudience
           && negb (String.eqb (aud payload) (default "" expectedAudience))
        then Throw (Locker (AuthenticationError
               ("Invalid audience: expected " +:+ default "" expectedAudience
                  +:+ ", got " +:+ aud payload)))
        else Ok payload
    | JsonWebTokenError msg =>
        Throw (Locker (AuthenticationError ("JWT verification failed: " +:+ msg)))
    | OtherFailure what => Throw (Foreign what)
    end.

End WithJwt.

End Tokens.

(** ** api/verify.ts *)

Module Verify.
Import Errors Sys.

Record VerifyReply : Type := mkVerifyReply {
  v_exists : bool;
  v_sizeBytes : option Z;
  v_mime : option string;
  v_cidV1 : option string;
  v_createdAt : option Z;
  v_scanStatus : option Artifact.ScanStatus
}.

(** The [try] block of [GET /:sha256Hex/verify]: no authentication, a
    catalog lookup only. *)
Definition verifyBody (sha256Hex : string) : M VerifyReply :=
  bind (findArtifact sha256Hex) (fun found =>
    match found with
    | None => ret (mkVerifyReply false None None None None None)
    | Some artifact =>
        ret (mkVerifyReply true
               (Some (Artifact.sizeBytes artifact))
               (Some (Artifact.mime artifact))
               (Artifact.cidV1 artifact)
               (Some (Artifact.createdAt artifact))
               (Some (Artifact.scanStatus artifact)))
    end).

(** [GET /v1/artifacts/:sha256Hex/verify]: every error is a 500. *)
Definition verify (sha256Hex : string) : State -> State * Reply VerifyReply :=
  handle 200 [] (verifyBody sha256Hex).

End Verify.

(** ** api/download.ts *)

Module Download.
Import Errors Sys.

Record DownloadRequest : Type := mkDownloadRequest {
  sha256Hex : string;
  headers : Auth.Headers;
  authorization : option string
}.

Record MetaReply : Type := mkMetaReply {
  m_artifactId : string;
  m_sha256Hex : string;
  m_sizeBytes : Z;
  m_mime : string;
  m_filename : string;
  m_cidV1 : option string;
  m_createdAt : Z;
  m_projectId : option string;
  m_issuanceId : option string
}.

Section Routes.
Variable P : Platform.

(** [config.PUBLIC_READ] and [config.JWT_SECRET], the [jwt.verify] of the
    jsonwebtoken library, and [storage.getSignedUrl(operation, key,
    expiresInSeconds)], which signs with the credentials of the store. *)
Variable PUBLIC_READ : bool.
Variable JWT_SECRET : option string.
Variable jwtVerify : string -> string -> Tokens.VerifyOutcome.
Variable getSignedUrl : string -> string -> Z -> Result string.

(** The authentication of the private routes: HMAC over the empty body
    first; on any failure of it, a bearer token if the [authorization]
    header carries one, else the error [message]. *)
Definition authenticatePrivate (req : DownloadRequest) (message : string)
  : Result Auth.AuthContext :=
  match Auth.authenticate (hmacSha256Hex P) (config P) (headers req) "" with
  | Ok authContext => Ok authContext
  | Throw _ =>
      if Js.truthyOpt (authorization req)
         && String.prefix "Bearer " (default "" (authorization req))
      then
        let authHeader := default "" (authorization req) in
        let token := String.substring 7 (String.length authHeader - 7) authHeader in
        match Tokens.verifyJWT jwtVerify JWT_SECRET token (Some "evidence-locker") with
        | Ok jwtPayload =>
            Ok (Auth.mkAuthContext "jwt" (Tokens.jwtOrgId jwtPayload)
                  (Some (Tokens.sub jwtPayload)))
        | Throw x => Throw x
        end
      else Throw (Locker (AuthenticationError message))
  end.

(** The [try] block of [GET /:sha256Hex]: the reply is the URL of the
    redirect. *)
Definition downloadBody (req : DownloadRequest) : M string :=
  bind (findArtifact (sha256Hex req)) (fun found =>
    match found with
    | None => throw (NotFoundError "Artifact" (Some (sha256Hex req)))
    | Some artifact =>
        if PUBLIC_READ
        then lift (getSignedUrl "getObject" (Artifact.bucketKey artifact) 300)
        else
          bind (lift (authenticatePrivate req "Authentication required"))
            (fun authContext =>
               lift (getSignedUrl "getObject" (Artifact.bucketKey artifact) 300))
    end).

(** [GET /v1/artifacts/:sha256Hex]: a 302 to the signed URL. *)
Definition download (req : DownloadRequest) : State -> State * Reply string :=
  handle 302 [ClsNotFound; ClsAuthentication] (downloadBody req).

(** The [try] block of [GET /:sha256Hex/meta]. *)
Definition metaBody (req : DownloadRequest) : M MetaReply :=
  bind (findArtifact (sha256Hex req)) (fun found =>
    match found with
    | None => throw (NotFoundError "Artifact" (Some (sha256Hex req)))
    | Some artifact =>
        bind (lift (authenticatePrivate req
                      "Authentication required for metadata access"))
          (fun authContext =>
             ret (mkMetaReply (Artifact.id artifact) (Artifact.sha256Hex artifact)
                    (Artifact.sizeBytes artifact) (Artifact.mime artifact)
                    (Artifact.filename artifact) (Artifact.cidV1 artifact)
                    (Artifact.createdAt artifact) (Artifact.projectId artifact)
                    (Artifact.issuanceId artifact)))
    end).

(** [GET /v1/artifacts/:sha256Hex/meta]. *)
Definition meta (req : DownloadRequest) : State -> State * Reply MetaReply :=
  handle 200 [ClsNotFound; ClsAuthentication] (metaBody req).

End Routes.

End Download.

(** ** api/admin.ts: retention sweep, pin and unpin *)

Module AdminOps.
Import Errors Sys.

Record SweepRequest : Type := mkSweepRequest {
  sweepHeaders : Auth.Headers;
  sweepBodyJson : string;
  beforeDate : Z;
  dryRun : bool
}.

(** One entry of the reply; the dry run also reports [createdAt]. *)
Record SweepItem : Type := mkSweepItem {
  i_id : string;
  i_sha256Hex : string;
  i_filename : string;
  i_createdAt : option Z
}.

Record SweepReply : Type := mkSweepReply {
  s_dryRun : bool;
  s_count : nat;
  s_artifacts : list SweepItem
}.

Record PinRequest : Type := mkPinRequest {
  pinHeaders : Auth.Headers;
  pinBodyJson : string;
  pinSha256Hex : string
}.

Record PinReply : Type := mkPinReply {
  p_message : string;
  p_cidV1 : option string;
  p_gatewayUrl : option string
}.

(** [update({ data: { cidV1: null } })]. *)
Definition clearCidV1 (a : Artifact.t) : Artifact.t :=
  Artifact.mk (Artifact.id a) (Artifact.sha256Hex a) (Artifact.sizeBytes a)
    (Artifact.mime a) (Artifact.filename a) (Artifact.bucketKey a) None
    (Artifact.uploaderOrgId a) (Artifact.projectId a) (Artifact.issuanceId a)
    (Artifact.verifiedAt a) (Artifact.scanStatus a) (Artifact.createdAt a).

(** A handler whose body chooses the reply itself (it sends a 400 and
    returns in the middle of the [try] block). *)
Definition handleReply {A} (classes : list ErrorClass) (body : M (Reply A))
  : State -> State * Reply A :=
  fun st =>
    match body st with
    | (st', Ok reply) => (st', reply)
    | (st', Throw x) => (st', catch classes x)
    end.

Section Routes.
Variable P : Platform.

(** The other two members of the IPFS driver: whether the service accepts
    the unpin of a cid, and the base of the gateway URLs. *)
Variable unpinAccepted : string -> bool.
Variable gatewayUrl : string.

(** The start of every admin handler: authentication, then the
    [registry] gate. *)
Definition authenticateAdmin (headers : Auth.Headers) (bodyJson : string)
  : M Auth.AuthContext :=
  bind (lift (Auth.authenticate (hmacSha256Hex P) (config P) headers bodyJson))
    (fun authContext =>
       bind (lift (Auth.requireAuth authContext "registry"))
         (fun _ => ret authContext)).

(** [storage.deleteObject]: the S3 call succeeds whether or not the key
    exists; the local driver unlinks the file and fails when there is
    none. *)
Definition deleteObject (key : string) : M unit :=
  fun st =>
    let removed := mkState (uploadSessions st) (artifacts st)
                           (delete key (objects st)) (pinLog st) in
    match createStorageDriver (config P) with
    | S3StorageDriver => (removed, Ok tt)
    | LocalStorageDriver =>
        match objects st !! key with
        | Some _ => (removed, Ok tt)
        | None =>
            (st, Throw (Locker (StorageError
               ("Failed to delete object with key '" +:+ key +:+ "'"))))
        end
    end.

(** [prisma.artifact.delete({ where: { id } })]. *)
Definition deleteArtifact (i : string) : M unit :=
  fun st =>
    if existsb (hasId i) (artifacts st)
    then (mkState (uploadSessions st)
                  (List.filter (fun a => negb (hasId i a)) (artifacts st))
                  (objects st) (pinLog st), Ok tt)
    else (st, Throw (Foreign "Record to delete does not exist")).

(** One round of the deletion loop: object first, row second; a failure
    of either is logged and the artifact is not reported. *)
Definition sweepOne (acc : State * list Artifact.t) (artifact : Artifact.t)
  : State * list Artifact.t :=
  match bind (deleteObject (Artifact.bucketKey artifact))
          (fun _ => deleteArtifact (Artifact.id artifact)) (fst acc) with
  | (st', Ok _) => (st', (snd acc ++ [artifact])%list)
  | (st', Throw _) => (st', snd acc)
  end.

(** [findMany({ where: { createdAt: { lt: cutoffDate } } })]. *)
Definition olderThan (cutoff : Z) (st : State) : list Artifact.t :=
  List.filter (fun a => (Artifact.createdAt a <? cutoff)%Z) (artifacts st).

(** The [try] block of [POST /retention/sweep]. *)
Definition sweepBody (req : SweepRequest) : M SweepReply :=
  bind (authenticateAdmin (sweepHeaders req) (sweepBodyJson req)) (fun _ =>
    bind (gets (olderThan (beforeDate req))) (fun oldArtifacts =>
      if dryRun req
      then ret (mkSweepReply true (length oldArtifacts)
                  (map (fun a => mkSweepItem (Artifact.id a) (Artifact.sha256Hex a)
                                   (Artifact.filename a) (Some (Artifact.createdAt a)))
                       oldArtifacts))
      else
        fun st =>
          let (st', deletedArtifacts) := fold_left sweepOne oldArtifacts (st, []) in
          (st', Ok (mkSweepReply false (length deletedArtifacts)
                      (map (fun a => mkSweepItem (Artifact.id a) (Artifact.sha256Hex a)
                                       (Artifact.filename a) None)
                           deletedArtifacts))))).

(** [POST /v1/admin/retention/sweep]. *)
Definition sweep (req : SweepRequest) : State -> State * Reply SweepReply :=
  handle 200 [ClsAuthorization] (sweepBody req).

(** The [try] block of [POST /ipfs/pin]. *)
Definition pinBody (req : PinRequest) : M (Reply PinReply) :=
  bind (authenticateAdmin (pinHeaders req) (pinBodyJson req)) (fun _ =>
    bind (findArtifact (pinSha256Hex req)) (fun found =>
      match found with
      | None => throw (NotFoundError "Artifact" (Some (pinSha256Hex req)))
      | Some artifact =>
          match ipfs P with
          | None => ret (Failed 400 (mkErrorBody "IPFS not enabled" None))
          | Some pin =>
              if Js.truthyOpt (Artifact.cidV1 artifact)
              then ret (Sent 200 (mkPinReply "Artifact already pinned to IPFS"
                                    (Artifact.cidV1 artifact) None))
              else
                bind (getObject P (Artifact.bucketKey artifact)) (fun fileStream =>
                  bind (pinFile pin fileStream) (fun cid =>
                    bind (updateArtifact (Artifact.id artifact) (Artifact.setCidV1 cid))
                      (fun _ =>
                         ret (Sent 200 (mkPinReply "Artifact pinned to IPFS successfully"
                                          (Some cid)
                                          (Some (gatewayUrl +:+ "/ipfs/" +:+ cid)))))))
          end
      end)).

(** [POST /v1/admin/ipfs/pin]. *)
Definition pin (req : PinRequest) : State -> State * Reply PinReply :=
  handleReply [ClsNotFound; ClsAuthorization] (pinBody req).

(** [ipfs.unpinFile(cid)]. *)
Definition unpinFile (cid : string) : M unit :=
  fun st =>
    if unpinAccepted cid then (st, Ok tt)
    else (st, Throw (Locker (IPFSError
            ("Failed to unpin file " +:+ cid +:+ " from IPFS")))).

(** The [try] block of [POST /ipfs/unpin]. *)
Definition unpinBody (req : PinRequest) : M (Reply PinReply) :=
  bind (authenticateAdmin (pinHeaders req) (pinBodyJson req)) (fun _ =>
    bind (findArtifact (pinSha256Hex req)) (fun found =>
      match found with
      | None => throw (NotFoundError "Artifact" (Some (pinSha256Hex req)))
      | Some artifact =>
          match ipfs P with
          | None => ret (Failed 400 (mkErrorBody "IPFS not enabled" None))
          | Some _ =>
              if negb (Js.truthyOpt (Artifact.cidV1 artifact))
              then ret (Sent 200 (mkPinReply "Artifact not pinned to IPFS" None None))
              else
                bind (unpinFile (default "" (Artifact.cidV1 artifact))) (fun _ =>
                  bind (updateArtifact (Artifact.id artifact) clearCidV1) (fun _ =>
                    ret (Sent 200 (mkPinReply "Artifact unpinned from IPFS successfully"
                                     (Artifact.cidV1 artifact) None))))
          end
      end)).

(** [POST /v1/admin/ipfs/unpin]. *)
Definition unpin (req : PinRequest) : State -> State * Reply PinReply :=
  handleReply [ClsNotFound; ClsAuthorization] (unpinBody req).

End Routes.

End AdminOps.

(** ** Notions the further properties are stated with *)

Module Catalog.
Import Sys.

(** A row update that changes at most the cid. *)
Definition cidOnly (g : Artifact.t -> Artifact.t) : Prop :=
  forall x, g x = x \/ exists cid, g x = Artifact.setCidV1 cid x.

(** The two uniqueness constraints of the artifact table: the primary
    key and the unique index on the digest. *)
Definition unique (rows : list Artifact.t) : Prop :=
  NoDup (map Artifact.id rows) /\ NoDup (map Artifact.sha256Hex rows).

End Catalog.

(** ** Further sample data to evaluate the code on *)

Module Samples.
Import Sys.

(** A stand-in for the jsonwebtoken library on one token. *)
Definition tokenSign (claims : Tokens.UploadClaims) (secret : string) : string :=
  "token".

Definition tokenDecode (token : string) : option Tokens.UploadClaims :=
  Some (Tokens.mkUploadClaims (Some "upload-1") (Some "upload") (Some 1) (Some 301)).

(** After init without a declared digest, before any upload. *)
Definition initedPlain : State :=
  fst (Upload.init Demo.platform Demo.initPlain Demo.initDraw Demo.empty).

(** A complete request for a session that does not exist. *)
Definition completeUnknownReq : Upload.CompleteRequest :=
  Upload.mkCompleteRequest (Demo.signed "issuer-portal" "secret2" "{complete9}")
    "{complete9}" "upload-9".

(** A download request without any credentials. *)
Definition anonymous : Download.DownloadRequest :=
  Download.mkDownloadRequest Demo.helloDigest (Auth.mkHeaders None None) None.

(** Stand-ins for the token verifier and the URL signer. *)
Definition noJwt (token secret : string) : Tokens.VerifyOutcome :=
  Tokens.OtherFailure "no verifier".

Definition presign (operation key : string) (expiresIn : Z) : Errors.Result string :=
  Errors.Ok ("http://minio:9000/evidence/" +:+ key).

(** The artifact row of [Demo.completedPlain]. *)
Definition artifact1 : Artifact.t :=
  Artifact.mk "artifact-1" Demo.helloDigest 12 "application/pdf" "e.pdf"
    Demo.stagingKey None None None None (Some 2000%Z) Artifact.PENDING 2000.

Definition pinReq : AdminOps.PinRequest :=
  AdminOps.mkPinRequest (Demo.signed "registry" "secret1" "{pin}") "{pin}"
    Demo.helloDigest.

(** [Demo.completedPlain] after [artifact-1] was pinned. *)
Definition pinnedPlain : State :=
  mkState (uploadSessions Demo.completedPlain)
    (map (onRow (Artifact.id artifact1) (Artifact.setCidV1 "bafy-demo"))
       (artifacts Demo.completedPlain))
    (objects Demo.completedPlain) ["hello world!"].

(** A sweep of everything created before time 5000. *)
Definition sweepReq (dryRun : bool) : AdminOps.SweepRequest :=
  AdminOps.mkSweepRequest (Demo.signed "registry" "secret1" "{sweep}") "{sweep}"
    5000 dryRun.

End Samples.

(** * Properties *)

(** ** Strings *)

Example double_quote_unit : Js.codeUnit "034" = 34%N.
Proof. reflexivity. Qed.

Example split_example : Js.split "/" "a//b/" = ["a"; ""; "b"; ""].
Proof. reflexivity. Qed.

Example toLowerCase_example : Js.toLowerCase "Image/JPEG" = "image/jpeg".
Proof. reflexivity. Qed.

Example sanitizeFilename_traversal :
  Mime.sanitizeFilename "../../etc/passwd" = "____etc_passwd".
Proof. reflexivity. Qed.

Example sanitizeFilename_dots : Mime.sanitizeFilename "...." = "__".
Proof. reflexivity. Qed.

Example normalizeSha256Hash_example : Hasher.normalizeSha256Hash "0XABcd" = "abcd".
Proof. reflexivity. Qed.

Example extractMimeFromFilename_example :
  Mime.extractMimeFromFilename "Report.Final.PDF" = Some "application/pdf".
Proof. reflexivity. Qed.

Section StringFacts.

Lemma trimEnd_idem s : Js.trimEnd (Js.trimEnd s) = Js.trimEnd s.
Proof.
  induction s as [|c r IH]; [reflexivity|].
  simpl. destruct (Js.trimEnd r) as [|c' r'] eqn:E.
  - destruct (Js.isWhiteSpace c) eqn:W; [reflexivity|].
    simpl. now rewrite W.
  - change (Js.trimEnd (String c (String c' r')) = String c (String c' r')).
    simpl in IH |- *.
    destruct (Js.trimEnd r') as [|c'' r''] eqn:E'.
    + destruct (Js.isWhiteSpace c') eqn:W'; [discriminate|].
      now rewrite IH.
    + now rewrite IH.
Qed.

(** The head of a string survives [trimEnd] unless everything is
    trimmed. *)
Lemma trimEnd_head c r :
  Js.trimEnd (String c r) = EmptyString
  \/ exists r', Js.trimEnd (String c r) = String c r'.
Proof.
  simpl. destruct (Js.trimEnd r).
  - destruct (Js.isWhiteSpace c); eauto.
  - eauto.
Qed.

Lemma trimStart_head s :
  Js.trimStart s = EmptyString
  \/ exists c r, Js.trimStart s = String c r /\ Js.isWhiteSpace c = false.
Proof.
  induction s as [|c r IH]; [now left|].
  simpl. destruct (Js.isWhiteSpace c) eqn:W; [exact IH|].
  right. eauto.
Qed.

Lemma trimStart_trim s : Js.trimStart (Js.trim s) = Js.trim s.
Proof.
  unfold Js.trim.
  destruct (trimStart_head s) as [E|(c & r & E & W)]; rewrite E; [reflexivity|].
  destruct (trimEnd_head c r) as [E'|(r' & E')]; rewrite E'; [reflexivity|].
  simpl. now rewrite W.
Qed.

Lemma trim_idem s : Js.trim (Js.trim s) = Js.trim s.
Proof.
  unfold Js.trim at 1. rewrite trimStart_trim. unfold Js.trim.
  apply trimEnd_idem.
Qed.

Lemma length_trimStart s : (String.length (Js.trimStart s) <= String.length s)%nat.
Proof.
  induction s as [|c r IH]; simpl; [lia|].
  destruct (Js.isWhiteSpace c); simpl; lia.
Qed.

Lemma length_trimEnd s : (String.length (Js.trimEnd s) <= String.length s)%nat.
Proof.
  induction s as [|c r IH]; simpl; [lia|].
  destruct (Js.trimEnd r); [destruct (Js.isWhiteSpace c)|]; simpl in *; lia.
Qed.

Lemma length_trim s : (String.length (Js.trim s) <= String.length s)%nat.
Proof.
  unfold Js.trim. pose proof (length_trimEnd (Js.trimStart s)).
  pose proof (length_trimStart s). lia.
Qed.

(** [occurs] and [occursTwice] under the two trims. *)
Lemma occurs_trimStart c s : Js.occurs c s = false -> Js.occurs c (Js.trimStart s) = false.
Proof.
  induction s as [|d r IH]; simpl; [auto|].
  intros H. apply orb_false_iff in H as [H1 H2].
  destruct (Js.isWhiteSpace d); [auto|]. simpl. now rewrite H1, H2.
Qed.

Lemma occurs_trimEnd c s : Js.occurs c s = false -> Js.occurs c (Js.trimEnd s) = false.
Proof.
  induction s as [|d r IH]; simpl; [auto|].
  intros H. apply orb_false_iff in H as [H1 H2]. specialize (IH H2).
  destruct (Js.trimEnd r) eqn:E.
  - destruct (Js.isWhiteSpace d); simpl; [reflexivity|]. now rewrite H1.
  - simpl in *. now rewrite H1, IH.
Qed.

Lemma occursTwice_trimStart c s :
  Js.occursTwice c s = false -> Js.occursTwice c (Js.trimStart s) = false.
Proof.
  induction s as [|d r IH]; [auto|].
  intros H. simpl. destruct (Js.isWhiteSpace d); [|exact H].
  apply IH. simpl in H. destruct r; [reflexivity|].
  now apply orb_false_iff in H as [_ H].
Qed.

Lemma occursTwice_trimEnd c s :
  Js.occursTwice c s = false -> Js.occursTwice c (Js.trimEnd s) = false.
Proof.
  induction s as [|d r IH]; [auto|].
  intros H. simpl.
  assert (Hr : Js.occursTwice c r = false).
  { simpl in H. destruct r; [reflexivity|]. now apply orb_false_iff in H as [_ H]. }
  specialize (IH Hr).
  destruct (Js.trimEnd r) as [|e r'] eqn:E.
  - destruct (Js.isWhiteSpace d); reflexivity.
  - destruct r as [|e0 r0]; [discriminate|].
    destruct (trimEnd_head e0 r0) as [E0|(r1 & E0)]; rewrite E0 in E; [discriminate|].
    injection E as <- <-.
    simpl in H. apply orb_false_iff in H as [H _].
    change (Js.occursTwice c (String d (String e0 r1)))
      with ((Ascii.eqb d c && Ascii.eqb e0 c) || Js.occursTwice c (String e0 r1)).
    now rewrite H, IH.
Qed.

End StringFacts.

(** ** The filename sanitizer and the bucket key *)

Section SanitizeFacts.
Import Mime.

Lemma isDangerous_In c : isDangerous c = true <-> In c dangerousUnits.
Proof.
  unfold isDangerous, dangerousUnits. rewrite existsb_exists. split.
  - intros (x & Hx & E). apply Ascii.eqb_eq in E. now subst.
  - intros H. exists c. split; [exact H | apply Ascii.eqb_refl].
Qed.

Lemma clean_occurs s c : clean s = true -> isDangerous c = true -> Js.occurs c s = false.
Proof.
  intros Hs Hc. induction s as [|d r IH]; [reflexivity|].
  simpl in *. apply andb_true_iff in Hs as [Hd Hr].
  rewrite (IH Hr), orb_false_r.
  destruct (Ascii.eqb d c) eqn:E; [|reflexivity].
  apply Ascii.eqb_eq in E. subst d. now rewrite Hc in Hd.
Qed.

Lemma clean_replaceDangerous s : clean (replaceDangerous s) = true.
Proof.
  induction s as [|c r IH]; [reflexivity|].
  simpl. rewrite IH, andb_true_r.
  destruct (isDangerous c) eqn:E; [reflexivity | now rewrite E].
Qed.

Lemma replaceDangerous_clean s : clean s = true -> replaceDangerous s = s.
Proof.
  induction s as [|c r IH]; [reflexivity|].
  simpl. intros H. apply andb_true_iff in H as [Hc Hr].
  rewrite (IH Hr). apply negb_true_iff in Hc. now rewrite Hc.
Qed.

(** The second replacement, unfolded one step. *)
Lemma replaceDotDot_cons2 c c' r :
  replaceDotDot (String c (String c' r))
  = if isDot c && isDot c' then String "_" (replaceDotDot r)
    else String c (replaceDotDot (String c' r)).
Proof. reflexivity. Qed.

(** Induction two units at a time, the way the second replacement
    consumes its input. *)
Lemma string_ind2 (Q : string -> Prop) :
  Q EmptyString ->
  (forall c, Q (String c EmptyString)) ->
  (forall c c' r, Q r -> Q (String c' r) -> Q (String c (String c' r))) ->
  forall s, Q s.
Proof.
  intros H0 H1 H2 s.
  assert (H : Q s /\ forall c, Q (String c s)).
  { induction s as [|c r [IH1 IH2]]; split; auto. }
  apply H.
Qed.

Lemma clean_replaceDotDot s : clean s = true -> clean (replaceDotDot s) = true.
Proof.
  induction s as [| c | c c' r IH1 IH2] using string_ind2; [auto | auto |].
  intros H. rewrite replaceDotDot_cons2.
  pose proof H as H'. simpl in H'.
  apply andb_true_iff in H' as [Hc H'].
  pose proof H' as H''. apply andb_true_iff in H'' as [Hc' Hr].
  destruct (isDot c && isDot c').
  - simpl. now apply IH1.
  - transitivity (negb (isDangerous c) && clean (replaceDotDot (String c' r)));
      [reflexivity|].
    rewrite Hc. apply IH2. exact H'.
Qed.

(** A unit that is no dot heads its own replacement. *)
Lemma replaceDotDot_head c r :
  isDot c = false -> exists r', replaceDotDot (String c r) = String c r'.
Proof.
  intros H. destruct r as [|c' r]; [now exists EmptyString|].
  rewrite replaceDotDot_cons2, H. simpl. eauto.
Qed.

Lemma isDot_eqb c : Ascii.eqb c "." = isDot c.
Proof. reflexivity. Qed.

Lemma noDotDot_replaceDotDot s : Js.occursTwice "." (replaceDotDot s) = false.
Proof.
  induction s as [| c | c c' r IH1 IH2] using string_ind2; [reflexivity..|].
  rewrite replaceDotDot_cons2.
  destruct (isDot c && isDot c') eqn:E.
  - remember (replaceDotDot r) as t. simpl.
    destruct t; [reflexivity|]. simpl in IH1 |- *. exact IH1.
  - remember (replaceDotDot (String c' r)) as t eqn:Et.
    destruct t as [|e t']; [reflexivity|].
    change (Js.occursTwice "." (String c (String e t')))
      with ((Ascii.eqb c "." && Ascii.eqb e ".") || Js.occursTwice "." (String e t')).
    rewrite IH2, orb_false_r, !isDot_eqb.
    destruct (isDot c) eqn:Hc; [|reflexivity].
    simpl in E. destruct (replaceDotDot_head c' r E) as (r' & Er').
    rewrite Er' in Et. injection Et as -> _. exact E.
Qed.

Lemma replaceDotDot_noDotDot s : Js.occursTwice "." s = false -> replaceDotDot s = s.
Proof.
  induction s as [| c | c c' r IH1 IH2] using string_ind2; [reflexivity..|].
  intros H. rewrite replaceDotDot_cons2.
  change (Js.occursTwice "." (String c (String c' r)))
    with ((Ascii.eqb c "." && Ascii.eqb c' ".") || Js.occursTwice "." (String c' r)) in H.
  apply orb_false_iff in H as [H1 H2]. rewrite !isDot_eqb in H1.
  rewrite H1. now rewrite (IH2 H2).
Qed.

Lemma occursTwice_tail c d r :
  Js.occursTwice c (String d r) = false -> Js.occursTwice c r = false.
Proof.
  simpl. destruct r; [reflexivity|]. intros H. now apply orb_false_iff in H as [_ H].
Qed.

Lemma noDotDot_removeLeadingDots s :
  Js.occursTwice "." s = false -> Js.occursTwice "." (removeLeadingDots s) = false.
Proof.
  induction s as [|c r IH]; [auto|].
  intros H. simpl. destruct (isDot c); [|exact H].
  apply IH. exact (occursTwice_tail _ _ _ H).
Qed.

Lemma clean_removeLeadingDots s : clean s = true -> clean (removeLeadingDots s) = true.
Proof.
  induction s as [|c r IH]; [auto|].
  intros H. simpl. destruct (isDot c); [|exact H].
  apply IH. simpl in H. now apply andb_true_iff in H as [_ H].
Qed.

Lemma clean_trimStart s : clean s = true -> clean (Js.trimStart s) = true.
Proof.
  induction s as [|c r IH]; [auto|].
  intros H. simpl. destruct (Js.isWhiteSpace c); [|exact H].
  apply IH. simpl in H. now apply andb_true_iff in H as [_ H].
Qed.

Lemma clean_trimEnd s : clean s = true -> clean (Js.trimEnd s) = true.
Proof.
  induction s as [|c r IH]; [auto|].
  intros H. simpl in H. apply andb_true_iff in H as [Hc Hr]. specialize (IH Hr).
  simpl. destruct (Js.trimEnd r).
  - destruct (Js.isWhiteSpace c); [reflexivity|]. simpl. now rewrite Hc.
  - simpl in *. now rewrite Hc, IH.
Qed.

Lemma clean_sanitizeFilename s : clean (sanitizeFilename s) = true.
Proof.
  unfold sanitizeFilename, Js.trim.
  apply clean_trimEnd, clean_trimStart, clean_removeLeadingDots,
    clean_replaceDotDot, clean_replaceDangerous.
Qed.

Lemma noDotDot_sanitizeFilename s : Js.occursTwice "." (sanitizeFilename s) = false.
Proof.
  unfold sanitizeFilename, Js.trim.
  apply occursTwice_trimEnd, occursTwice_trimStart, noDotDot_removeLeadingDots,
    noDotDot_replaceDotDot.
Qed.

Lemma trim_sanitizeFilename s : Js.trim (sanitizeFilename s) = sanitizeFilename s.
Proof. unfold sanitizeFilename. apply trim_idem. Qed.

Lemma removeLeadingDots_noDot s :
  Js.startsWith "." s = false -> removeLeadingDots s = s.
Proof.
  destruct s as [|c r]; [reflexivity|]. simpl. rewrite isDot_eqb. now intros ->.
Qed.

Lemma length_removeLeadingDots s :
  (String.length (removeLeadingDots s) <= String.length s)%nat.
Proof.
  induction s as [|c r IH]; simpl; [lia|].
  destruct (isDot c); simpl; lia.
Qed.

(** Sanitizing a sanitized name only strips its leading dot, if any, and
    trims what that uncovers. *)
Lemma sanitizeFilename_twice s :
  sanitizeFilename (sanitizeFilename s)
  = Js.trim (removeLeadingDots (sanitizeFilename s)).
Proof.
  unfold sanitizeFilename at 1.
  rewrite (replaceDangerous_clean _ (clean_sanitizeFilename s)).
  now rewrite (replaceDotDot_noDotDot _ (noDotDot_sanitizeFilename s)).
Qed.

End SanitizeFacts.

Section SanitizeProperties.
Import Mime.

(** C7, counterexample. The sanitizer is not idempotent: a name that
    begins with a blank followed by a dot keeps the dot in the first pass
    (the leading dots are removed before the trim) and loses it in the
    second. *)
Lemma sanitizeFilename_not_idempotent :
  sanitizeFilename " .a" = ".a"
  /\ sanitizeFilename (sanitizeFilename " .a") = "a"
  /\ sanitizeFilename (sanitizeFilename " .a") <> sanitizeFilename " .a".
Proof. repeat split. discriminate. Qed.

(** C7, amended. The sanitizer is deterministic (equal names have equal
    sanitized forms), and sanitizing a second time changes nothing exactly
    when the sanitized name does not begin with a dot. *)
Theorem sanitizeFilename_idempotent_iff :
  (forall s t, s = t -> sanitizeFilename s = sanitizeFilename t)
  /\ (forall s,
        sanitizeFilename (sanitizeFilename s) = sanitizeFilename s
        <-> Js.startsWith "." (sanitizeFilename s) = false).
Proof.
  split; [now intros s t -> |].
  intros s. rewrite sanitizeFilename_twice.
  remember (sanitizeFilename s) as t eqn:Et.
  assert (Ht : Js.trim t = t) by (subst t; apply trim_sanitizeFilename).
  split.
  - intros E. destruct t as [|c r]; [reflexivity|].
    simpl. rewrite isDot_eqb. destruct (isDot c) eqn:D; [|reflexivity].
    exfalso.
    assert (L : String.length (Js.trim (removeLeadingDots (String c r)))
                = String.length (String c r)) by now rewrite E.
    simpl in L. rewrite D in L.
    pose proof (length_trim (removeLeadingDots r)).
    pose proof (length_removeLeadingDots r). lia.
  - intros D. now rewrite (removeLeadingDots_noDot _ D).
Qed.

End SanitizeProperties.

Section BucketKeyFacts.
Import Mime.

Lemma split_no_sep sep s : Js.occurs sep s = false -> Js.split sep s = [s].
Proof.
  induction s as [|c r IH]; [reflexivity|].
  simpl. intros H. apply orb_false_iff in H as [H1 H2].
  now rewrite H1, (IH H2).
Qed.

Lemma split_segment sep a b :
  Js.occurs sep a = false ->
  Js.split sep (a +:+ String sep b) = a :: Js.split sep b.
Proof.
  induction a as [|c r IH]; intros H.
  - simpl. now rewrite Ascii.eqb_refl.
  - simpl in H. apply orb_false_iff in H as [H1 H2].
    simpl. now rewrite H1, (IH H2).
Qed.

Lemma occurs_substring c n m s :
  Js.occurs c s = false -> Js.occurs c (String.substring n m s) = false.
Proof.
  revert n m. induction s as [|d r IH]; intros n m H.
  - destruct n, m; reflexivity.
  - simpl in H. apply orb_false_iff in H as [H1 H2].
    destruct n as [|n]; [destruct m as [|m]|]; simpl; [reflexivity | | now apply IH].
    now rewrite H1, IH.
Qed.

Lemma occurs_slash_sanitizeFilename f : Js.occurs "/" (sanitizeFilename f) = false.
Proof. apply clean_occurs; [apply clean_sanitizeFilename | reflexivity]. Qed.

(** A valid digest consists of hexadecimal digits, none of them a
    slash. *)
Lemma validateSha256Hash_no_slash d :
  Hasher.validateSha256Hash d = true -> Js.occurs "/" d = false.
Proof.
  unfold Hasher.validateSha256Hash. intros H. apply andb_true_iff in H as [_ H].
  induction d as [|c r IH]; [reflexivity|].
  simpl in *. apply andb_true_iff in H as [Hc Hr]. rewrite (IH Hr), orb_false_r.
  destruct (Ascii.eqb c "/") eqn:E; [|reflexivity].
  apply Ascii.eqb_eq in E. now subst c.
Qed.

End BucketKeyFacts.

Section BucketKeyProperties.
Import Mime.

(** C10. The sanitized filename contains none of the nine dangerous
    characters and no two adjacent dots; hence a bucket key built on a
    digest string without a slash (a hexadecimal digest, or the UUID of
    a staging key) splits at its slashes into exactly five segments, the
    last of which is the sanitized filename, free of any traversal
    sequence. *)
Theorem sanitizeFilename_safe_bucketKey (d f : string) :
  Js.occurs "/" d = false ->
  (forall c, In c [ "<"%char; ">"%char; ":"%char; "034"%char; "/"%char;
                    "\"%char; "|"%char; "?"%char; "*"%char ] ->
             Js.occurs c (sanitizeFilename f) = false)
  /\ Js.occursTwice "." (sanitizeFilename f) = false
  /\ Js.split "/" (generateBucketKey d f)
     = [ "sha256"; Js.slice 0 2 d; Js.slice 2 4 d; d; sanitizeFilename f ]
  /\ length (Js.split "/" (generateBucketKey d f)) = 5%nat.
Proof.
  intros Hd.
  assert (Hsplit : Js.split "/" (generateBucketKey d f)
     = [ "sha256"; Js.slice 0 2 d; Js.slice 2 4 d; d; sanitizeFilename f ]).
  { unfold generateBucketKey.
    change ("sha256/" +:+ ?x) with ("sha256" +:+ String "/" x).
    rewrite split_segment by reflexivity.
    change (?a +:+ "/" +:+ ?b) with (a +:+ String "/" b).
    rewrite split_segment by (apply occurs_substring, Hd).
    change (Js.slice 2 4 d +:+ "/" +:+ ?b) with (Js.slice 2 4 d +:+ String "/" b).
    rewrite split_segment by (apply occurs_substring, Hd).
    change (d +:+ "/" +:+ ?b) with (d +:+ String "/" b).
    rewrite split_segment by exact Hd.
    now rewrite split_no_sep by apply occurs_slash_sanitizeFilename. }
  repeat split.
  - intros c Hc. apply clean_occurs; [apply clean_sanitizeFilename|].
    now apply isDangerous_In.
  - apply noDotDot_sanitizeFilename.
  - exact Hsplit.
  - now rewrite Hsplit.
Qed.

Lemma sanitizeFilename_safe_bucketKey_witness :
  Js.split "/"
    (generateBucketKey
       "7509e5bda0c762d2bac7f90d758b5b2263fa01ccbc542ab5e3df163be08e6ca9"
       "../e?.pdf")
  = [ "sha256"; "75"; "09";
      "7509e5bda0c762d2bac7f90d758b5b2263fa01ccbc542ab5e3df163be08e6ca9";
      "__e_.pdf" ].
Proof.
  exact (proj1 (proj2 (proj2
    (sanitizeFilename_safe_bucketKey
       "7509e5bda0c762d2bac7f90d758b5b2263fa01ccbc542ab5e3df163be08e6ca9"
       "../e?.pdf" eq_refl)))).
Defined.

End BucketKeyProperties.

(** ** The MIME guard *)

Section MimeProperties.
Import Errors Mime.

Lemma includes_In xs x : includes xs x = true <-> In x xs.
Proof.
  unfold includes. rewrite existsb_exists. split.
  - intros (y & Hy & E). apply String.eqb_eq in E. now subst.
  - intros H. exists x. split; [exact H | apply String.eqb_refl].
Qed.

Lemma validateMimeType_Ok m : validateMimeType m = Ok tt <-> isAllowedMimeType m = true.
Proof.
  unfold validateMimeType. destruct (isAllowedMimeType m); simpl; split; congruence.
Qed.

(** C8, counterexample. [image/jpg] passes the guard although it is, up
    to case, none of the nine types the specification lists. *)
Lemma validateMimeType_accepts_image_jpg :
  validateMimeType "image/jpg" = Ok tt
  /\ ~ exists t,
         In t [ "application/pdf"; "image/png"; "image/jpeg"; "text/csv";
                "application/json"; "application/zip";
                "application/x-zip-compressed"; "text/plain";
                "application/octet-stream" ]
         /\ Js.toLowerCase "image/jpg" = Js.toLowerCase t.
Proof.
  split; [reflexivity|].
  intros (t & Hin & E). simpl in Hin.
  repeat (destruct Hin as [<- | Hin]; [discriminate E|]). exact Hin.
Qed.

(** C8, amended. The guard accepts a MIME string if and only if it is,
    up to case, one of the ten types of the allow-list (the nine of the
    specification and [image/jpg]); every other string is rejected with the
    error of code UNSUPPORTED_MIME_TYPE and status 415. *)
Theorem validateMimeType_accepts_iff (m : string) :
  (validateMimeType m = Ok tt
   <-> exists t,
         In t [ "application/pdf"; "image/png"; "image/jpeg"; "image/jpg";
                "text/csv"; "application/json"; "application/zip";
                "application/x-zip-compressed"; "text/plain";
                "application/octet-stream" ]
         /\ Js.toLowerCase m = Js.toLowerCase t)
  /\ (validateMimeType m <> Ok tt
      <-> exists e,
            validateMimeType m = Throw (Locker e)
            /\ cls e = ClsUnsupportedMimeType
            /\ code e = "UNSUPPORTED_MIME_TYPE" /\ statusCode e = 415).
Proof.
  split.
  - rewrite validateMimeType_Ok. unfold isAllowedMimeType.
    rewrite includes_In. split.
    + intros H. exists (Js.toLowerCase m). split; [exact H|].
      simpl in H.
      repeat (destruct H as [<- | H]; [reflexivity|]). destruct H.
    + intros (t & Hin & E). rewrite E. simpl in Hin.
      repeat (destruct Hin as [<- | Hin]; [simpl; tauto|]). destruct Hin.
  - unfold validateMimeType. destruct (isAllowedMimeType m); simpl; split.
    + congruence.
    + intros (e & H & _). discriminate H.
    + intros _. eexists. repeat split.
    + congruence.
Qed.

End MimeProperties.

(** ** The catalog primitives *)

Section CatalogFacts.
Import Sys.

Lemma truthy_ne s : s <> "" -> Js.truthy s = true.
Proof. intros H. unfold Js.truthy. apply negb_true_iff, String.eqb_neq, H. Qed.

Lemma truthy_true s : Js.truthy s = true -> s <> "".
Proof. unfold Js.truthy. intros H. apply String.eqb_neq, negb_true_iff, H. Qed.

(** A row update that keeps the digests keeps the lookups by digest. *)
Lemma find_hasDigest_map (g : Artifact.t -> Artifact.t) h l :
  (forall x, Artifact.sha256Hex (g x) = Artifact.sha256Hex x) ->
  find (hasDigest h) (map g l) = g <$> find (hasDigest h) l.
Proof.
  intros Hg. induction l as [|x l IH]; [reflexivity|].
  simpl. unfold hasDigest at 1 3. rewrite Hg.
  destruct (Artifact.sha256Hex x =? h)%string; [reflexivity | exact IH].
Qed.

Lemma find_snoc {A} (p : A -> bool) l a :
  find p l = None -> p a = true -> find p (l ++ [a]) = Some a.
Proof.
  intros Hl Ha. induction l as [|x l IH]; simpl in *; [now rewrite Ha|].
  destruct (p x); [discriminate | now apply IH].
Qed.

Lemma find_Some_existsb {A} (p : A -> bool) l a :
  find p l = Some a -> existsb p l = true /\ p a = true.
Proof.
  induction l as [|x l IH]; [discriminate|].
  simpl. destruct (p x) eqn:E.
  - intros [= <-]. now split.
  - intros H. now apply IH.
Qed.

End CatalogFacts.

(** ** The complete phase *)

(** Runs the handler through authentication, session lookup, expiry
    check, bucket-key check and the read of the stored object, given the
    facts that decide these steps. *)
Ltac complete_prefix Hauth Hsession Hlive Hkey Hkey_set Hstored :=
  unfold Upload.complete, Sys.handle, Upload.completeBody, Sys.bind, Sys.lift,
    Sys.findUploadSession, Sys.gets;
  rewrite Hauth, Hsession;
  rewrite (proj2 (Z.ltb_ge _ _) Hlive);
  rewrite Hkey; cbn [Js.truthyOpt default from_option id negb];
  rewrite (truthy_ne _ Hkey_set); cbn [negb];
  unfold Sys.getObject at 1; rewrite Hstored.

Section CompleteFacts.
Import Errors Sys Upload.

Variable P : Platform.
Variables (req : CompleteRequest) (d : CompleteDraw) (st : State).
Variables (ctx : Auth.AuthContext) (us : UploadSession.t) (key content : string).

(** The call is authenticated, its session exists and has not expired,
    and the object of its bucket key is stored. *)
Hypothesis Hauth :
  Auth.authenticate (hmacSha256Hex P) (config P) (completeHeaders req)
    (completeBodyJson req) = Ok ctx.
Hypothesis Hsession : uploadSessions st !! uploadId req = Some us.
Hypothesis Hlive : atExpiryCheck d <= UploadSession.expiresAt us.
Hypothesis Hkey : UploadSession.bucketKey us = Some key.
Hypothesis Hkey_set : key <> "".
Hypothesis Hstored : objects st !! key = Some content.

Local Abbreviation digest := (sha256 (computeHashFromStream P content)).

Lemma hashMismatch_declared declared :
  UploadSession.sha256Hex us = Some declared ->
  declared <> "" ->
  declared <> digest ->
  hashMismatch us (computeHashFromStream P content) = true.
Proof.
  intros Hd Hne Hdiff. unfold hashMismatch. rewrite Hd.
  cbn [Js.truthyOpt default from_option id].
  now rewrite (truthy_ne _ Hne), (proj2 (String.eqb_neq _ _) Hdiff).
Qed.

(** S6: a declared digest that differs. *)
Lemma complete_mismatch :
  hashMismatch us (computeHashFromStream P content) = true ->
  complete P req d st
  = (mkState
       (<[uploadId req := UploadSession.setStatus UploadSession.ABORTED us]>
          (uploadSessions st))
       (artifacts st) (objects st) (pinLog st),
     sendError (HashMismatchError (default "" (UploadSession.sha256Hex us)) digest)).
Proof.
  intros Hmis.
  complete_prefix Hauth Hsession Hlive Hkey Hkey_set Hstored.
  rewrite Hmis. unfold updateUploadSession, throw. rewrite Hsession.
  reflexivity.
Qed.

(** S8a: the digest is in the catalog. *)
Lemma complete_known artifact :
  hashMismatch us (computeHashFromStream P content) = false ->
  find (hasDigest digest) (artifacts st) = Some artifact ->
  complete P req d st
  = (mkState
       (<[uploadId req :=
            UploadSession.setStatusCompletedAt UploadSession.COMPLETE
              (atCompleted d) us]> (uploadSessions st))
       (artifacts st) (objects st) (pinLog st),
     Sent 200 (descriptor artifact (Artifact.cidV1 artifact))).
Proof.
  intros Hagree Hfind.
  complete_prefix Hauth Hsession Hlive Hkey Hkey_set Hstored.
  rewrite Hagree. unfold findArtifact, gets. rewrite Hfind.
  unfold updateUploadSession. rewrite Hsession. reflexivity.
Qed.

(** The pinning block never fails the request; it leaves sessions and
    objects alone and changes at most the cid of rows. *)
Lemma pinNewArtifact_spec k a st0 :
  exists log c g,
    pinNewArtifact P k a st0
    = (mkState (uploadSessions st0) (map g (artifacts st0)) (objects st0) log, Ok c)
    /\ (forall x, Artifact.sha256Hex (g x) = Artifact.sha256Hex x)
    /\ (forall x, Artifact.id (g x) = Artifact.id x)
    /\ (forall x, Artifact.bucketKey (g x) = Artifact.bucketKey x
                  /\ Artifact.filename (g x) = Artifact.filename x).
Proof.
  assert (Hid : forall l : list Artifact.t, map (fun x => x) l = l)
    by (intros l; apply map_id).
  unfold pinNewArtifact. destruct (ipfs P) as [pin|].
  2:{ exists (pinLog st0), None, (fun x => x). rewrite Hid.
      destruct st0; repeat split. }
  unfold bind, getObject.
  destruct (objects st0 !! k) as [c|].
  2:{ exists (pinLog st0), None, (fun x => x). rewrite Hid.
      destruct (createStorageDriver (config P)); destruct st0; repeat split. }
  unfold pinFile.
  destruct (pin c) as [cid|].
  2:{ exists (c :: pinLog st0), None, (fun x => x). rewrite Hid. repeat split. }
  unfold updateArtifact. cbn [artifacts uploadSessions objects pinLog].
  destruct (existsb (hasId (Artifact.id a)) (artifacts st0)).
  - exists (c :: pinLog st0), (Some cid), (onRow (Artifact.id a) (Artifact.setCidV1 cid)).
    repeat split; try intros x; unfold onRow; now destruct (hasId (Artifact.id a) x).
  - exists (c :: pinLog st0), None, (fun x => x). rewrite Hid. repeat split.
Qed.

(** The row S8b inserts. *)
Local Abbreviation newRow :=
  (Artifact.mk (artifactRowId d) digest
     (Sys.sizeBytes (computeHashFromStream P content))
     (if Js.truthyOpt (UploadSession.mimeHint us)
      then default "" (UploadSession.mimeHint us)
      else "application/octet-stream")
     (UploadSession.filename us) key None (Auth.orgId ctx)
     (UploadSession.projectId us) (UploadSession.issuanceId us)
     (Some (atVerified d)) Artifact.defaultScanStatus (artifactCreatedAt d)).

(** S8b to S11: the digest is new and the database accepts the row. *)
Lemma complete_new :
  hashMismatch us (computeHashFromStream P content) = false ->
  find (hasDigest digest) (artifacts st) = None ->
  existsb (hasId (artifactRowId d)) (artifacts st) = false ->
  exists log c g,
    complete P req d st
    = (mkState
         (<[uploadId req :=
              UploadSession.setStatusCompletedAt UploadSession.COMPLETE
                (atCompleted d) us]> (uploadSessions st))
         (map g (artifacts st ++ [newRow])) (objects st) log,
       Sent 200 (descriptor newRow c))
    /\ (forall x, Artifact.sha256Hex (g x) = Artifact.sha256Hex x)
    /\ (forall x, Artifact.id (g x) = Artifact.id x)
    /\ (forall x, Artifact.bucketKey (g x) = Artifact.bucketKey x
                  /\ Artifact.filename (g x) = Artifact.filename x).
Proof.
  intros Hagree Hfind Hfresh.
  complete_prefix Hauth Hsession Hlive Hkey Hkey_set Hstored.
  rewrite Hagree. unfold findArtifact, gets. rewrite Hfind.
  unfold createArtifact. cbn [Artifact.id Artifact.sha256Hex].
  rewrite Hfresh.
  assert (Hnone : existsb (hasDigest digest) (artifacts st) = false).
  { destruct (existsb (hasDigest digest) (artifacts st)) eqn:E; [|reflexivity].
    apply existsb_exists in E as (x & Hx & Hp).
    exfalso. eapply find_none in Hfind; [|exact Hx]. congruence. }
  rewrite Hnone. cbn [orb].
  match goal with
  | |- context [pinNewArtifact P key ?a ?s] =>
      destruct (pinNewArtifact_spec key a s) as (log & c & g & Hpin & Hg1 & Hg2 & Hg3)
  end.
  rewrite Hpin. unfold updateUploadSession. cbn [uploadSessions artifacts objects pinLog].
  rewrite Hsession. exists log, c, g. repeat split; try assumption; apply Hg3.
Qed.

End CompleteFacts.

Section CompleteProperties.
Import Errors Sys Upload.

Variable P : Platform.
Variables (req : CompleteRequest) (d : CompleteDraw) (st : State).
Variables (ctx : Auth.AuthContext) (us : UploadSession.t) (key content : string).

Hypothesis Hauth :
  Auth.authenticate (hmacSha256Hex P) (config P) (completeHeaders req)
    (completeBodyJson req) = Ok ctx.
Hypothesis Hsession : uploadSessions st !! uploadId req = Some us.

(** C3. A complete call that reaches the hash check (authenticated,
    session found and not expired, object stored under the bucket key)
    on a session whose declared digest differs from the digest of the
    stored bytes sets the session ABORTED, is answered 409 with code
    HASH_MISMATCH, and creates no artifact. *)
Theorem complete_rejects_hash_mismatch (declared : string) :
  atExpiryCheck d <= UploadSession.expiresAt us ->
  UploadSession.bucketKey us = Some key ->
  key <> "" ->
  objects st !! key = Some content ->
  UploadSession.sha256Hex us = Some declared ->
  declared <> "" ->
  declared <> sha256 (computeHashFromStream P content) ->
  exists st' body,
    complete P req d st = (st', Failed 409 body)
    /\ errorCode body = Some "HASH_MISMATCH"
    /\ UploadSession.status <$> uploadSessions st' !! uploadId req
       = Some UploadSession.ABORTED
    /\ artifacts st' = artifacts st.
Proof.
  intros Hlive Hkey Hkey_set Hstored Hd Hne Hdiff.
  pose proof (hashMismatch_declared P us content declared Hd Hne Hdiff) as Hmis.
  rewrite (complete_mismatch P req d st ctx us key content
             Hauth Hsession Hlive Hkey Hkey_set Hstored Hmis).
  eexists _, _. split; [reflexivity|].
  cbn [uploadSessions artifacts]. rewrite lookup_insert_eq. repeat split.
Qed.

(** C4. A complete call whose computed digest already has an artifact
    in the catalog creates no artifact, marks the session COMPLETE with
    completedAt the time of the call, sends no pin request, and answers
    with the descriptor of the existing artifact. *)
Theorem complete_dedup_hit (artifact : Artifact.t) :
  atExpiryCheck d <= UploadSession.expiresAt us ->
  UploadSession.bucketKey us = Some key ->
  key <> "" ->
  objects st !! key = Some content ->
  hashMismatch us (computeHashFromStream P content) = false ->
  find (hasDigest (sha256 (computeHashFromStream P content))) (artifacts st)
  = Some artifact ->
  exists st' r,
    complete P req d st = (st', Sent 200 r)
    /\ artifacts st' = artifacts st
    /\ UploadSession.status <$> uploadSessions st' !! uploadId req
       = Some UploadSession.COMPLETE
    /\ uploadSessions st' !! uploadId req ≫= UploadSession.completedAt
       = Some (atCompleted d)
    /\ pinLog st' = pinLog st
    /\ r_artifactId r = Artifact.id artifact
    /\ r_sha256Hex r = Artifact.sha256Hex artifact
    /\ r_sizeBytes r = Artifact.sizeBytes artifact
    /\ r_mime r = Artifact.mime artifact
    /\ r_artifactBucketKey r = Artifact.bucketKey artifact
    /\ r_cidV1 r = Artifact.cidV1 artifact.
Proof.
  intros Hlive Hkey Hkey_set Hstored Hagree Hfind.
  rewrite (complete_known P req d st ctx us key content
             Hauth Hsession Hlive Hkey Hkey_set Hstored artifact Hagree Hfind).
  eexists _, _. split; [reflexivity|].
  cbn [uploadSessions artifacts pinLog]. rewrite lookup_insert_eq. repeat split.
Qed.

(** C5, amended. A complete call on a session whose expiresAt lies in
    the past is answered 410 with the session-expired error (code
    UPLOAD_SESSION_EXPIRED) and changes nothing: the session keeps the
    status it had, so the call moves it neither to COMPLETE nor to
    EXPIRED. *)
Theorem complete_rejects_expired :
  UploadSession.expiresAt us < atExpiryCheck d ->
  complete P req d st
  = (st, Failed 410
           (mkErrorBody ("Upload session '" +:+ uploadId req +:+ "' has expired")
                        (Some "UPLOAD_SESSION_EXPIRED"))).
Proof.
  intros Hexp.
  unfold complete, handle, completeBody, bind, lift, findUploadSession, gets.
  rewrite Hauth, Hsession. rewrite (proj2 (Z.ltb_lt _ _) Hexp). reflexivity.
Qed.

End CompleteProperties.

Section CompleteTwice.
Import Errors Sys Upload.

Variable P : Platform.

Lemma catch_not_Sent {A} classes x status (a : A) : catch classes x <> Sent status a.
Proof.
  unfold catch, sendError, sendInternal.
  destruct x; [destruct (existsb _ _)|]; discriminate.
Qed.

(** What a successful complete call has established. *)
Lemma complete_Sent_inv req d st st1 r :
  complete P req d st = (st1, Sent 200 r) ->
  exists ctx us key content a,
    Auth.authenticate (hmacSha256Hex P) (config P) (completeHeaders req)
      (completeBodyJson req) = Ok ctx
    /\ uploadSessions st !! uploadId req = Some us
    /\ UploadSession.bucketKey us = Some key
    /\ key <> ""
    /\ objects st !! key = Some content
    /\ hashMismatch us (computeHashFromStream P content) = false
    /\ uploadSessions st1
       = <[uploadId req :=
             UploadSession.setStatusCompletedAt UploadSession.COMPLETE
               (atCompleted d) us]> (uploadSessions st)
    /\ objects st1 = objects st
    /\ find (hasDigest (sha256 (computeHashFromStream P content))) (artifacts st1)
       = Some a
    /\ r_artifactId r = Artifact.id a.
Proof.
  intros H. unfold complete, handle in H.
  destruct (completeBody P req d st) as [st' [r'|x]] eqn:E.
  2:{ injection H as _ H. now apply catch_not_Sent in H. }
  injection H as <- <-.
  unfold completeBody, bind, lift, findUploadSession, gets, throw in E.
  destruct (Auth.authenticate _ _ _ _) as [ctx|] eqn:Hauth; [|discriminate].
  destruct (uploadSessions st !! uploadId req) as [us|] eqn:Hs; [|discriminate].
  destruct (UploadSession.expiresAt us <? atExpiryCheck d)%Z; [discriminate|].
  destruct (UploadSession.bucketKey us) as [key|] eqn:Hkey;
    cbn [Js.truthyOpt default from_option id negb] in E; [|discriminate].
  destruct (Js.truthy key) eqn:Htr; cbn [negb] in E; [|discriminate].
  unfold getObject at 1 in E.
  destruct (objects st !! key) as [content|] eqn:Hobj;
    [|destruct (createStorageDriver (config P)); discriminate].
  destruct (hashMismatch us (computeHashFromStream P content)) eqn:Hmis.
  { unfold updateUploadSession in E. rewrite Hs in E. discriminate. }
  unfold findArtifact, gets in E.
  destruct (find _ (artifacts st)) as [a|] eqn:Hfind.
  - unfold updateUploadSession in E. rewrite Hs in E. injection E as <- <-.
    exists ctx, us, key, content, a.
    repeat split; try assumption; try reflexivity. now apply truthy_true.
  - unfold createArtifact in E.
    destruct (existsb _ (artifacts st) || existsb _ (artifacts st)); [discriminate|].
    match type of E with
    | context [pinNewArtifact P key ?row ?s] =>
        destruct (pinNewArtifact_spec P key row s) as (log & c & g & Hpin & Hg1 & Hg2 & Hg3);
        rewrite Hpin in E; set (newRow := row) in *
    end.
    unfold updateUploadSession in E.
    cbn [uploadSessions artifacts objects pinLog] in E.
    rewrite Hs in E. injection E as <- <-.
    exists ctx, us, key, content, (g newRow).
    repeat split; try assumption; try reflexivity.
    + now apply truthy_true.
    + cbn [artifacts]. rewrite (find_hasDigest_map g _ _ Hg1).
      rewrite (find_snoc _ _ newRow Hfind); [reflexivity|].
      unfold hasDigest, newRow. cbn [Artifact.sha256Hex]. apply String.eqb_refl.
    + rewrite Hg2. reflexivity.
Qed.

(** C1, amended. A complete call for an uploadId that a complete call
    has already answered with an artifact, made before the session
    expires, succeeds again: it returns the same artifactId, creates no
    artifact, sends no pin request and leaves the status COMPLETE, but it
    overwrites completedAt with its own time. *)
Theorem complete_again req d1 d2 st st1 r1 us1 :
  complete P req d1 st = (st1, Sent 200 r1) ->
  uploadSessions st1 !! uploadId req = Some us1 ->
  atExpiryCheck d2 <= UploadSession.expiresAt us1 ->
  UploadSession.status us1 = UploadSession.COMPLETE
  /\ UploadSession.completedAt us1 = Some (atCompleted d1)
  /\ exists st2 r2,
       complete P req d2 st1 = (st2, Sent 200 r2)
       /\ r_artifactId r2 = r_artifactId r1
       /\ artifacts st2 = artifacts st1
       /\ pinLog st2 = pinLog st1
       /\ UploadSession.status <$> uploadSessions st2 !! uploadId req
          = Some UploadSession.COMPLETE
       /\ uploadSessions st2 !! uploadId req ≫= UploadSession.completedAt
          = Some (atCompleted d2).
Proof.
  intros H1 Hs1 Hlive.
  destruct (complete_Sent_inv _ _ _ _ _ H1)
    as (ctx & us & key & content & a & Hauth & Hs & Hkey & Hkey_set & Hobj
        & Hmis & Hsess1 & Hobj1 & Hfind1 & Hid).
  rewrite Hsess1, lookup_insert_eq in Hs1. injection Hs1 as <-.
  split; [reflexivity|]. split; [reflexivity|].
  assert (Hs1 : uploadSessions st1 !! uploadId req
                = Some (UploadSession.setStatusCompletedAt UploadSession.COMPLETE
                          (atCompleted d1) us))
    by (rewrite Hsess1; apply lookup_insert_eq).
  assert (Hobj' : objects st1 !! key = Some content) by now rewrite Hobj1.
  rewrite (complete_known P req d2 st1 ctx _ key content
             Hauth Hs1 Hlive Hkey Hkey_set Hobj' a Hmis Hfind1).
  eexists _, _. split; [reflexivity|].
  cbn [uploadSessions artifacts pinLog r_artifactId descriptor].
  rewrite lookup_insert_eq. now rewrite Hid.
Qed.

End CompleteTwice.

(** ** The admin rescan *)

Section RescanProperties.
Import Errors Sys Admin.

Variable P : Platform.
Variables (req : RescanRequest) (d : RescanDraw) (st : State).
Variables (ctx : Auth.AuthContext) (artifact : Artifact.t) (content : string).

(** C9. An admin rescan of an existing artifact whose object is stored:
    when the recomputed digest differs from the stored one the call is
    answered 500 with code STORAGE_ERROR and nothing changes, so no scan
    status is set; when the digests match, the artifact gets scanStatus
    CLEAN and verifiedAt the time of the call. *)
Theorem rescan_checks_digest :
  Auth.authenticate (hmacSha256Hex P) (config P) (rescanHeaders req)
    (rescanBodyJson req) = Ok ctx ->
  Auth.appKey ctx = "registry" ->
  find (hasDigest (sha256Hex req)) (artifacts st) = Some artifact ->
  objects st !! Artifact.bucketKey artifact = Some content ->
  (sha256 (computeHashFromStream P content) <> Artifact.sha256Hex artifact ->
   rescan P req d st
   = (st, Failed 500 (mkErrorBody "Hash mismatch during rescan" (Some "STORAGE_ERROR"))))
  /\ (sha256 (computeHashFromStream P content) = Artifact.sha256Hex artifact ->
      exists st' r,
        rescan P req d st = (st', Sent 200 r)
        /\ r_scanStatus r = Artifact.CLEAN
        /\ find (hasDigest (sha256Hex req)) (artifacts st')
           = Some (Artifact.setScan Artifact.CLEAN (atVerified d) artifact)
        /\ Artifact.scanStatus <$> find (hasDigest (sha256Hex req)) (artifacts st')
           = Some Artifact.CLEAN
        /\ find (hasDigest (sha256Hex req)) (artifacts st') ≫= Artifact.verifiedAt
           = Some (atVerified d)).
Proof.
  intros Hauth Hreg Hfind Hstored.
  assert (Hrun : rescan P req d st
    = handle 200 [ClsNotFound; ClsAuthorization; ClsStorage]
        (if negb (String.eqb (sha256 (computeHashFromStream P content))
                             (Artifact.sha256Hex artifact))
         then throw (StorageError "Hash mismatch during rescan")
         else bind (updateArtifact (Artifact.id artifact)
                      (Artifact.setScan Artifact.CLEAN (atVerified d)))
                (fun _ => ret (mkRescanReply "Artifact rescanned successfully"
                                 (Artifact.sha256Hex artifact) Artifact.CLEAN
                                 (atReply d)))) st).
  { unfold rescan, handle, rescanBody, bind at 1 2 3 4, lift, findArtifact, gets.
    rewrite Hauth. unfold Auth.requireAuth. rewrite Hreg.
    cbn [Js.truthy String.eqb Ascii.eqb Bool.eqb negb andb].
    rewrite Hfind. unfold getObject. rewrite Hstored. reflexivity. }
  rewrite Hrun. clear Hrun. split.
  - intros Hdiff. rewrite (proj2 (String.eqb_neq _ _) Hdiff). reflexivity.
  - intros Hsame. rewrite (proj2 (String.eqb_eq _ _) Hsame).
    cbn [negb]. unfold handle, bind, updateArtifact.
    destruct (find_Some_existsb _ _ _ Hfind) as [_ Hd].
    assert (Hin : existsb (hasId (Artifact.id artifact)) (artifacts st) = true).
    { apply existsb_exists. exists artifact. split.
      - eapply find_some, Hfind.
      - unfold hasId. apply String.eqb_refl. }
    rewrite Hin. eexists _, _. split; [reflexivity|].
    cbn [artifacts r_scanStatus].
    assert (Hfind' :
      find (hasDigest (sha256Hex req))
        (map (onRow (Artifact.id artifact)
                (Artifact.setScan Artifact.CLEAN (atVerified d))) (artifacts st))
      = Some (Artifact.setScan Artifact.CLEAN (atVerified d) artifact)).
    { rewrite find_hasDigest_map.
      - rewrite Hfind. cbn [fmap option_fmap option_map]. unfold onRow, hasId.
        now rewrite String.eqb_refl.
      - intros x. unfold onRow. now destruct (hasId (Artifact.id artifact) x). }
    rewrite Hfind'. repeat split.
Qed.

End RescanProperties.

(** ** The bucket key of a new artifact *)

Section BucketKeyOfArtifact.
Import Errors Sys Upload.

Variable P : Platform.

Lemma generateBucketKey_layout d f :
  Mime.generateBucketKey d f = Mime.keyLayout d (Mime.sanitizeFilename f).
Proof. reflexivity. Qed.

(** What init stores for a caller who declares a digest: the normalized
    digest, valid, and the key of that digest and of the session's own
    (sanitized) filename. *)
Lemma init_declared_session req dr st0 st1 r :
  init P req dr st0 = (st1, Sent 201 r) ->
  Js.truthyOpt (declaredSha256 req) = true ->
  exists us declared,
    uploadSessions st1 !! uploadIdUUID dr = Some us
    /\ UploadSession.sha256Hex us = Some declared
    /\ Hasher.validateSha256Hash declared = true
    /\ UploadSession.bucketKey us
       = Some (Mime.keyLayout declared (UploadSession.filename us)).
Proof.
  intros H Hdecl. unfold init, handle in H.
  destruct (initBody P req dr st0) as [st' [r'|x]] eqn:E.
  2:{ injection H as _ H. now apply catch_not_Sent in H. }
  injection H as <- <-.
  unfold initBody, bind, lift, throw, ret in E. rewrite Hdecl in E.
  destruct (Auth.authenticate _ _ _ _) as [ctx|]; [|discriminate].
  destruct (sizeBytes req) as [n|];
    [destruct (negb (n =? 0)%Z && (Env.MAX_UPLOAD_BYTES (config P) <? n)%Z);
       [discriminate|]|];
    cbn [andb] in E;
    (destruct (Hasher.validateSha256Hash _) eqn:Hvalid; cbn [negb] in E;
       [|discriminate]);
    (destruct (Js.truthyOpt (mimeHint req));
       [destruct (Mime.validateMimeType _); [|discriminate]|]);
    unfold createUploadSession in E; cbn [UploadSession.id] in E;
    (destruct (uploadSessions st0 !! uploadIdUUID dr); [discriminate|]);
    injection E as <- <-; eexists _, _;
    cbn [uploadSessions]; rewrite lookup_insert_eq;
    (split; [reflexivity|]);
    cbn [UploadSession.sha256Hex UploadSession.bucketKey UploadSession.filename];
    (split; [reflexivity|]); (split; [exact Hvalid|]); reflexivity.
Qed.

(** Whatever the digest, a complete call that creates an artifact gives
    it the bucket key of the session. *)
Lemma complete_new_stores_session_key req d st ctx us key content :
  Auth.authenticate (hmacSha256Hex P) (config P) (completeHeaders req)
    (completeBodyJson req) = Ok ctx ->
  uploadSessions st !! uploadId req = Some us ->
  atExpiryCheck d <= UploadSession.expiresAt us ->
  UploadSession.bucketKey us = Some key ->
  key <> "" ->
  objects st !! key = Some content ->
  hashMismatch us (computeHashFromStream P content) = false ->
  find (hasDigest (sha256 (computeHashFromStream P content))) (artifacts st) = None ->
  existsb (hasId (artifactRowId d)) (artifacts st) = false ->
  exists st' r a,
    complete P req d st = (st', Sent 200 r)
    /\ r_artifactBucketKey r = key
    /\ find (hasDigest (sha256 (computeHashFromStream P content))) (artifacts st')
       = Some a
    /\ Artifact.bucketKey a = key.
Proof.
  intros Hauth Hs Hlive Hkey Hkey_set Hobj Hmis Hfind Hfresh.
  destruct (complete_new P req d st ctx us key content Hauth Hs Hlive Hkey Hkey_set
              Hobj Hmis Hfind Hfresh)
    as (log & c & g & Hrun & Hg1 & Hg2 & Hg3).
  rewrite Hrun. eexists _, _, _. split; [reflexivity|]. split; [reflexivity|].
  cbn [artifacts]. rewrite (find_hasDigest_map g _ _ Hg1).
  rewrite (find_snoc _ _ _ Hfind)
    by (unfold hasDigest; cbn [Artifact.sha256Hex]; apply String.eqb_refl).
  split; [reflexivity|]. now rewrite (proj1 (Hg3 _)).
Qed.

(** The path with a declared digest conforms: a complete call that
    creates an artifact for such a session gives it the key of its own
    digest and filename. *)
Lemma complete_declared_key req d st ctx us declared content :
  Auth.authenticate (hmacSha256Hex P) (config P) (completeHeaders req)
    (completeBodyJson req) = Ok ctx ->
  uploadSessions st !! uploadId req = Some us ->
  atExpiryCheck d <= UploadSession.expiresAt us ->
  UploadSession.sha256Hex us = Some declared ->
  declared <> "" ->
  UploadSession.bucketKey us
  = Some (Mime.keyLayout declared (UploadSession.filename us)) ->
  objects st !! Mime.keyLayout declared (UploadSession.filename us) = Some content ->
  hashMismatch us (computeHashFromStream P content) = false ->
  find (hasDigest (sha256 (computeHashFromStream P content))) (artifacts st) = None ->
  existsb (hasId (artifactRowId d)) (artifacts st) = false ->
  exists st' r a,
    complete P req d st = (st', Sent 200 r)
    /\ find (hasDigest (sha256 (computeHashFromStream P content))) (artifacts st')
       = Some a
    /\ Artifact.id a = artifactRowId d
    /\ Artifact.bucketKey a
       = Mime.keyLayout (Artifact.sha256Hex a) (Artifact.filename a).
Proof.
  intros Hauth Hs Hlive Hd Hne Hkey Hobj Hmis Hfind Hfresh.
  assert (Hkey_set : Mime.keyLayout declared (UploadSession.filename us) <> "")
    by discriminate.
  destruct (complete_new P req d st ctx us _ content Hauth Hs Hlive Hkey Hkey_set
              Hobj Hmis Hfind Hfresh)
    as (log & c & g & Hrun & Hg1 & Hg2 & Hg3).
  rewrite Hrun. eexists _, _, _. split; [reflexivity|].
  cbn [artifacts]. rewrite (find_hasDigest_map g _ _ Hg1).
  rewrite (find_snoc _ _ _ Hfind)
    by (unfold hasDigest; cbn [Artifact.sha256Hex]; apply String.eqb_refl).
  split; [reflexivity|].
  rewrite Hg2, Hg1. destruct (Hg3 (Artifact.mk (artifactRowId d)
    (sha256 (computeHashFromStream P content))
    (Sys.sizeBytes (computeHashFromStream P content))
    (if Js.truthyOpt (UploadSession.mimeHint us)
     then default "" (UploadSession.mimeHint us) else "application/octet-stream")
    (UploadSession.filename us) (Mime.keyLayout declared (UploadSession.filename us))
    None (Auth.orgId ctx) (UploadSession.projectId us) (UploadSession.issuanceId us)
    (Some (atVerified d)) Artifact.defaultScanStatus (artifactCreatedAt d))) as [-> ->].
  cbn [Artifact.id Artifact.bucketKey Artifact.sha256Hex Artifact.filename].
  split; [reflexivity|].
  unfold hashMismatch in Hmis. rewrite Hd in Hmis.
  cbn [Js.truthyOpt default from_option id] in Hmis.
  rewrite (truthy_ne _ Hne) in Hmis. cbn [andb] in Hmis.
  apply negb_false_iff, String.eqb_eq in Hmis. now rewrite <- Hmis.
Qed.

End BucketKeyOfArtifact.

(** ** Authentication failures *)

Section AuthFacts.
Import Errors Sys.

Variable hmacSha256Hex : string -> string -> string.
Variable config : Env.Config.

(** An unknown app key. *)
Lemma authenticateRequest_unknown_key appKey signature body :
  Env.parseAppKeys config !! appKey = None ->
  Auth.authenticateRequest hmacSha256Hex config appKey signature body
  = Throw (Locker (AuthenticationError ("Invalid app key: " +:+ appKey))).
Proof. intros H. unfold Auth.authenticateRequest. now rewrite H. Qed.

(** A known app key with a signature that is not the expected one,
    whatever its length. *)
Lemma authenticateRequest_wrong_signature appKey secret signature body :
  Env.parseAppKeys config !! appKey = Some secret ->
  secret <> "" ->
  signature <> hmacSha256Hex secret body ->
  Auth.authenticateRequest hmacSha256Hex config appKey signature body
  = Throw (Locker (AuthenticationError "Invalid signature")).
Proof.
  intros H Hs Hsig. unfold Auth.authenticateRequest, Auth.verifyHMACSignature.
  rewrite H. cbn [Js.truthyOpt default from_option id]. rewrite (truthy_ne _ Hs).
  cbn [negb].
  assert (E : (hmacSha256Hex secret body =? signature)%string = false)
    by (apply String.eqb_neq; congruence).
  now rewrite E.
Qed.

(** Both failures are an [AuthenticationError] with status 401 and code
    AUTHENTICATION_ERROR; their messages differ. *)
Lemma authentication_failures_compared appKey :
  let unknown := AuthenticationError ("Invalid app key: " +:+ appKey) in
  let wrong := AuthenticationError "Invalid signature" in
  cls unknown = cls wrong
  /\ code unknown = code wrong
  /\ statusCode unknown = 401 /\ statusCode wrong = 401
  /\ message unknown <> message wrong.
Proof. repeat split. discriminate. Qed.

(** The upload and admin handlers do not list [AuthenticationError] in
    their catch blocks: whatever the cause, a failed authentication is
    answered with the same 500. *)
Lemma complete_unauthenticated (P : Platform) req d st x :
  Auth.authenticate (Sys.hmacSha256Hex P) (Sys.config P) (Upload.completeHeaders req)
    (Upload.completeBodyJson req) = Throw (Locker (AuthenticationError x)) ->
  Upload.complete P req d st
  = (st, Failed 500 (mkErrorBody "Internal server error" None)).
Proof.
  intros H. unfold Upload.complete, handle, Upload.completeBody, bind, lift.
  now rewrite H.
Qed.

End AuthFacts.

(** ** The scenarios *)

Section Scenarios.
Import Errors Sys Upload Demo.

(** Scenario 1: the happy path. *)
Example scenario_happy_path :
  snd (complete platform completeReq (completeAt "artifact-1" 2000) uploadedPlain)
  = Sent 200
      (mkCompleteReply "artifact-1" helloDigest 12 "application/pdf" stagingKey None
         ("/v1/artifacts/" +:+ helloDigest))
  /\ UploadSession.status <$> session completedPlain = Some UploadSession.COMPLETE.
Proof. split; vm_compute; reflexivity. Qed.

(** C1, counterexample. The session of the first scenario is COMPLETE
    with completedAt 2000; a second complete call at 3000 is processed
    like the first and moves completedAt to 3000. *)
Lemma complete_again_moves_completedAt :
  let st2 := fst (complete platform completeReq (completeAt "artifact-2" 3000)
                    completedPlain) in
  UploadSession.status <$> session completedPlain = Some UploadSession.COMPLETE
  /\ session completedPlain ≫= UploadSession.completedAt = Some 2000
  /\ session st2 ≫= UploadSession.completedAt = Some 3000
  /\ session st2 ≫= UploadSession.completedAt
     <> session completedPlain ≫= UploadSession.completedAt.
Proof. vm_compute. repeat split. discriminate. Qed.

Lemma complete_again_witness :
  exists st2 r2,
    complete platform completeReq (completeAt "artifact-2" 3000) completedPlain
    = (st2, Sent 200 r2)
    /\ r_artifactId r2 = "artifact-1"
    /\ artifacts st2 = artifacts completedPlain
    /\ pinLog st2 = pinLog completedPlain
    /\ UploadSession.status <$> uploadSessions st2 !! "upload-1"
       = Some UploadSession.COMPLETE
    /\ uploadSessions st2 !! "upload-1" ≫= UploadSession.completedAt = Some 3000.
Proof.
  refine (proj2 (proj2
    (complete_again platform completeReq (completeAt "artifact-1" 2000)
       (completeAt "artifact-2" 3000) uploadedPlain completedPlain
       (mkCompleteReply "artifact-1" helloDigest 12 "application/pdf" stagingKey None
          ("/v1/artifacts/" +:+ helloDigest))
       (UploadSession.mk "upload-1" None "e.pdf" (Some 12) (Some "application/pdf")
          None None None "token-1" (Some stagingKey) UploadSession.COMPLETE 1000
          301000 (Some 2000))
       _ _ _))).
  - vm_compute. reflexivity.
  - vm_compute. reflexivity.
  - simpl. lia.
Defined.

(** Scenario 2: hash mismatch. *)
Lemma complete_rejects_hash_mismatch_witness :
  exists st' body,
    complete platform completeReq (completeAt "artifact-1" 2000) (uploadedDeclared "hi")
    = (st', Failed 409 body)
    /\ errorCode body = Some "HASH_MISMATCH"
    /\ UploadSession.status <$> uploadSessions st' !! "upload-1"
       = Some UploadSession.ABORTED
    /\ artifacts st' = [].
Proof.
  refine (complete_rejects_hash_mismatch platform completeReq
    (completeAt "artifact-1" 2000) (uploadedDeclared "hi")
    (Auth.mkAuthContext "issuer-portal" None None)
    (UploadSession.mk "upload-1" (Some helloDigest) "e.pdf" (Some 12)
       (Some "application/pdf") None None None "token-1" (Some declaredKey)
       UploadSession.PENDING 1000 301000 None)
    declaredKey "hi" _ _ helloDigest _ _ _ _ _ _ _).
  - vm_compute. reflexivity.
  - vm_compute. reflexivity.
  - simpl. lia.
  - reflexivity.
  - discriminate.
  - vm_compute. reflexivity.
  - reflexivity.
  - discriminate.
  - vm_compute. discriminate.
Defined.

(** Scenario 3: a second session for bytes already in the catalog, on a
    platform with a secondary replica. The first completion pinned the
    bytes; the second sends no pin request. *)
Lemma complete_dedup_hit_witness :
  pinLog uploadedAgain = ["hello world!"]
  /\ exists st' r,
       complete platformWithIpfs completeAgainReq (completeAt "artifact-2" 6000)
         uploadedAgain
       = (st', Sent 200 r)
       /\ artifacts st' = artifacts uploadedAgain
       /\ UploadSession.status <$> uploadSessions st' !! "upload-2"
          = Some UploadSession.COMPLETE
       /\ uploadSessions st' !! "upload-2" ≫= UploadSession.completedAt = Some 6000
       /\ pinLog st' = pinLog uploadedAgain
       /\ r_artifactId r = "artifact-1"
       /\ r_sha256Hex r = helloDigest
       /\ r_sizeBytes r = 12
       /\ r_mime r = "application/pdf"
       /\ r_artifactBucketKey r = stagingKey
       /\ r_cidV1 r = Some "bafy-demo".
Proof.
  split; [vm_compute; reflexivity|].
  refine (complete_dedup_hit platformWithIpfs completeAgainReq
    (completeAt "artifact-2" 6000) uploadedAgain
    (Auth.mkAuthContext "issuer-portal" None None)
    (UploadSession.mk "upload-2" None "copy.pdf" (Some 12)
       (Some "application/pdf") None None None "token-2"
       (Some "sha256/9f/1c/9f1c2d3e-0000-4000-8000-0123456789ab/copy.pdf")
       UploadSession.PENDING 5000 305000 None)
    "sha256/9f/1c/9f1c2d3e-0000-4000-8000-0123456789ab/copy.pdf" "hello world!"
    _ _
    (Artifact.mk "artifact-1" helloDigest 12 "application/pdf" "e.pdf" stagingKey
       (Some "bafy-demo") None None None (Some 2000) Artifact.PENDING 2000)
    _ _ _ _ _ _).
  - vm_compute. reflexivity.
  - vm_compute. reflexivity.
  - simpl. lia.
  - reflexivity.
  - discriminate.
  - vm_compute. reflexivity.
  - vm_compute. reflexivity.
  - vm_compute. reflexivity.
Defined.

(** C5, counterexample (scenario 4). A complete call after expiresAt is
    answered 410, and the session is still PENDING afterwards, not
    EXPIRED. *)
Lemma complete_expired_leaves_pending :
  let out := complete platform completeReq (completeAt "artifact-1" 400000)
               uploadedPlain in
  UploadSession.expiresAt <$> session uploadedPlain = Some 301000
  /\ snd out
     = Failed 410 (mkErrorBody "Upload session 'upload-1' has expired"
                     (Some "UPLOAD_SESSION_EXPIRED"))
  /\ UploadSession.status <$> session (fst out) = Some UploadSession.PENDING
  /\ UploadSession.status <$> session (fst out) <> Some UploadSession.EXPIRED.
Proof. vm_compute. repeat split. discriminate. Qed.

Lemma complete_rejects_expired_witness :
  complete platform completeReq (completeAt "artifact-1" 400000) uploadedPlain
  = (uploadedPlain,
     Failed 410 (mkErrorBody "Upload session 'upload-1' has expired"
                   (Some "UPLOAD_SESSION_EXPIRED"))).
Proof.
  refine (complete_rejects_expired platform completeReq
    (completeAt "artifact-1" 400000) uploadedPlain
    (Auth.mkAuthContext "issuer-portal" None None)
    (UploadSession.mk "upload-1" None "e.pdf" (Some 12) (Some "application/pdf")
       None None None "token-1" (Some stagingKey) UploadSession.PENDING 1000
       301000 None)
    _ _ _).
  - vm_compute. reflexivity.
  - vm_compute. reflexivity.
  - simpl. lia.
Defined.

(** Scenario 6 and its counterpart: rescan of a corrupted and of an
    intact object. *)
Lemma rescan_checks_digest_witness :
  Admin.rescan platform rescanReq rescanDraw corrupted
  = (corrupted,
     Failed 500 (mkErrorBody "Hash mismatch during rescan" (Some "STORAGE_ERROR")))
  /\ exists st' r,
       Admin.rescan platform rescanReq rescanDraw completedPlain = (st', Sent 200 r)
       /\ Admin.r_scanStatus r = Artifact.CLEAN
       /\ Artifact.scanStatus <$> find (hasDigest helloDigest) (artifacts st')
          = Some Artifact.CLEAN
       /\ find (hasDigest helloDigest) (artifacts st') ≫= Artifact.verifiedAt
          = Some 9000.
Proof.
  pose (row := Artifact.mk "artifact-1" helloDigest 12 "application/pdf" "e.pdf"
                 stagingKey None None None None (Some 2000) Artifact.PENDING 2000).
  split.
  - refine (proj1 (rescan_checks_digest platform rescanReq rescanDraw corrupted
              (Auth.mkAuthContext "registry" None None) row "hi" _ _ _ _) _).
    + vm_compute. reflexivity.
    + reflexivity.
    + vm_compute. reflexivity.
    + vm_compute. reflexivity.
    + vm_compute. discriminate.
  - destruct (proj2 (rescan_checks_digest platform rescanReq rescanDraw completedPlain
              (Auth.mkAuthContext "registry" None None) row "hello world!"
              ltac:(vm_compute; reflexivity) eq_refl
              ltac:(vm_compute; reflexivity) ltac:(vm_compute; reflexivity))
              ltac:(vm_compute; reflexivity))
      as (st' & r & H1 & H2 & _ & H3 & H4).
    exists st', r. repeat split; assumption.
Defined.

(** C2, the failing input. After init without a declared digest the
    artifact that complete creates carries the staging key, derived from
    the random UUID, not the key of its own digest. *)
Lemma complete_stores_staging_key :
  exists a,
    artifacts completedPlain = [a]
    /\ Artifact.sha256Hex a = helloDigest
    /\ Artifact.filename a = "e.pdf"
    /\ Artifact.bucketKey a
       = "sha256/12/3e/123e4567-e89b-42d3-a456-426614174000/e.pdf"
    /\ Mime.keyLayout (Artifact.sha256Hex a) (Artifact.filename a)
       = "sha256/75/09/7509e5bda0c762d2bac7f90d758b5b2263fa01ccbc542ab5e3df163be08e6ca9/e.pdf"
    /\ Artifact.bucketKey a
       <> Mime.keyLayout (Artifact.sha256Hex a) (Artifact.filename a).
Proof. vm_compute. eexists. repeat split. discriminate. Qed.

(** The status is not frozen either: the session of scenario 2, ABORTED
    by a complete call, becomes COMPLETE when the right bytes are put
    under its key and complete is called once more. *)
Example aborted_session_completes_later :
  let st1 := fst (complete platform completeReq (completeAt "artifact-1" 2000)
                    (uploadedDeclared "hi")) in
  let st2 := fst (complete platform completeReq (completeAt "artifact-1" 3000)
                    (putObject declaredKey "hello world!" st1)) in
  UploadSession.status <$> session st1 = Some UploadSession.ABORTED
  /\ UploadSession.status <$> session st2 = Some UploadSession.COMPLETE.
Proof. vm_compute. split; reflexivity. Qed.

End Scenarios.

(** * Further properties of the code *)

(** ** Digests *)

Section DigestFacts.

Lemma lowerHex_toLowerCaseUnit c :
  Hasher.isLowerHex c = true -> Js.toLowerCaseUnit c = c.
Proof.
  destruct c as [[] [] [] [] [] [] [] []]; try discriminate; reflexivity.
Qed.

Lemma lowerHex_not_x c :
  Hasher.isLowerHex c = true -> (Ascii.eqb c "x" || Ascii.eqb c "X") = false.
Proof.
  destruct c as [[] [] [] [] [] [] [] []]; try discriminate; reflexivity.
Qed.

Lemma toLowerCase_lowerHex s :
  Hasher.allUnits Hasher.isLowerHex s = true -> Js.toLowerCase s = s.
Proof.
  induction s as [|c r IH]; [reflexivity|].
  simpl. intros H. apply andb_true_iff in H as [Hc Hr].
  now rewrite (lowerHex_toLowerCaseUnit _ Hc), (IH Hr).
Qed.

(** X1. A valid digest is a fixed point of the normalization, and the
    normalization of a valid digest behind a [0x] or [0X] prefix is that
    digest. *)
Theorem normalizeSha256Hash_of_valid (h : string) :
  Hasher.validateSha256Hash h = true ->
  Hasher.normalizeSha256Hash h = h
  /\ Hasher.normalizeSha256Hash ("0x" +:+ h) = h
  /\ Hasher.normalizeSha256Hash ("0X" +:+ h) = h.
Proof.
  unfold Hasher.validateSha256Hash. intros H. apply andb_true_iff in H as [_ H].
  pose proof (toLowerCase_lowerHex _ H) as Hl.
  repeat split; try exact Hl.
  unfold Hasher.normalizeSha256Hash.
  destruct h as [|z [|x r]]; try exact Hl.
  simpl in H. apply andb_true_iff in H as [_ H]. apply andb_true_iff in H as [Hx _].
  rewrite (lowerHex_not_x _ Hx), andb_false_r. exact Hl.
Qed.

Lemma length_toLowerCase s : String.length (Js.toLowerCase s) = String.length s.
Proof. induction s as [|c r IH]; simpl; congruence. Qed.

Lemma allUnits_toLowerCase p s :
  Hasher.allUnits p (Js.toLowerCase s)
  = Hasher.allUnits (fun c => p (Js.toLowerCaseUnit c)) s.
Proof. induction s as [|c r IH]; simpl; congruence. Qed.

(** The prefix the normalization strips. *)
Lemma normalizeSha256Hash_strip s :
  exists body,
    Hasher.normalizeSha256Hash s = Js.toLowerCase body
    /\ (s = body \/ s = "0x" +:+ body \/ s = "0X" +:+ body).
Proof.
  unfold Hasher.normalizeSha256Hash.
  destruct s as [|z [|x r]]; try (eexists; split; [reflexivity | now left]).
  destruct (Ascii.eqb z "0" && (Ascii.eqb x "x" || Ascii.eqb x "X")) eqn:E.
  - exists r. split; [reflexivity|].
    apply andb_true_iff in E as [Hz Hx]. apply Ascii.eqb_eq in Hz. subst z.
    apply orb_true_iff in Hx as [Hx | Hx]; apply Ascii.eqb_eq in Hx; subst x;
      [now right; left | now right; right].
  - exists (String z (String x r)). split; [reflexivity | now left].
Qed.

(** X2. The digest check of init ([validateSha256Hash] after
    [normalizeSha256Hash]) accepts exactly the strings that consist of 64
    hexadecimal digits of either case, optionally behind [0x] or [0X]. *)
Theorem validate_normalized_iff (s : string) :
  Hasher.validateSha256Hash (Hasher.normalizeSha256Hash s) = true
  <-> exists body,
        (s = body \/ s = "0x" +:+ body \/ s = "0X" +:+ body)
        /\ String.length body = 64%nat
        /\ Hasher.allUnits (fun c => Hasher.isLowerHex (Js.toLowerCaseUnit c)) body
           = true.
Proof.
  split.
  - intros H. destruct (normalizeSha256Hash_strip s) as (body & E & Hs).
    rewrite E in H. unfold Hasher.validateSha256Hash in H.
    rewrite length_toLowerCase, allUnits_toLowerCase in H.
    apply andb_true_iff in H as [Hlen Hall]. apply Nat.eqb_eq in Hlen.
    exists body. auto.
  - intros (body & Hs & Hlen & Hall).
    assert (Hbody : Hasher.validateSha256Hash (Js.toLowerCase body) = true).
    { unfold Hasher.validateSha256Hash.
      rewrite length_toLowerCase, allUnits_toLowerCase, Hlen, Hall. reflexivity. }
    destruct Hs as [-> | [-> | ->]]; [|exact Hbody..].
    unfold Hasher.normalizeSha256Hash.
    destruct body as [|z [|x r]]; try exact Hbody.
    simpl in Hall. apply andb_true_iff in Hall as [_ Hall].
    apply andb_true_iff in Hall as [Hx _].
    assert (E : (Ascii.eqb x "x" || Ascii.eqb x "X") = false).
    { destruct x as [[] [] [] [] [] [] [] []]; try discriminate; reflexivity. }
    rewrite E, andb_false_r. exact Hbody.
Qed.

End DigestFacts.

Lemma normalizeSha256Hash_of_valid_witness :
  Hasher.normalizeSha256Hash ("0X" +:+ Demo.helloDigest) = Demo.helloDigest.
Proof.
  exact (proj2 (proj2 (normalizeSha256Hash_of_valid Demo.helloDigest eq_refl))).
Defined.

(** ** The MIME guess *)

Section MimeGuessFacts.
Import Mime.

Lemma split_nonempty sep s : Js.split sep s <> [].
Proof.
  destruct s as [|c r]; simpl; [discriminate|].
  destruct (Ascii.eqb c sep); [discriminate|].
  destruct (Js.split sep r); discriminate.
Qed.

Lemma last_cons_nonempty {A} (x : A) l : l <> [] -> last (x :: l) = last l.
Proof. destruct l; [intros H; now contradiction H | reflexivity]. Qed.

(** Splitting behind a separator: the segments of what follows come
    last. *)
Lemma split_app sep a b :
  exists pre, pre <> []
    /\ Js.split sep (a +:+ String sep b) = (pre ++ Js.split sep b)%list.
Proof.
  induction a as [|c r (pre & Hne & IH)].
  - exists [EmptyString]. split; [discriminate|]. simpl. now rewrite Ascii.eqb_refl.
  - simpl. rewrite IH. destruct (Ascii.eqb c sep).
    + exists (EmptyString :: pre). split; [discriminate | reflexivity].
    + destruct pre as [|seg pre]; [now contradiction Hne|].
      exists (String c seg :: pre). split; [discriminate | reflexivity].
Qed.

Lemma last_app_nonempty {A} (l1 l2 : list A) : l2 <> [] -> last (l1 ++ l2) = last l2.
Proof.
  intros H. induction l1 as [|x l1 IH]; [reflexivity|].
  simpl. rewrite <- IH. apply last_cons_nonempty.
  destruct l1; [exact H | discriminate].
Qed.

(** The last segment of a split ignores everything up to a separator. *)
Lemma last_split_app sep a b :
  last (Js.split sep (a +:+ String sep b)) = last (Js.split sep b).
Proof.
  destruct (split_app sep a b) as (pre & _ & ->).
  apply last_app_nonempty, split_nonempty.
Qed.

Lemma toLowerCase_app a b :
  Js.toLowerCase (a +:+ b) = Js.toLowerCase a +:+ Js.toLowerCase b.
Proof. induction a as [|c r IH]; simpl; [reflexivity | now rewrite IH]. Qed.

Lemma toLowerCaseUnit_idem c :
  Js.toLowerCaseUnit (Js.toLowerCaseUnit c) = Js.toLowerCaseUnit c.
Proof. destruct c as [[] [] [] [] [] [] [] []]; reflexivity. Qed.

Lemma toLowerCase_idem s : Js.toLowerCase (Js.toLowerCase s) = Js.toLowerCase s.
Proof.
  induction s as [|c r IH]; simpl; [reflexivity|].
  now rewrite toLowerCaseUnit_idem, IH.
Qed.


(** X4. The guess looks only at what follows the last dot, and ignores
    case: a prefix up to a dot never changes it, and neither does
    lowercasing the name. *)
Theorem extractMimeFromFilename_last_segment (a e f : string) :
  extractMimeFromFilename (a +:+ "." +:+ e) = extractMimeFromFilename e
  /\ extractMimeFromFilename (Js.toLowerCase f) = extractMimeFromFilename f.
Proof.
  split.
  - unfold extractMimeFromFilename, Js.pop.
    rewrite toLowerCase_app.
    change (Js.toLowerCase ("." +:+ e)) with (String "." (Js.toLowerCase e)).
    now rewrite last_split_app.
  - unfold extractMimeFromFilename. now rewrite toLowerCase_idem.
Qed.

End MimeGuessFacts.


(** ** More on the sanitizer and the keys *)

Section SanitizeMore.
Import Mime.

Lemma length_replaceDangerous s :
  String.length (replaceDangerous s) = String.length s.
Proof. induction s as [|c r IH]; simpl; congruence. Qed.

Lemma length_replaceDotDot s :
  (String.length (replaceDotDot s) <= String.length s)%nat.
Proof.
  induction s as [| c | c c' r IH1 IH2] using string_ind2; [simpl; lia..|].
  rewrite replaceDotDot_cons2. destruct (isDot c && isDot c'); simpl in *; lia.
Qed.

(** X5. The sanitizer never lengthens a name, and its result carries no
    white space at either end. *)
Theorem sanitizeFilename_shrinks_and_trims (s : string) :
  (String.length (sanitizeFilename s) <= String.length s)%nat
  /\ Js.trim (sanitizeFilename s) = sanitizeFilename s.
Proof.
  split; [|apply trim_sanitizeFilename].
  unfold sanitizeFilename.
  pose proof (length_trim (removeLeadingDots (replaceDotDot (replaceDangerous s)))).
  pose proof (length_removeLeadingDots (replaceDotDot (replaceDangerous s))).
  pose proof (length_replaceDotDot (replaceDangerous s)).
  pose proof (length_replaceDangerous s). lia.
Qed.

(** X6. The names the sanitizer leaves alone are exactly those without a
    dangerous character, without two adjacent dots, without a leading dot
    and without white space at either end. *)
Theorem sanitizeFilename_fixed_iff (s : string) :
  sanitizeFilename s = s
  <-> clean s = true
      /\ Js.occursTwice "." s = false
      /\ Js.startsWith "." s = false
      /\ Js.trim s = s.
Proof.
  split.
  - intros E.
    pose proof (clean_sanitizeFilename s) as H1.
    pose proof (noDotDot_sanitizeFilename s) as H2.
    pose proof (trim_sanitizeFilename s) as H3.
    pose proof (sanitizeFilename_twice s) as H4.
    rewrite E in H1, H2, H3. rewrite !E in H4. repeat split; try assumption.
    destruct s as [|c r]; [reflexivity|].
    simpl. rewrite isDot_eqb. destruct (isDot c) eqn:D; [|reflexivity].
    exfalso.
    assert (L : String.length (Js.trim (removeLeadingDots (String c r)))
                = String.length (String c r)) by now rewrite <- H4.
    simpl in L. rewrite D in L.
    pose proof (length_trim (removeLeadingDots r)).
    pose proof (length_removeLeadingDots r). lia.
  - intros (H1 & H2 & H3 & H4). unfold sanitizeFilename.
    now rewrite (replaceDangerous_clean _ H1), (replaceDotDot_noDotDot _ H2),
      (removeLeadingDots_noDot _ H3).
Qed.

Lemma append_cancel_l a b c : a +:+ b = a +:+ c -> b = c.
Proof. induction a as [|x a IH]; simpl; [auto|]. intros [= H]. auto. Qed.

(** X7. The download header puts the sanitized name between two double
    quotes and the name holds none: split at the double quotes the header
    has exactly the three parts prefix, name and empty rest, so a filename
    cannot close the quotation. *)
Theorem getContentDisposition_quoting (filename : string) :
  Js.split Disposition.quote (Disposition.getContentDisposition filename)
  = [ "attachment; filename="; sanitizeFilename filename; "" ].
Proof.
  unfold Disposition.getContentDisposition.
  rewrite split_segment by reflexivity.
  rewrite split_segment
    by (apply clean_occurs; [apply clean_sanitizeFilename | reflexivity]).
  reflexivity.
Qed.

(** X8. The key deriver of signed-url.ts and the one of mime.ts give the
    same key exactly for the names for which replacing the dangerous
    characters already is the whole sanitization; on a slash-free digest
    the former also yields five segments, but its last segment is the
    name with only the dangerous characters replaced. *)
Theorem signedUrl_generateBucketKey_agrees (d f : string) :
  (SignedUrl.generateBucketKey d f = generateBucketKey d f
   <-> sanitizeFilename f = replaceDangerous f)
  /\ (Js.occurs "/" d = false ->
      Js.split "/" (SignedUrl.generateBucketKey d f)
      = [ "sha256"; Js.slice 0 2 d; Js.slice 2 4 d; d; replaceDangerous f ]).
Proof.
  split.
  - unfold SignedUrl.generateBucketKey, generateBucketKey. split.
    + intros H. symmetry.
      repeat (apply append_cancel_l in H). exact H.
    + now intros ->.
  - intros Hd. unfold SignedUrl.generateBucketKey.
    change ("sha256/" +:+ ?x) with ("sha256" +:+ String "/" x).
    rewrite split_segment by reflexivity.
    change (?a +:+ "/" +:+ ?b) with (a +:+ String "/" b).
    rewrite split_segment by (apply occurs_substring, Hd).
    change (Js.slice 2 4 d +:+ "/" +:+ ?b) with (Js.slice 2 4 d +:+ String "/" b).
    rewrite split_segment by (apply occurs_substring, Hd).
    change (d +:+ "/" +:+ ?b) with (d +:+ String "/" b).
    rewrite split_segment by exact Hd.
    rewrite split_no_sep; [reflexivity|].
    apply clean_occurs; [apply clean_replaceDangerous | reflexivity].
Qed.

Example signedUrl_keeps_traversal :
  SignedUrl.generateBucketKey "ab12" "../x" = "sha256/ab/12/ab12/.._x"
  /\ generateBucketKey "ab12" "../x" = "sha256/ab/12/ab12/__x".
Proof. split; reflexivity. Qed.

End SanitizeMore.

(** ** Redaction and configuration lists *)

Section ConfigFacts.


Lemma length_append a b :
  String.length (a +:+ b) = (String.length a + String.length b)%nat.
Proof. induction a as [|c r IH]; simpl; [reflexivity | now rewrite IH]. Qed.


(** The segments of a split hold no separator, and no code unit that the
    split string does not hold. *)
Lemma split_segments sep s seg :
  In seg (Js.split sep s) ->
  Js.occurs sep seg = false
  /\ forall c, Js.occurs c s = false -> Js.occurs c seg = false.
Proof.
  revert seg. induction s as [|d r IH]; intros seg; simpl.
  - intros [<- | []]. split; auto.
  - destruct (Ascii.eqb d sep) eqn:E.
    + intros [<- | H].
      * split; auto.
      * destruct (IH _ H) as [H1 H2]. split; [exact H1|].
        intros c Hc. apply orb_false_iff in Hc as [_ Hc]. auto.
    + destruct (Js.split sep r) as [|s0 segs] eqn:Es.
      * intros [<- | []]. simpl. rewrite E. split; [reflexivity|].
        intros c Hc. apply orb_false_iff in Hc as [Hc _]. now rewrite Hc.
      * intros [<- | H].
        -- destruct (IH s0 (or_introl eq_refl)) as [H1 H2]. simpl. rewrite E, H1.
           split; [reflexivity|].
           intros c Hc. apply orb_false_iff in Hc as [Hc Hr]. now rewrite Hc, H2.
        -- destruct (IH seg (or_intror H)) as [H1 H2]. split; [exact H1|].
           intros c Hc. apply orb_false_iff in Hc as [_ Hc]. auto.
Qed.

Lemma occurs_trim c s : Js.occurs c s = false -> Js.occurs c (Js.trim s) = false.
Proof. intros H. unfold Js.trim. now apply occurs_trimEnd, occurs_trimStart. Qed.

(** X10. Every origin of the parsed CORS allow-list is non-empty, free of
    commas and free of white space at either end; an empty setting gives
    the empty list. *)
Theorem parseCorsAllowlist_entries (setting origin : string) :
  Cors.parseCorsAllowlist "" = []
  /\ (In origin (Cors.parseCorsAllowlist setting) ->
      origin <> "" /\ Js.occurs "," origin = false /\ Js.trim origin = origin).
Proof.
  split; [reflexivity|].
  unfold Cors.parseCorsAllowlist. destruct (negb (Js.truthy setting)); [intros []|].
  intros H. apply filter_In in H as [H Hlen]. apply in_map_iff in H as (seg & <- & Hseg).
  destruct (split_segments _ _ _ Hseg) as [Hsep _].
  repeat split.
  - intros E. rewrite E in Hlen. discriminate.
  - now apply occurs_trim.
  - apply trim_idem.
Qed.

(** X11. No app name and no secret of the parsed key table contains a
    colon or a comma, and both are free of white space at either end: a
    secret is cut at its first colon. *)
Theorem parseAppKeys_entries (config : Env.Config) (app secret : string) :
  Env.parseAppKeys config !! app = Some secret ->
  Js.occurs ":" app = false /\ Js.occurs "," app = false /\ Js.trim app = app
  /\ Js.occurs ":" secret = false /\ Js.occurs "," secret = false
  /\ Js.trim secret = secret.
Proof.
  unfold Env.parseAppKeys.
  set (good := fun s : string =>
         Js.occurs ":" s = false /\ Js.occurs "," s = false /\ Js.trim s = s).
  assert (Hpair : forall pair a k,
            In pair (Js.split "," (Env.HMAC_APP_KEYS config)) ->
            Env.parsePair pair = Some (a, k) -> good a /\ good k).
  { intros pair a k Hin. unfold Env.parsePair.
    destruct (split_segments _ _ _ Hin) as [Hcomma _].
    destruct (Js.split ":" pair) as [|x [|y rest]] eqn:Es; try discriminate.
    destruct (Js.truthy x && Js.truthy y); [|discriminate].
    intros [= <- <-].
    assert (Hx : In x (Js.split ":" pair)) by (rewrite Es; now left).
    assert (Hy : In y (Js.split ":" pair)) by (rewrite Es; right; now left).
    destruct (split_segments _ _ _ Hx) as [Hx1 Hx2].
    destruct (split_segments _ _ _ Hy) as [Hy1 Hy2].
    split; repeat split; try apply trim_idem; apply occurs_trim; auto. }
  assert (Hfold : forall pairs (m : gmap string string),
            (forall p, In p pairs -> In p (Js.split "," (Env.HMAC_APP_KEYS config))) ->
            (forall a k, m !! a = Some k -> good a /\ good k) ->
            forall a k,
              fold_left
                (fun keys pair =>
                   match Env.parsePair pair with
                   | Some (app, key) => <[app := key]> keys
                   | None => keys
                   end) pairs m !! a = Some k ->
              good a /\ good k).
  { induction pairs as [|p pairs IH]; intros m Hsub Hm a k; simpl; [apply Hm|].
    apply IH.
    - intros q Hq. apply Hsub. now right.
    - destruct (Env.parsePair p) as [[a0 k0]|] eqn:Ep; [|exact Hm].
      intros a' k' Hl. destruct (decide (a0 = a')) as [->|Hne].
      + rewrite lookup_insert_eq in Hl. injection Hl as <-.
        eapply Hpair; [apply Hsub; now left | exact Ep].
      + rewrite lookup_insert_ne in Hl by exact Hne. now apply Hm. }
  intros H.
  destruct (Hfold _ ∅ (fun p Hp => Hp) (fun a k Hl => ltac:(now rewrite lookup_empty in Hl))
              _ _ H) as [(? & ? & ?) (? & ? & ?)].
  repeat split; assumption.
Qed.

End ConfigFacts.

Lemma parseAppKeys_entries_witness :
  Js.occurs ":" "secret2" = false /\ Js.trim "issuer-portal" = "issuer-portal".
Proof.
  destruct (parseAppKeys_entries Demo.config "issuer-portal" "secret2"
              ltac:(vm_compute; reflexivity)) as (_ & _ & H3 & H4 & _).
  exact (conj H4 H3).
Defined.

(** ** Authentication *)

Section AuthMore.
Import Errors.

Variable hmacSha256Hex : string -> string -> string.
Variable config : Env.Config.



End AuthMore.

(** ** Handlers and failed authentication *)

Section Unauthenticated.
Import Errors Sys.

Variable P : Platform.
Variables (unpinAccepted : string -> bool) (gatewayUrl : string).


End Unauthenticated.


(** ** The streaming hasher *)

Section HashingFacts.
Import Sys Hashing.

Variable P : Platform.

Lemma append_assoc a b c : (a +:+ b) +:+ c = a +:+ (b +:+ c).
Proof.
  induction a as [|x a IH]; [reflexivity|].
  change (String x ((a +:+ b) +:+ c) = String x (a +:+ b +:+ c)). now rewrite IH.
Qed.

Lemma append_empty_r a : a +:+ "" = a.
Proof.
  induction a as [|x a IH]; [reflexivity|].
  change (String x (a +:+ "") = String x a). now rewrite IH.
Qed.

Lemma fold_update chunks h :
  fold_left update chunks h
  = mkHasher (fed h +:+ String.concat "" chunks)
      (Hashing.sizeBytes h + Z.of_nat (String.length (String.concat "" chunks))).
Proof.
  revert h. induction chunks as [|c chunks IH]; intros h.
  - simpl. rewrite append_empty_r, Z.add_0_r. now destruct h.
  - cbn [fold_left]. rewrite IH. unfold update. cbn [fed Hashing.sizeBytes].
    assert (E : String.concat "" (c :: chunks) = c +:+ String.concat "" chunks).
    { destruct chunks; simpl; [now rewrite append_empty_r | reflexivity]. }
    rewrite E, append_assoc, length_append. f_equal. lia.
Qed.

(** X14. However a stream cuts an object into chunks, hashing the chunks
    one update at a time gives the digest and the byte count that hashing
    the whole object gives, as a buffer or as the stored content the
    handlers read. *)
Theorem hashChunks_concat (chunks : list string) :
  hashChunks P chunks = computeHashFromBuffer P (String.concat "" chunks)
  /\ hashChunks P chunks = computeHashFromStream P (String.concat "" chunks).
Proof.
  unfold hashChunks, digest, computeHashFromBuffer, computeHashFromStream.
  rewrite fold_update. cbn [fed Hashing.sizeBytes newHasher]. split; reflexivity.
Qed.

End HashingFacts.

(** ** The upload token *)

Section TokenFacts.
Import Errors Tokens.

Variable jwtSign : UploadClaims -> string -> string.
Variable jwtDecode : string -> option UploadClaims.

(** X15. A generated upload token, whatever secret signed it, is accepted
    with its uploadId at every clock reading whose second is not past
    the second of issue plus the lifetime, and rejected as expired after
    that; the secret plays no part in the check. The hypothesis is the
    contract of the library: [jwt.decode] returns the payload that
    [jwt.sign] was given. *)
Theorem verifyUploadToken_generated (uploadId secret : string)
  (expiresInMinutes nowIat nowExp now : Z) :
  jwtDecode (generateUploadToken jwtSign uploadId expiresInMinutes nowIat nowExp secret)
  = Some (mkUploadClaims (Some uploadId) (Some "upload") (Some (nowIat / 1000))
            (Some (nowExp / 1000 + expiresInMinutes * 60))) ->
  (now / 1000 <= nowExp / 1000 + expiresInMinutes * 60 ->
   verifyUploadToken jwtDecode
     (generateUploadToken jwtSign uploadId expiresInMinutes nowIat nowExp secret) now
   = Ok (Some uploadId))
  /\ (nowExp / 1000 + expiresInMinutes * 60 < now / 1000 ->
      verifyUploadToken jwtDecode
        (generateUploadToken jwtSign uploadId expiresInMinutes nowIat nowExp secret) now
      = Throw (Locker (AuthenticationError "Upload token expired"))).
Proof.
  intros Hlaw. unfold verifyUploadToken. rewrite Hlaw.
  cbn [c_type c_exp c_uploadId String.eqb Ascii.eqb Bool.eqb negb].
  split; intros H.
  - now rewrite (proj2 (Z.ltb_ge _ _) H).
  - now rewrite (proj2 (Z.ltb_lt _ _) H).
Qed.

End TokenFacts.

Lemma verifyUploadToken_generated_witness :
  Tokens.verifyUploadToken Samples.tokenDecode
    (Tokens.generateUploadToken Samples.tokenSign "upload-1" 5 1000 1000 "s3cr3t")
    301999
  = Errors.Ok (Some "upload-1")
  /\ Tokens.verifyUploadToken Samples.tokenDecode
       (Tokens.generateUploadToken Samples.tokenSign "upload-1" 5 1000 1000 "s3cr3t")
       302000
     = Errors.Throw (Errors.Locker (Errors.AuthenticationError "Upload token expired")).
Proof.
  pose proof (verifyUploadToken_generated Samples.tokenSign Samples.tokenDecode
                "upload-1" "s3cr3t" 5 1000 1000) as H.
  split.
  - apply (proj1 (H 301999 eq_refl)). vm_compute. discriminate.
  - apply (proj2 (H 302000 eq_refl)). reflexivity.
Defined.

(** ** Every outcome of the complete phase *)

Section CompleteOutcomes.
Import Errors Sys Upload Catalog.

Variable P : Platform.

Lemma pinNewArtifact_cidOnly k a st0 :
  exists log c g,
    pinNewArtifact P k a st0
    = (mkState (uploadSessions st0) (map g (artifacts st0)) (objects st0) log, Ok c)
    /\ cidOnly g.
Proof.
  assert (Hid : forall l : list Artifact.t, map (fun x => x) l = l)
    by (intros l; apply map_id).
  assert (Hsame : cidOnly (fun x => x)) by (intros x; now left).
  unfold pinNewArtifact. destruct (ipfs P) as [pin|].
  2:{ exists (pinLog st0), None, (fun x => x). rewrite Hid.
      destruct st0; split; [reflexivity | exact Hsame]. }
  unfold bind, getObject.
  destruct (objects st0 !! k) as [c|].
  2:{ exists (pinLog st0), None, (fun x => x). rewrite Hid.
      destruct (createStorageDriver (config P)); destruct st0;
        (split; [reflexivity | exact Hsame]). }
  unfold pinFile.
  destruct (pin c) as [cid|].
  2:{ exists (c :: pinLog st0), None, (fun x => x). rewrite Hid.
      split; [reflexivity | exact Hsame]. }
  unfold updateArtifact. cbn [artifacts uploadSessions objects pinLog].
  destruct (existsb (hasId (Artifact.id a)) (artifacts st0)).
  - exists (c :: pinLog st0), (Some cid), (onRow (Artifact.id a) (Artifact.setCidV1 cid)).
    split; [reflexivity|]. intros x. unfold onRow.
    destruct (hasId (Artifact.id a) x); [right; eauto | now left].
  - exists (c :: pinLog st0), None, (fun x => x). rewrite Hid.
    split; [reflexivity | exact Hsame].
Qed.

Lemma cidOnly_fields g x :
  cidOnly g ->
  Artifact.id (g x) = Artifact.id x
  /\ Artifact.sha256Hex (g x) = Artifact.sha256Hex x
  /\ Artifact.sizeBytes (g x) = Artifact.sizeBytes x
  /\ Artifact.mime (g x) = Artifact.mime x
  /\ Artifact.bucketKey (g x) = Artifact.bucketKey x
  /\ Artifact.createdAt (g x) = Artifact.createdAt x
  /\ Artifact.scanStatus (g x) = Artifact.scanStatus x.
Proof. intros H. destruct (H x) as [-> | (cid & ->)]; repeat split. Qed.

(** The four ways the [try] block of complete can end: nothing written
    and an error; the session aborted and the hash-mismatch error; a
    deduplicated completion; a new artifact. *)
Lemma completeBody_outcome req d st st' res :
  completeBody P req d st = (st', res) ->
  (st' = st /\ exists x, res = Throw x)
  \/ (exists us e a,
        uploadSessions st !! uploadId req = Some us
        /\ st' = mkState
                   (<[uploadId req := UploadSession.setStatus UploadSession.ABORTED us]>
                      (uploadSessions st))
                   (artifacts st) (objects st) (pinLog st)
        /\ res = Throw (Locker (HashMismatchError e a)))
  \/ (exists us key content a,
        uploadSessions st !! uploadId req = Some us
        /\ UploadSession.bucketKey us = Some key
        /\ objects st !! key = Some content
        /\ find (hasDigest (sha256 (computeHashFromStream P content))) (artifacts st)
           = Some a
        /\ st' = mkState
                   (<[uploadId req :=
                        UploadSession.setStatusCompletedAt UploadSession.COMPLETE
                          (atCompleted d) us]> (uploadSessions st))
                   (artifacts st) (objects st) (pinLog st)
        /\ res = Ok (descriptor a (Artifact.cidV1 a)))
  \/ (exists us key content row log c g,
        uploadSessions st !! uploadId req = Some us
        /\ UploadSession.bucketKey us = Some key
        /\ objects st !! key = Some content
        /\ find (hasDigest (sha256 (computeHashFromStream P content))) (artifacts st)
           = None
        /\ existsb (hasId (Artifact.id row)) (artifacts st) = false
        /\ Artifact.id row = artifactRowId d
        /\ Artifact.sha256Hex row = sha256 (computeHashFromStream P content)
        /\ Artifact.sizeBytes row = Z.of_nat (String.length content)
        /\ Artifact.bucketKey row = key
        /\ Artifact.filename row = UploadSession.filename us
        /\ cidOnly g
        /\ st' = mkState
                   (<[uploadId req :=
                        UploadSession.setStatusCompletedAt UploadSession.COMPLETE
                          (atCompleted d) us]> (uploadSessions st))
                   (map g (artifacts st ++ [row])) (objects st) log
        /\ res = Ok (descriptor row c)).
Proof.
  intros E.
  unfold completeBody, bind, lift, findUploadSession, gets, throw in E.
  destruct (Auth.authenticate _ _ _ _) as [ctx|];
    [|injection E as <- <-; left; eauto].
  destruct (uploadSessions st !! uploadId req) as [us|] eqn:Hs;
    [|injection E as <- <-; left; eauto].
  destruct (UploadSession.expiresAt us <? atExpiryCheck d)%Z;
    [injection E as <- <-; left; eauto|].
  destruct (UploadSession.bucketKey us) as [key|] eqn:Hkey;
    cbn [Js.truthyOpt default from_option id negb] in E;
    [|injection E as <- <-; left; eauto].
  destruct (Js.truthy key); cbn [negb] in E; [|injection E as <- <-; left; eauto].
  unfold getObject at 1 in E.
  destruct (objects st !! key) as [content|] eqn:Hobj;
    [|destruct (createStorageDriver (config P)); injection E as <- <-; left; eauto].
  destruct (hashMismatch us (computeHashFromStream P content)).
  { unfold updateUploadSession in E. rewrite Hs in E. injection E as <- <-.
    right; left. eauto 10. }
  unfold findArtifact, gets in E.
  destruct (find _ (artifacts st)) as [a|] eqn:Hfind.
  - unfold updateUploadSession in E. rewrite Hs in E. injection E as <- <-.
    right; right; left. exists us, key, content, a. auto 10.
  - unfold createArtifact in E.
    destruct (existsb _ (artifacts st) || existsb _ (artifacts st)) eqn:Hex;
      [injection E as <- <-; left; eauto|].
    apply orb_false_iff in Hex as [Hfresh _].
    match type of E with
    | context [pinNewArtifact P key ?row ?s] =>
        destruct (pinNewArtifact_cidOnly key row s) as (log & c & g & Hpin & Hg);
        rewrite Hpin in E; set (newRow := row) in *
    end.
    unfold updateUploadSession in E.
    cbn [uploadSessions artifacts objects pinLog] in E.
    rewrite Hs in E. injection E as <- <-.
    right; right; right. exists us, key, content, newRow, log, c, g.
    repeat split; try assumption; try reflexivity.
Qed.

End CompleteOutcomes.

Section CompleteExtras.
Import Errors Sys Upload Catalog.

Variable P : Platform.

Lemma catch_Failed {A} classes x :
  exists c b, @catch A classes x = Failed c b.
Proof.
  unfold catch, sendError, sendInternal.
  destruct x; [destruct (existsb _ _)|]; eauto.
Qed.

(** X16. A complete call that is answered with an error has written
    nothing, unless the error is the hash mismatch: then the only change
    is the status ABORTED of its session. Artifacts, stored objects and
    the pin log are untouched either way. *)
Theorem complete_failure_effect req d st st' c b :
  complete P req d st = (st', Failed c b) ->
  st' = st
  \/ (c = 409 /\ errorCode b = Some "HASH_MISMATCH"
      /\ exists us,
           uploadSessions st !! uploadId req = Some us
           /\ st' = mkState
                      (<[uploadId req :=
                           UploadSession.setStatus UploadSession.ABORTED us]>
                         (uploadSessions st))
                      (artifacts st) (objects st) (pinLog st)).
Proof.
  unfold complete, handle.
  destruct (completeBody P req d st) as [st0 res] eqn:E.
  destruct (completeBody_outcome P _ _ _ _ _ E)
    as [[-> (x & ->)] | [(us & e & a & Hs & -> & ->)
        | [(us & key & content & a & _ & _ & _ & _ & _ & ->)
        | (us & key & content & row & log & c0 & g & _ & _ & _ & _ & _ & _ & _ & _
           & _ & _ & _ & _ & ->)]]].
  - intros [= <- _]. now left.
  - intros [= <- <- <-]. right. repeat split; eauto.
  - discriminate.
  - discriminate.
Qed.


Lemma map_cidOnly_id g l :
  cidOnly g -> map Artifact.id (map g l) = map Artifact.id l.
Proof.
  intros Hg. rewrite map_map. apply map_ext. intros x.
  now destruct (cidOnly_fields g x Hg) as (-> & _).
Qed.

Lemma map_cidOnly_digest g l :
  cidOnly g -> map Artifact.sha256Hex (map g l) = map Artifact.sha256Hex l.
Proof.
  intros Hg. rewrite map_map. apply map_ext. intros x.
  now destruct (cidOnly_fields g x Hg) as (_ & -> & _).
Qed.

Lemma existsb_hasId_In i l :
  existsb (hasId i) l = false -> ~ In i (map Artifact.id l).
Proof.
  intros H Hin. apply in_map_iff in Hin as (x & <- & Hx).
  assert (E : existsb (hasId (Artifact.id x)) l = true).
  { apply existsb_exists. exists x. split; [exact Hx|]. apply String.eqb_refl. }
  congruence.
Qed.

Lemma find_hasDigest_In h l :
  find (hasDigest h) l = None -> ~ In h (map Artifact.sha256Hex l).
Proof.
  intros H Hin. apply in_map_iff in Hin as (x & <- & Hx).
  eapply find_none in H; [|exact Hx]. unfold hasDigest in H.
  now rewrite String.eqb_refl in H.
Qed.

Lemma NoDup_snoc {A} (l : list A) x : NoDup l -> ~ In x l -> NoDup (l ++ [x]).
Proof.
  intros Hl Hx. apply NoDup_app. repeat split.
  - exact Hl.
  - intros y Hy Hy'. apply list_elem_of_singleton in Hy'. subst y.
    apply Hx. now apply list_elem_of_In.
  - apply NoDup_singleton.
Qed.

(** X18. The complete phase keeps the two uniqueness constraints of the
    catalog: if no two artifacts share an id or a digest before the call,
    none do after it, whatever the outcome. *)
Theorem complete_keeps_unique req d st st' rep :
  unique (artifacts st) ->
  complete P req d st = (st', rep) ->
  unique (artifacts st').
Proof.
  intros [Hid Hdg]. unfold complete, handle.
  destruct (completeBody P req d st) as [st0 res] eqn:E.
  assert (Hst : (match res with
                 | Ok a => (st0, Sent 200 a)
                 | Throw x =>
                     (st0, catch [ClsNotFound; ClsUploadSessionExpired; ClsHashMismatch] x)
                 end = (st', rep)) -> st0 = st')
    by (destruct res; now intros [= -> _]).
  intros H. apply Hst in H. subst st0. clear Hst.
  destruct (completeBody_outcome P _ _ _ _ _ E)
    as [[-> _] | [(us & e & a & Hs & -> & _)
        | [(us & key & content & a & _ & _ & _ & _ & -> & _)
        | (us & key & content & row & log & c0 & g & _ & _ & _ & Hfind & Hfresh & _
           & Hrow & _ & _ & _ & Hg & -> & _)]]];
    cbn [artifacts]; try (split; assumption).
  split.
  - rewrite (map_cidOnly_id _ _ Hg), map_app. simpl.
    apply NoDup_snoc; [exact Hid | now apply existsb_hasId_In].
  - rewrite (map_cidOnly_digest _ _ Hg), map_app. simpl.
    apply NoDup_snoc; [exact Hdg|]. rewrite Hrow. now apply find_hasDigest_In.
Qed.

End CompleteExtras.

Lemma complete_failure_effect_witness :
  fst (Upload.complete Demo.platform Demo.completeReq
         (Demo.completeAt "artifact-1" 400000) Demo.uploadedPlain)
  = Demo.uploadedPlain.
Proof.
  destruct (complete_failure_effect Demo.platform Demo.completeReq
              (Demo.completeAt "artifact-1" 400000) Demo.uploadedPlain
              (fst (Upload.complete Demo.platform Demo.completeReq
                      (Demo.completeAt "artifact-1" 400000) Demo.uploadedPlain))
              410
              (Sys.mkErrorBody "Upload session 'upload-1' has expired"
                 (Some "UPLOAD_SESSION_EXPIRED"))
              ltac:(vm_compute; reflexivity)) as [H | (H & _)].
  - exact H.
  - discriminate H.
Defined.


Lemma complete_keeps_unique_witness : Catalog.unique (Sys.artifacts Demo.completedPlain).
Proof.
  refine (complete_keeps_unique Demo.platform Demo.completeReq
            (Demo.completeAt "artifact-1" 2000) Demo.uploadedPlain Demo.completedPlain
            (snd (Upload.complete Demo.platform Demo.completeReq
                    (Demo.completeAt "artifact-1" 2000) Demo.uploadedPlain)) _ _).
  - split; vm_compute; constructor.
  - vm_compute. reflexivity.
Defined.

Section CompleteErrors.
Import Errors Sys Upload.

Variable P : Platform.
Variables (req : CompleteRequest) (d : CompleteDraw) (st : State).
Variable ctx : Auth.AuthContext.

Hypothesis Hauth :
  Auth.authenticate (hmacSha256Hex P) (config P) (completeHeaders req)
    (completeBodyJson req) = Ok ctx.

(** X19. An authenticated complete call for an uploadId that has no
    session is answered 404 with code NOT_FOUND and a message that quotes
    the id, and writes nothing. *)
Theorem complete_unknown_session :
  uploadSessions st !! uploadId req = None ->
  uploadId req <> "" ->
  complete P req d st
  = (st, Failed 404
           (mkErrorBody ("Upload session with identifier '" +:+ uploadId req
                           +:+ "' not found") (Some "NOT_FOUND"))).
Proof.
  intros Hs Hne.
  unfold complete, handle, completeBody, bind, lift, findUploadSession, gets.
  rewrite Hauth, Hs. unfold throw, catch, sendError, NotFoundError.
  rewrite (truthy_ne _ Hne). reflexivity.
Qed.

(** X20. When the object of the session has not been uploaded, an
    authenticated complete call before expiry is answered 500 with the
    body [Internal server error] and no code, with either storage driver
    (the [StorageError] of the S3 driver is not in the catch list), and
    writes nothing: the session stays as it was and the call can be
    repeated after the upload. *)
Theorem complete_missing_object (us : UploadSession.t) (key : string) :
  uploadSessions st !! uploadId req = Some us ->
  atExpiryCheck d <= UploadSession.expiresAt us ->
  UploadSession.bucketKey us = Some key ->
  key <> "" ->
  objects st !! key = None ->
  complete P req d st = (st, Failed 500 (mkErrorBody "Internal server error" None)).
Proof.
  intros Hs Hlive Hkey Hkey_set Hobj.
  unfold complete, handle, completeBody, bind, lift, findUploadSession, gets.
  rewrite Hauth, Hs. rewrite (proj2 (Z.ltb_ge _ _) Hlive).
  rewrite Hkey. cbn [Js.truthyOpt default from_option id negb].
  rewrite (truthy_ne _ Hkey_set). cbn [negb].
  unfold getObject. rewrite Hobj.
  destruct (createStorageDriver (config P)); reflexivity.
Qed.

End CompleteErrors.

Lemma complete_unknown_session_witness :
  Upload.complete Demo.platform Samples.completeUnknownReq
    (Demo.completeAt "artifact-1" 2000) Demo.uploadedPlain
  = (Demo.uploadedPlain,
     Sys.Failed 404
       (Sys.mkErrorBody "Upload session with identifier 'upload-9' not found"
          (Some "NOT_FOUND"))).
Proof.
  refine (complete_unknown_session Demo.platform Samples.completeUnknownReq
            (Demo.completeAt "artifact-1" 2000) Demo.uploadedPlain
            (Auth.mkAuthContext "issuer-portal" None None) _ _ _).
  - vm_compute. reflexivity.
  - vm_compute. reflexivity.
  - discriminate.
Defined.

Lemma complete_missing_object_witness :
  Upload.complete Demo.platform Demo.completeReq (Demo.completeAt "artifact-1" 2000)
    Samples.initedPlain
  = (Samples.initedPlain,
     Sys.Failed 500 (Sys.mkErrorBody "Internal server error" None)).
Proof.
  refine (complete_missing_object Demo.platform Demo.completeReq
            (Demo.completeAt "artifact-1" 2000) Samples.initedPlain
            (Auth.mkAuthContext "issuer-portal" None None) _
            (UploadSession.mk "upload-1" None "e.pdf" (Some 12)
               (Some "application/pdf") None None None "token-1"
               (Some Demo.stagingKey) UploadSession.PENDING 1000 301000 None)
            Demo.stagingKey _ _ _ _ _).
  - vm_compute. reflexivity.
  - vm_compute. reflexivity.
  - simpl. lia.
  - reflexivity.
  - discriminate.
  - vm_compute. reflexivity.
Defined.

Section AfterComplete.
Import Errors Sys Upload Catalog.

Variable P : Platform.

Lemma complete_Sent_body req d st st' r :
  complete P req d st = (st', Sent 200 r) ->
  completeBody P req d st = (st', Ok r).
Proof.
  unfold complete, handle.
  destruct (completeBody P req d st) as [st0 [r0|x]].
  - now intros [= -> ->].
  - intros [= _ H]. now apply catch_not_Sent in H.
Qed.

Lemma find_hasDigest_eq h l a :
  find (hasDigest h) l = Some a -> Artifact.sha256Hex a = h.
Proof.
  intros H. apply find_some in H as [_ H]. now apply String.eqb_eq in H.
Qed.

(** The artifact a successful complete call answers with is the one the
    catalog then holds for the digest of the reply. *)
Lemma complete_Sent_artifact req d st st' r :
  complete P req d st = (st', Sent 200 r) ->
  exists a,
    find (hasDigest (r_sha256Hex r)) (artifacts st') = Some a
    /\ Artifact.id a = r_artifactId r
    /\ Artifact.sizeBytes a = r_sizeBytes r
    /\ Artifact.mime a = r_mime r
    /\ Artifact.bucketKey a = r_artifactBucketKey r.
Proof.
  intros H. apply complete_Sent_body in H.
  destruct (completeBody_outcome P _ _ _ _ _ H)
    as [[_ (x & Hx)] | [(us & e & a & _ & _ & Hx)
        | [(us & key & content & a & _ & _ & _ & Hfind & -> & [= ->])
        | (us & key & content & row & log & c0 & g & _ & _ & _ & Hfind & _ & _
           & Hrow & _ & _ & _ & Hg & -> & [= ->])]]]; try discriminate.
  - exists a. cbn [artifacts descriptor r_sha256Hex r_artifactId r_sizeBytes r_mime
                    r_artifactBucketKey].
    rewrite (find_hasDigest_eq _ _ _ Hfind). auto.
  - exists (g row).
    cbn [artifacts descriptor r_sha256Hex r_artifactId r_sizeBytes r_mime
         r_artifactBucketKey].
    destruct (cidOnly_fields g row Hg) as (H1 & H2 & H3 & H4 & H5 & _).
    rewrite find_hasDigest_map by (intros x; apply (cidOnly_fields g x Hg)).
    rewrite Hrow. rewrite (find_snoc _ _ row Hfind)
      by (unfold hasDigest; rewrite Hrow; apply String.eqb_refl).
    auto.
Qed.

(** X21. After a successful complete call the existence probe for the
    digest of the reply answers that the artifact exists, with the size
    and the MIME type of the reply, and changes nothing. *)
Theorem complete_then_verify req d st st' r :
  complete P req d st = (st', Sent 200 r) ->
  exists v,
    Verify.verify (r_sha256Hex r) st' = (st', Sent 200 v)
    /\ Verify.v_exists v = true
    /\ Verify.v_sizeBytes v = Some (r_sizeBytes r)
    /\ Verify.v_mime v = Some (r_mime r).
Proof.
  intros H. destruct (complete_Sent_artifact _ _ _ _ _ H) as (a & Hfind & _ & Hs & Hm & _).
  unfold Verify.verify, handle, Verify.verifyBody, bind, findArtifact, gets.
  rewrite Hfind. eexists. split; [reflexivity|].
  cbn [Verify.v_exists Verify.v_sizeBytes Verify.v_mime]. now rewrite Hs, Hm.
Qed.

(** X22. The artifact that a complete call creates for a digest new to
    the catalog is backed by the bytes it was computed from: right after
    the call the object under its bucket key hashes to its digest and has
    its size. *)
Theorem complete_new_artifact_backed req d st st' r :
  complete P req d st = (st', Sent 200 r) ->
  find (hasDigest (r_sha256Hex r)) (artifacts st) = None ->
  exists a content,
    find (hasDigest (r_sha256Hex r)) (artifacts st') = Some a
    /\ Artifact.id a = r_artifactId r
    /\ objects st' !! Artifact.bucketKey a = Some content
    /\ sha256 (computeHashFromStream P content) = Artifact.sha256Hex a
    /\ Artifact.sizeBytes a = Z.of_nat (String.length content).
Proof.
  intros H Hnew. apply complete_Sent_body in H.
  destruct (completeBody_outcome P _ _ _ _ _ H)
    as [[_ (x & Hx)] | [(us & e & a & _ & _ & Hx)
        | [(us & key & content & a & _ & _ & _ & Hfind & -> & [= ->])
        | (us & key & content & row & log & c0 & g & _ & _ & Hobj & Hfind & _ & _
           & Hrow & Hsize & Hkey & _ & Hg & -> & [= ->])]]]; try discriminate.
  - exfalso. cbn [descriptor r_sha256Hex] in Hnew.
    rewrite (find_hasDigest_eq _ _ _ Hfind) in Hnew. congruence.
  - exists (g row), content.
    cbn [artifacts objects descriptor r_sha256Hex r_artifactId].
    destruct (cidOnly_fields g row Hg) as (H1 & H2 & H3 & H4 & H5 & _).
    rewrite find_hasDigest_map by (intros x; apply (cidOnly_fields g x Hg)).
    rewrite Hrow. rewrite (find_snoc _ _ row Hfind)
      by (unfold hasDigest; rewrite Hrow; apply String.eqb_refl).
    rewrite H1, H2, H3, H5, Hkey, Hrow, Hsize. auto.
Qed.

End AfterComplete.

Lemma complete_then_verify_witness :
  exists v,
    Verify.verify Demo.helloDigest Demo.completedPlain
    = (Demo.completedPlain, Sys.Sent 200 v)
    /\ Verify.v_exists v = true
    /\ Verify.v_sizeBytes v = Some 12
    /\ Verify.v_mime v = Some "application/pdf".
Proof.
  exact (complete_then_verify Demo.platform Demo.completeReq
           (Demo.completeAt "artifact-1" 2000) Demo.uploadedPlain Demo.completedPlain
           (Upload.mkCompleteReply "artifact-1" Demo.helloDigest 12 "application/pdf"
              Demo.stagingKey None ("/v1/artifacts/" +:+ Demo.helloDigest))
           ltac:(vm_compute; reflexivity)).
Defined.

Lemma complete_new_artifact_backed_witness :
  exists a content,
    find (Sys.hasDigest Demo.helloDigest) (Sys.artifacts Demo.completedPlain) = Some a
    /\ Artifact.id a = "artifact-1"
    /\ Sys.objects Demo.completedPlain !! Artifact.bucketKey a = Some content
    /\ Sys.sha256 (Sys.computeHashFromStream Demo.platform content)
       = Artifact.sha256Hex a
    /\ Artifact.sizeBytes a = Z.of_nat (String.length content).
Proof.
  exact (complete_new_artifact_backed Demo.platform Demo.completeReq
           (Demo.completeAt "artifact-1" 2000) Demo.uploadedPlain Demo.completedPlain
           (Upload.mkCompleteReply "artifact-1" Demo.helloDigest 12 "application/pdf"
              Demo.stagingKey None ("/v1/artifacts/" +:+ Demo.helloDigest))
           ltac:(vm_compute; reflexivity) ltac:(vm_compute; reflexivity)).
Defined.

(** ** The init phase *)

Section InitOutcomes.
Import Errors Sys Upload.

Variable P : Platform.

(** The session row init inserts. *)
Local Abbreviation sessionOf req draw ctx :=
  (UploadSession.mk
     (uploadIdUUID draw)
     (if Js.truthyOpt (declaredSha256 req)
      then Some (Hasher.normalizeSha256Hash (default "" (declaredSha256 req)))
      else None)
     (Mime.sanitizeFilename (filename req))
     (sizeBytes req)
     (if Js.truthyOpt (mimeHint req) then mimeHint req
      else Mime.extractMimeFromFilename (filename req))
     (Auth.orgId ctx)
     None None
     (tokenUUID draw)
     (Some (if Js.truthyOpt (declaredSha256 req)
            then Mime.generateBucketKey
                   (Hasher.normalizeSha256Hash (default "" (declaredSha256 req)))
                   (filename req)
            else Mime.generateBucketKey (stagingUUID draw) (filename req)))
     UploadSession.defaultStatus
     (initCreatedAt draw)
     (Z.add (initNow draw) (5 * 60 * 1000)%Z)
     None).

(** The two ways the [try] block of init can end: an error and nothing
    written, or the session row inserted under a fresh id. *)
Lemma initBody_outcome req d st st' res :
  initBody P req d st = (st', res) ->
  (st' = st /\ exists x, res = Throw x)
  \/ (exists ctx,
        uploadSessions st !! uploadIdUUID d = None
        /\ (Js.truthyOpt (mimeHint req) = true ->
            Mime.isAllowedMimeType (default "" (mimeHint req)) = true)
        /\ st' = mkState (<[uploadIdUUID d := sessionOf req d ctx]> (uploadSessions st))
                   (artifacts st) (objects st) (pinLog st)
        /\ res = Ok (mkInitReply (uploadIdUUID d) (tokenUUID d)
                       (Env.S3_ENDPOINT (config P) +:+ "/" +:+ Env.S3_BUCKET (config P)
                          +:+ "/" +:+
                          (if Js.truthyOpt (declaredSha256 req)
                           then Mime.generateBucketKey
                                  (Hasher.normalizeSha256Hash
                                     (default "" (declaredSha256 req)))
                                  (filename req)
                           else Mime.generateBucketKey (stagingUUID d) (filename req)))
                       (if Js.truthyOpt (declaredSha256 req)
                        then Mime.generateBucketKey
                               (Hasher.normalizeSha256Hash
                                  (default "" (declaredSha256 req)))
                               (filename req)
                        else Mime.generateBucketKey (stagingUUID d) (filename req))
                       (initNow d + 5 * 60 * 1000)%Z)).
Proof.
  intros E. unfold initBody, bind, lift, throw, ret in E.
  destruct (Auth.authenticate _ _ _ _) as [ctx|];
    [|injection E as <- <-; left; eauto].
  match type of E with
  | context [match sizeBytes req with Some n => @?f n | None => ?g end st] =>
      assert (Hstep : match sizeBytes req with Some n => f n | None => g end st
                      = (st, Ok tt)
                      \/ exists x, match sizeBytes req with Some n => f n | None => g end st
                                   = (st, Throw x))
  end.
  { destruct (sizeBytes req) as [n|]; [|now left].
    destruct (negb (n =? 0)%Z && (Env.MAX_UPLOAD_BYTES (config P) <? n)%Z);
      [right; eauto | now left]. }
  destruct Hstep as [Hstep | (x & Hstep)]; rewrite Hstep in E;
    [|injection E as <- <-; left; eauto].
  cbv beta iota in E.
  destruct (Js.truthyOpt (declaredSha256 req)
            && negb (Hasher.validateSha256Hash
                       (Hasher.normalizeSha256Hash (default "" (declaredSha256 req)))));
    [injection E as <- <-; left; eauto|].
  cbv beta iota in E.
  assert (Hmime : Mime.isAllowedMimeType (default "" (mimeHint req)) = true
                  \/ Mime.isAllowedMimeType (default "" (mimeHint req)) = false)
    by (destruct (Mime.isAllowedMimeType _); auto).
  unfold Mime.validateMimeType in E.
  destruct (Js.truthyOpt (mimeHint req));
    [destruct Hmime as [Hmime | Hmime]; rewrite Hmime in E; cbn [negb] in E;
       [|injection E as <- <-; left; eauto]|];
    cbv beta iota in E;
    unfold createUploadSession in E; cbn [UploadSession.id] in E;
    (destruct (uploadSessions st !! uploadIdUUID d) eqn:Hfree;
       [injection E as <- <-; left; eauto|]);
    injection E as <- <-; right; exists ctx; repeat split; auto; discriminate.
Qed.

(** X23. An init call that is answered with an error has written
    nothing. *)
Theorem init_failure_writes_nothing req d st st' c b :
  init P req d st = (st', Failed c b) -> st' = st.
Proof.
  unfold init, handle.
  destruct (initBody P req d st) as [st0 res] eqn:E.
  destruct (initBody_outcome _ _ _ _ _ E) as [[-> (x & ->)] | (ctx & _ & _ & -> & ->)].
  - now intros [= <- _].
  - discriminate.
Qed.

(** X24. A successful init call has stored, under an uploadId that was
    free, a session that is PENDING, not completed, expiring five minutes
    after the clock reading, with the sanitized filename, the token and
    the bucket key of the reply; the presigned URL is endpoint, bucket
    and that key; artifacts, objects and the other sessions are
    untouched. *)
Theorem init_success req d st st' r :
  init P req d st = (st', Sent 201 r) ->
  uploadSessions st !! r_uploadId r = None
  /\ (exists us,
        uploadSessions st' !! r_uploadId r = Some us
        /\ UploadSession.status us = UploadSession.PENDING
        /\ UploadSession.completedAt us = None
        /\ UploadSession.expiresAt us = initNow d + 300000
        /\ r_expiresAt r = initNow d + 300000
        /\ UploadSession.filename us = Mime.sanitizeFilename (filename req)
        /\ UploadSession.token us = r_token r
        /\ UploadSession.bucketKey us = Some (r_bucketKey r))
  /\ r_putUrl r
     = Env.S3_ENDPOINT (config P) +:+ "/" +:+ Env.S3_BUCKET (config P) +:+ "/"
         +:+ r_bucketKey r
  /\ artifacts st' = artifacts st
  /\ objects st' = objects st
  /\ (forall other, other <> r_uploadId r ->
        uploadSessions st' !! other = uploadSessions st !! other).
Proof.
  unfold init, handle.
  destruct (initBody P req d st) as [st0 res] eqn:E.
  destruct (initBody_outcome _ _ _ _ _ E) as [[-> (x & ->)] | (ctx & Hfree & _ & -> & ->)].
  - intros [= _ H]. now apply catch_not_Sent in H.
  - intros [= <- <-]. cbn [r_uploadId r_putUrl r_bucketKey r_expiresAt r_token
                            uploadSessions artifacts objects].
    split; [exact Hfree|]. split.
    + eexists. rewrite lookup_insert_eq. split; [reflexivity|].
      cbn. repeat split; reflexivity.
    + repeat split. intros other Hne. now rewrite lookup_insert_ne by congruence.
Qed.

(** X25. The checks of an authenticated init call come in a fixed order:
    a size above the configured maximum is answered 413 FILE_TOO_LARGE
    whatever else the body holds; otherwise a declared digest that is not
    64 hexadecimal digits after normalization is answered 400
    VALIDATION_ERROR; otherwise a MIME hint outside the allow-list is
    answered 415 UNSUPPORTED_MIME_TYPE. *)
Theorem init_rejections req d st ctx :
  Auth.authenticate (hmacSha256Hex P) (config P) (initHeaders req) (initBodyJson req)
  = Ok ctx ->
  let tooLarge :=
    match sizeBytes req with
    | Some n => negb (n =? 0)%Z && (Env.MAX_UPLOAD_BYTES (config P) <? n)%Z
    | None => false
    end in
  let badDigest :=
    Js.truthyOpt (declaredSha256 req)
    && negb (Hasher.validateSha256Hash
               (Hasher.normalizeSha256Hash (default "" (declaredSha256 req)))) in
  let badMime :=
    Js.truthyOpt (mimeHint req)
    && negb (Mime.isAllowedMimeType (default "" (mimeHint req))) in
  (tooLarge = true ->
   exists b, init P req d st = (st, Failed 413 b)
             /\ errorCode b = Some "FILE_TOO_LARGE")
  /\ (tooLarge = false -> badDigest = true ->
      init P req d st
      = (st, Failed 400 (mkErrorBody "Invalid SHA-256 hash format"
                           (Some "VALIDATION_ERROR"))))
  /\ (tooLarge = false -> badDigest = false -> badMime = true ->
      exists b, init P req d st = (st, Failed 415 b)
                /\ errorCode b = Some "UNSUPPORTED_MIME_TYPE").
Proof.
  intros Hauth tooLarge badDigest badMime.
  unfold init, handle, initBody, bind, lift. rewrite Hauth.
  subst tooLarge badDigest badMime. repeat split.
  - intros H. destruct (sizeBytes req) as [n|]; [|discriminate].
    rewrite H. eexists. split; reflexivity.
  - intros H1 H2.
    assert (E : match sizeBytes req with
                | Some n =>
                    if negb (n =? 0)%Z && (Env.MAX_UPLOAD_BYTES (config P) <? n)%Z
                    then throw (FileTooLargeError n (Env.MAX_UPLOAD_BYTES (config P)))
                    else ret tt
                | None => ret tt
                end st = (st, Ok tt))
      by (destruct (sizeBytes req); [now rewrite H1 | reflexivity]).
    rewrite E, H2. reflexivity.
  - intros H1 H2 H3.
    assert (E : match sizeBytes req with
                | Some n =>
                    if negb (n =? 0)%Z && (Env.MAX_UPLOAD_BYTES (config P) <? n)%Z
                    then throw (FileTooLargeError n (Env.MAX_UPLOAD_BYTES (config P)))
                    else ret tt
                | None => ret tt
                end st = (st, Ok tt))
      by (destruct (sizeBytes req); [now rewrite H1 | reflexivity]).
    rewrite E, H2. cbv beta iota.
    apply andb_true_iff in H3 as [Hm Hbad]. rewrite Hm.
    unfold Mime.validateMimeType. rewrite Hbad.
    eexists. split; reflexivity.
Qed.

End InitOutcomes.

Lemma init_rejections_witness :
  exists b,
    Upload.init Demo.platform
      (Upload.mkInitRequest (Demo.signed "issuer-portal" "secret2" "{init}") "{init}"
         "big.bin" (Some 52428801) (Some "application/x-msdownload") (Some "xyz"))
      Demo.initDraw Demo.empty
    = (Demo.empty, Sys.Failed 413 b)
    /\ Sys.errorCode b = Some "FILE_TOO_LARGE".
Proof.
  exact (proj1 (init_rejections Demo.platform
           (Upload.mkInitRequest (Demo.signed "issuer-portal" "secret2" "{init}") "{init}"
              "big.bin" (Some 52428801) (Some "application/x-msdownload") (Some "xyz"))
           Demo.initDraw Demo.empty (Auth.mkAuthContext "issuer-portal" None None)
           ltac:(vm_compute; reflexivity)) eq_refl).
Defined.

Lemma init_failure_writes_nothing_witness :
  fst (Upload.init Demo.platform
         (Upload.mkInitRequest (Demo.signed "issuer-portal" "secret2" "{init}") "{init}"
            "setup.exe" (Some 12) (Some "application/x-msdownload") None)
         Demo.initDraw Demo.empty) = Demo.empty.
Proof.
  apply (init_failure_writes_nothing Demo.platform
           (Upload.mkInitRequest (Demo.signed "issuer-portal" "secret2" "{init}") "{init}"
              "setup.exe" (Some 12) (Some "application/x-msdownload") None)
           Demo.initDraw Demo.empty
           (fst (Upload.init Demo.platform
                   (Upload.mkInitRequest (Demo.signed "issuer-portal" "secret2" "{init}")
                      "{init}" "setup.exe" (Some 12) (Some "application/x-msdownload") None)
                   Demo.initDraw Demo.empty))
           415
           (Sys.mkErrorBody
              (Errors.message (Errors.UnsupportedMimeTypeError "application/x-msdownload"
                                 Mime.getAllowedMimeTypes))
              (Some "UNSUPPORTED_MIME_TYPE"))).
  vm_compute. reflexivity.
Defined.

Lemma init_success_witness :
  Sys.uploadSessions Demo.empty !! "upload-1" = None
  /\ Sys.artifacts Samples.initedPlain = Sys.artifacts Demo.empty.
Proof.
  destruct (init_success Demo.platform Demo.initPlain Demo.initDraw Demo.empty
              Samples.initedPlain
              (Upload.mkInitReply "upload-1" "token-1"
                 ("http://minio:9000/evidence/" +:+ Demo.stagingKey) Demo.stagingKey 301000)
              ltac:(vm_compute; reflexivity)) as (H1 & _ & _ & H4 & _).
  exact (conj H1 H4).
Defined.

(** ** The three phases in sequence *)

Section ThreePhases.
Import Errors Sys Upload.

Variable P : Platform.

Lemma generateBucketKey_nonempty dg f : Mime.generateBucketKey dg f <> "".
Proof. unfold Mime.generateBucketKey. cbv [String.append]. discriminate. Qed.

(** X26. Init, upload, complete: when an init call has succeeded, the
    client has put some bytes under the bucket key of the reply, and the
    declared digest, if there was one, is the digest of those bytes, then
    an authenticated complete call for the uploadId of the reply, made
    before the expiry of the reply with a row id free in the catalog,
    succeeds: it answers 200 with the digest of the bytes and leaves the
    session COMPLETE. *)
Theorem init_put_complete ireq idraw st0 st1 ir content creq cdraw ctx :
  init P ireq idraw st0 = (st1, Sent 201 ir) ->
  (Js.truthyOpt (declaredSha256 ireq) = true ->
   Hasher.normalizeSha256Hash (default "" (declaredSha256 ireq))
   = sha256 (computeHashFromStream P content)) ->
  Auth.authenticate (hmacSha256Hex P) (config P) (completeHeaders creq)
    (completeBodyJson creq) = Ok ctx ->
  uploadId creq = r_uploadId ir ->
  atExpiryCheck cdraw <= r_expiresAt ir ->
  existsb (hasId (artifactRowId cdraw)) (artifacts st0) = false ->
  exists st3 r,
    complete P creq cdraw (putObject (r_bucketKey ir) content st1) = (st3, Sent 200 r)
    /\ r_sha256Hex r = sha256 (computeHashFromStream P content)
    /\ UploadSession.status <$> uploadSessions st3 !! r_uploadId ir
       = Some UploadSession.COMPLETE.
Proof.
  intros Hinit Hdecl Hauth Hid Hlive Hfresh.
  unfold init, handle in Hinit.
  destruct (initBody P ireq idraw st0) as [s res] eqn:E.
  destruct (initBody_outcome _ _ _ _ _ _ E) as [[-> (x & ->)] | (ictx & _ & _ & -> & ->)].
  { injection Hinit as _ H. now apply catch_not_Sent in H. }
  injection Hinit as <- <-.
  cbn [r_uploadId r_bucketKey r_expiresAt] in *.
  set (key := if Js.truthyOpt (declaredSha256 ireq)
              then Mime.generateBucketKey
                     (Hasher.normalizeSha256Hash (default "" (declaredSha256 ireq)))
                     (filename ireq)
              else Mime.generateBucketKey (stagingUUID idraw) (filename ireq)) in *.
  match goal with
  | |- context [<[uploadIdUUID idraw := ?s]> _] => set (us := s) in *
  end.
  set (st2 := putObject key content _).
  assert (Hs : uploadSessions st2 !! uploadId creq = Some us)
    by (rewrite Hid; apply lookup_insert_eq).
  assert (Hkey : UploadSession.bucketKey us = Some key) by reflexivity.
  assert (Hkey_set : key <> "")
    by (unfold key; destruct (Js.truthyOpt _); apply generateBucketKey_nonempty).
  assert (Hobj : objects st2 !! key = Some content) by apply lookup_insert_eq.
  assert (Hlive' : atExpiryCheck cdraw <= UploadSession.expiresAt us) by exact Hlive.
  assert (Hmis : hashMismatch us (computeHashFromStream P content) = false).
  { unfold hashMismatch, us. cbn [UploadSession.sha256Hex].
    destruct (Js.truthyOpt (declaredSha256 ireq)) eqn:Ht; [|reflexivity].
    cbn [Js.truthyOpt default from_option id]. rewrite (Hdecl eq_refl).
    now rewrite String.eqb_refl, andb_false_r. }
  destruct (find (hasDigest (sha256 (computeHashFromStream P content))) (artifacts st2))
    as [a|] eqn:Hfind.
  - rewrite (complete_known P creq cdraw st2 ctx us key content
               Hauth Hs Hlive' Hkey Hkey_set Hobj a Hmis Hfind).
    eexists _, _. split; [reflexivity|].
    cbn [descriptor r_sha256Hex uploadSessions]. rewrite <- Hid, lookup_insert_eq.
    split; [|reflexivity].
    apply find_some in Hfind as [_ Hfind]. now apply String.eqb_eq in Hfind.
  - destruct (complete_new P creq cdraw st2 ctx us key content
                Hauth Hs Hlive' Hkey Hkey_set Hobj Hmis Hfind Hfresh)
      as (log & c & g & -> & _).
    eexists _, _. split; [reflexivity|].
    cbn [descriptor r_sha256Hex uploadSessions Artifact.sha256Hex].
    rewrite <- Hid, lookup_insert_eq. split; reflexivity.
Qed.

End ThreePhases.

Lemma init_put_complete_witness :
  exists st3 r,
    Upload.complete Demo.platform Demo.completeReq (Demo.completeAt "artifact-1" 2000)
      (Sys.putObject Demo.stagingKey "hello world!" Samples.initedPlain)
    = (st3, Sys.Sent 200 r)
    /\ Upload.r_sha256Hex r
       = Sys.sha256 (Sys.computeHashFromStream Demo.platform "hello world!")
    /\ UploadSession.status <$> Sys.uploadSessions st3 !! "upload-1"
       = Some UploadSession.COMPLETE.
Proof.
  refine (init_put_complete Demo.platform Demo.initPlain Demo.initDraw Demo.empty
            Samples.initedPlain
            (Upload.mkInitReply "upload-1" "token-1"
               ("http://minio:9000/evidence/" +:+ Demo.stagingKey) Demo.stagingKey 301000)
            "hello world!" Demo.completeReq (Demo.completeAt "artifact-1" 2000)
            (Auth.mkAuthContext "issuer-portal" None None) _ _ _ _ _ _).
  - vm_compute. reflexivity.
  - discriminate.
  - vm_compute. reflexivity.
  - reflexivity.
  - simpl. lia.
  - reflexivity.
Defined.

(** ** Private download *)

Section DownloadFacts.
Import Errors Sys Download.

Variable P : Platform.
Variable JWT_SECRET : option string.
Variable jwtVerify : string -> string -> Tokens.VerifyOutcome.
Variable getSignedUrl : string -> string -> Z -> Result string.

(** X27. With public read off, a download or metadata request whose HMAC
    authentication fails and that carries no bearer token is answered
    according to the catalog alone: 404 NOT_FOUND when the digest is
    unknown, and otherwise 401 AUTHENTICATION_ERROR with a fixed message
    that does not depend on why the authentication failed. Neither route
    writes anything. *)
Theorem private_download_unauthenticated (req : DownloadRequest) (x : Exn) (st : State) :
  Auth.authenticate (hmacSha256Hex P) (config P) (headers req) "" = Throw x ->
  Js.truthyOpt (authorization req)
  && String.prefix "Bearer " (default "" (authorization req)) = false ->
  sha256Hex req <> "" ->
  let notFound {A} : Reply A :=
    Failed 404 (mkErrorBody ("Artifact with identifier '" +:+ sha256Hex req
                               +:+ "' not found") (Some "NOT_FOUND")) in
  let denied {A} (message : string) : Reply A :=
    Failed 401 (mkErrorBody message (Some "AUTHENTICATION_ERROR")) in
  match find (hasDigest (sha256Hex req)) (artifacts st) with
  | None =>
      download P false JWT_SECRET jwtVerify getSignedUrl req st = (st, notFound)
      /\ meta P JWT_SECRET jwtVerify req st = (st, notFound)
  | Some _ =>
      download P false JWT_SECRET jwtVerify getSignedUrl req st
      = (st, denied "Authentication required")
      /\ meta P JWT_SECRET jwtVerify req st
         = (st, denied "Authentication required for metadata access")
  end.
Proof.
  intros Hfail Hbearer Hne notFound denied.
  unfold download, meta, handle, downloadBody, metaBody, bind, lift, findArtifact, gets,
    authenticatePrivate.
  destruct (find (hasDigest (sha256Hex req)) (artifacts st)) as [a|].
  - rewrite Hfail, Hbearer. split; reflexivity.
  - unfold throw, catch, sendError, NotFoundError. rewrite (truthy_ne _ Hne).
    split; reflexivity.
Qed.

End DownloadFacts.

Lemma private_download_unauthenticated_witness :
  Download.download Demo.platform false None Samples.noJwt Samples.presign
    Samples.anonymous Demo.completedPlain
  = (Demo.completedPlain,
     Sys.Failed 401 (Sys.mkErrorBody "Authentication required"
                       (Some "AUTHENTICATION_ERROR"))).
Proof.
  generalize (private_download_unauthenticated Demo.platform None Samples.noJwt
                Samples.presign Samples.anonymous
                (Errors.Locker (Errors.AuthenticationError
                   "Missing authentication headers (x-app-key, x-app-sig)"))
                Demo.completedPlain eq_refl eq_refl ltac:(discriminate)).
  replace (find (Sys.hasDigest (Download.sha256Hex Samples.anonymous))
             (Sys.artifacts Demo.completedPlain))
    with (Some Samples.artifact1) by (vm_compute; reflexivity).
  intros [H _]. exact H.
Defined.

(** ** The admin routes *)

Section AdminFacts.
Import Errors Sys AdminOps.

Variable P : Platform.

Lemma authenticateAdmin_registry headers bodyJson ctx st :
  Auth.authenticate (hmacSha256Hex P) (config P) headers bodyJson = Ok ctx ->
  Auth.appKey ctx = "registry" ->
  authenticateAdmin P headers bodyJson st = (st, Ok ctx).
Proof.
  intros Hauth Hreg. unfold authenticateAdmin, bind, lift, ret.
  rewrite Hauth. unfold Auth.requireAuth. rewrite Hreg. reflexivity.
Qed.

(** Rows of a table with a primary key are told apart by their id. *)
Lemma NoDup_id_inj (l : list Artifact.t) x y :
  NoDup (map Artifact.id l) -> In x l -> In y l ->
  Artifact.id x = Artifact.id y -> x = y.
Proof.
  induction l as [|z l IH]; [intros _ []|].
  cbn [map]. intros Hnd Hx Hy E. apply NoDup_cons in Hnd as [Hz Hnd].
  assert (Hz' : forall w, In w l -> Artifact.id w <> Artifact.id z).
  { intros w Hw Ew. apply Hz, list_elem_of_In. rewrite <- Ew. now apply in_map. }
  destruct Hx as [<- | Hx], Hy as [<- | Hy].
  - reflexivity.
  - exfalso. now apply (Hz' y Hy).
  - exfalso. now apply (Hz' x Hx).
  - now apply IH.
Qed.

Lemma NoDup_map_filter {A B} (f : A -> B) (p : A -> bool) (l : list A) :
  NoDup (map f l) -> NoDup (map f (List.filter p l)).
Proof.
  induction l as [|z l IH]; [intros _; constructor|].
  cbn [map List.filter]. intros Hnd. apply NoDup_cons in Hnd as [Hz Hnd].
  destruct (p z); [|now apply IH]. cbn [map]. apply NoDup_cons. split; [|now apply IH].
  intros Hin. apply Hz. apply list_elem_of_In in Hin. apply list_elem_of_In.
  apply in_map_iff in Hin as (w & <- & Hw). apply in_map.
  now apply List.filter_In in Hw as [Hw _].
Qed.

(** Changing the row of [a] and changing it back restores the table. *)
Lemma onRow_round_trip l a (f g : Artifact.t -> Artifact.t) :
  NoDup (map Artifact.id l) -> In a l ->
  Artifact.id (f a) = Artifact.id a -> g (f a) = a ->
  map (onRow (Artifact.id a) g) (map (onRow (Artifact.id a) f) l) = l.
Proof.
  intros Hnd Ha Hid Hgf. rewrite map_map.
  transitivity (map (fun x : Artifact.t => x) l); [|apply List.map_id].
  apply map_ext_in. intros x Hx. unfold onRow.
  destruct (hasId (Artifact.id a) x) eqn:E.
  - unfold hasId in E. apply String.eqb_eq in E.
    assert (x = a) as -> by now apply (NoDup_id_inj l).
    unfold hasId. rewrite Hid, String.eqb_refl. exact Hgf.
  - now rewrite E.
Qed.

(** X28. Pinning is idempotent. When [registry] asks to pin a known,
    unpinned artifact whose object is stored and the service answers with
    a non-empty cid, the call sends the content to the service once,
    writes the cid on that row only, and answers 200 with the cid and its
    gateway URL; the same request repeated on the resulting state sends
    nothing to the service, changes nothing and answers 200 with the same
    cid. *)
Theorem pin_then_pin (gatewayUrl : string) (req : PinRequest) ctx st a pinner content cid :
  Auth.authenticate (hmacSha256Hex P) (config P) (pinHeaders req) (pinBodyJson req) = Ok ctx ->
  Auth.appKey ctx = "registry" ->
  find (hasDigest (pinSha256Hex req)) (artifacts st) = Some a ->
  ipfs P = Some pinner ->
  Js.truthyOpt (Artifact.cidV1 a) = false ->
  objects st !! Artifact.bucketKey a = Some content ->
  pinner content = Some cid ->
  cid <> "" ->
  let st1 := mkState (uploadSessions st)
               (map (onRow (Artifact.id a) (Artifact.setCidV1 cid)) (artifacts st))
               (objects st) (content :: pinLog st) in
  pin P gatewayUrl req st
  = (st1, Sent 200 (mkPinReply "Artifact pinned to IPFS successfully" (Some cid)
                      (Some (gatewayUrl +:+ "/ipfs/" +:+ cid))))
  /\ pin P gatewayUrl req st1
     = (st1, Sent 200 (mkPinReply "Artifact already pinned to IPFS" (Some cid) None)).
Proof.
  intros Hauth Hreg Hfind Hipfs Hcid Hobj Hpin Hne st1.
  destruct (find_Some_existsb _ _ _ Hfind) as [Hex Hdig].
  assert (Hid : existsb (hasId (Artifact.id a)) (artifacts st) = true).
  { apply existsb_exists. exists a. split.
    - now apply find_some in Hfind as [Hin _].
    - apply String.eqb_refl. }
  split.
  - unfold pin, handleReply, pinBody, bind at 1.
    rewrite (authenticateAdmin_registry _ _ _ _ Hauth Hreg).
    unfold bind at 1. unfold findArtifact, gets. rewrite Hfind, Hipfs, Hcid.
    unfold bind at 1. unfold getObject. rewrite Hobj.
    unfold bind at 1. unfold pinFile. rewrite Hpin.
    unfold bind, updateArtifact, ret. cbn [artifacts uploadSessions objects pinLog].
    rewrite Hid. reflexivity.
  - unfold pin, handleReply, pinBody, bind at 1.
    rewrite (authenticateAdmin_registry _ _ _ _ Hauth Hreg).
    unfold bind, findArtifact, gets, ret. subst st1. cbn [artifacts].
    rewrite find_hasDigest_map by (intros x; unfold onRow; now destruct (hasId _ x)).
    rewrite Hfind. cbn [fmap option_fmap option_map]. rewrite Hipfs.
    unfold onRow, hasId. rewrite String.eqb_refl.
    cbn [Artifact.setCidV1 Artifact.cidV1 Js.truthyOpt]. rewrite (truthy_ne _ Hne).
    reflexivity.
Qed.

(** X29. Unpinning undoes pinning. In a catalog with unique ids, once
    [registry] has pinned an artifact that carried no cid, an unpin
    request for the same digest that the service accepts answers 200 with
    the cid and restores the artifact table to what it was before the
    pin; an unpin the service refuses is a 500 and leaves the cid in
    place. Objects and sessions are never touched. *)
Theorem pin_unpin_round_trip (unpinAccepted : string -> bool) (req : PinRequest)
    ctx st a pinner cid :
  Auth.authenticate (hmacSha256Hex P) (config P) (pinHeaders req) (pinBodyJson req) = Ok ctx ->
  Auth.appKey ctx = "registry" ->
  NoDup (map Artifact.id (artifacts st)) ->
  find (hasDigest (pinSha256Hex req)) (artifacts st) = Some a ->
  ipfs P = Some pinner ->
  Artifact.cidV1 a = None ->
  cid <> "" ->
  forall log,
  let st1 := mkState (uploadSessions st)
               (map (onRow (Artifact.id a) (Artifact.setCidV1 cid)) (artifacts st))
               (objects st) log in
  (unpinAccepted cid = true ->
   unpin P unpinAccepted req st1
   = (mkState (uploadSessions st) (artifacts st) (objects st) log,
      Sent 200 (mkPinReply "Artifact unpinned from IPFS successfully" (Some cid) None)))
  /\ (unpinAccepted cid = false ->
      unpin P unpinAccepted req st1 = (st1, sendInternal)).
Proof.
  intros Hauth Hreg Hnd Hfind Hipfs Hcid Hne log st1.
  assert (Hin : In a (artifacts st)) by now apply find_some in Hfind as [Hin _].
  assert (Hprefix :
    unpin P unpinAccepted req st1
    = handleReply [ClsNotFound; ClsAuthorization]
        (bind (unpinFile unpinAccepted cid) (fun _ =>
           bind (updateArtifact (Artifact.id a) clearCidV1) (fun _ =>
             ret (Sent 200 (mkPinReply "Artifact unpinned from IPFS successfully"
                              (Some cid) None))))) st1).
  { unfold unpin, handleReply, unpinBody, bind at 1 4.
    rewrite (authenticateAdmin_registry _ _ _ _ Hauth Hreg).
    unfold bind at 1 3. unfold findArtifact, gets. subst st1. cbn [artifacts].
    rewrite find_hasDigest_map by (intros x; unfold onRow; now destruct (hasId _ x)).
    rewrite Hfind. cbn [fmap option_fmap option_map]. rewrite Hipfs.
    unfold onRow, hasId. rewrite String.eqb_refl.
    cbn [Artifact.setCidV1 Artifact.cidV1 Artifact.id Js.truthyOpt default from_option id].
    rewrite (truthy_ne _ Hne). reflexivity. }
  split; intros Hacc; rewrite Hprefix; unfold handleReply, bind at 1, unpinFile;
    rewrite Hacc.
  - unfold bind, updateArtifact, ret. subst st1.
    cbn [artifacts uploadSessions objects pinLog].
    replace (existsb _ _) with true.
    + rewrite onRow_round_trip; auto.
      destruct a; cbn in Hcid |- *; now subst.
    + symmetry. apply existsb_exists. exists (Artifact.setCidV1 cid a). split.
      * apply in_map_iff. exists a. split; [|exact Hin].
        unfold onRow, hasId. now rewrite String.eqb_refl.
      * apply String.eqb_refl.
  - reflexivity.
Qed.

Lemma filter_filter {A} (p q : A -> bool) (l : list A) :
  List.filter p (List.filter q l) = List.filter (fun x => q x && p x) l.
Proof.
  induction l as [|x l IH]; [reflexivity|].
  cbn [List.filter]. destruct (q x); cbn [List.filter andb]; [|exact IH].
  destruct (p x); now rewrite IH.
Qed.

Lemma filter_all {A} (l : list A) : List.filter (fun _ => true) l = l.
Proof. induction l as [|x l IH]; [reflexivity|]. cbn [List.filter]. now rewrite IH. Qed.

(** The deletion loop on a store whose deletes cannot fail, over rows of
    the table with distinct ids: every row is deleted and reported. *)
Lemma sweep_fold :
  createStorageDriver (config P) = S3StorageDriver ->
  forall todo s acc,
    NoDup (map Artifact.id todo) ->
    (forall a, In a todo -> In a (artifacts s)) ->
    fold_left (sweepOne P) todo (s, acc)
    = (mkState (uploadSessions s)
         (List.filter (fun x => negb (existsb (fun t => hasId (Artifact.id t) x) todo))
            (artifacts s))
         (fold_left (fun o a => delete (Artifact.bucketKey a) o) todo (objects s))
         (pinLog s),
       (acc ++ todo)%list).
Proof.
  intros Hs3. induction todo as [|a todo IH]; intros s acc Hnd Hsub.
  - cbn [fold_left existsb negb]. rewrite filter_all, app_nil_r. now destruct s.
  - cbn [map] in Hnd. apply NoDup_cons in Hnd as [Ha Hnd].
    cbn [fold_left]. unfold sweepOne at 2. cbn [fst snd].
    unfold bind, deleteObject. rewrite Hs3. unfold deleteArtifact. cbn [artifacts].
    replace (existsb (hasId (Artifact.id a)) (artifacts s)) with true.
    2:{ symmetry. apply existsb_exists. exists a. split;
          [apply Hsub; now left | apply String.eqb_refl]. }
    cbn [uploadSessions objects pinLog].
    rewrite IH; [|exact Hnd|].
    + cbn [uploadSessions artifacts objects pinLog fold_left existsb].
      rewrite filter_filter, <- app_assoc. cbn [app]. do 2 f_equal.
      apply List.filter_ext. intros x. now rewrite negb_orb.
    + intros b Hb. cbn [artifacts]. apply List.filter_In. split; [apply Hsub; now right|].
      apply negb_true_iff. unfold hasId. apply String.eqb_neq. intros E.
      apply Ha, list_elem_of_In. rewrite <- E. now apply in_map.
Qed.

Lemma fold_delete_None (todo : list Artifact.t) (o : gmap string string) k :
  o !! k = None ->
  fold_left (fun o a => delete (Artifact.bucketKey a) o) todo o !! k = None.
Proof.
  revert o. induction todo as [|a todo IH]; intros o Hk; [exact Hk|].
  cbn [fold_left]. apply IH. apply lookup_delete_None. now right.
Qed.

Lemma fold_delete_In (todo : list Artifact.t) (o : gmap string string) a :
  In a todo ->
  fold_left (fun o a => delete (Artifact.bucketKey a) o) todo o
    !! Artifact.bucketKey a = None.
Proof.
  revert o. induction todo as [|b todo IH]; intros o; [intros []|].
  cbn [fold_left]. intros [-> | Hin]; [|now apply IH].
  apply fold_delete_None. apply lookup_delete_None. now left.
Qed.

Lemma fold_delete_other (todo : list Artifact.t) (o : gmap string string) k :
  (forall a, In a todo -> Artifact.bucketKey a <> k) ->
  fold_left (fun o a => delete (Artifact.bucketKey a) o) todo o !! k = o !! k.
Proof.
  revert o. induction todo as [|b todo IH]; intros o Hk; [reflexivity|].
  cbn [fold_left]. rewrite IH by (intros a Ha; apply Hk; now right).
  apply lookup_delete_ne. apply Hk. now left.
Qed.

(** X30. The retention sweep on the S3 driver, over a catalog with unique
    ids, called by [registry]. A dry run writes nothing and lists exactly
    the artifacts created before the cutoff, with their dates. A real
    sweep reports the same artifacts, leaves in the table exactly the
    artifacts that are not older than the cutoff, in their order, removes
    the object at the bucket key of every swept artifact, and leaves every
    other object, the sessions and the pin record as they were. *)
Theorem sweep_removes_older (req : SweepRequest) ctx st :
  Auth.authenticate (hmacSha256Hex P) (config P) (sweepHeaders req) (sweepBodyJson req)
  = Ok ctx ->
  Auth.appKey ctx = "registry" ->
  createStorageDriver (config P) = S3StorageDriver ->
  NoDup (map Artifact.id (artifacts st)) ->
  let old := olderThan (beforeDate req) st in
  (dryRun req = true ->
   sweep P req st
   = (st, Sent 200 (mkSweepReply true (length old)
                      (map (fun a => mkSweepItem (Artifact.id a) (Artifact.sha256Hex a)
                                       (Artifact.filename a) (Some (Artifact.createdAt a)))
                           old))))
  /\ (dryRun req = false ->
      exists st',
        sweep P req st
        = (st', Sent 200 (mkSweepReply false (length old)
                            (map (fun a => mkSweepItem (Artifact.id a)
                                             (Artifact.sha256Hex a)
                                             (Artifact.filename a) None)
                                 old)))
        /\ artifacts st'
           = List.filter (fun a => negb (Artifact.createdAt a <? beforeDate req)%Z)
               (artifacts st)
        /\ uploadSessions st' = uploadSessions st
        /\ pinLog st' = pinLog st
        /\ (forall a, In a old -> objects st' !! Artifact.bucketKey a = None)
        /\ (forall k, (forall a, In a old -> Artifact.bucketKey a <> k) ->
                      objects st' !! k = objects st !! k)).
Proof.
  intros Hauth Hreg Hs3 Hnd old. split; intros Hdry.
  - unfold sweep, handle, sweepBody, bind at 1.
    rewrite (authenticateAdmin_registry _ _ _ _ Hauth Hreg).
    unfold bind, gets, ret. rewrite Hdry. reflexivity.
  - exists (mkState (uploadSessions st)
              (List.filter
                 (fun x => negb (existsb (fun t => hasId (Artifact.id t) x) old))
                 (artifacts st))
              (fold_left (fun o a => delete (Artifact.bucketKey a) o) old (objects st))
              (pinLog st)).
    split; [|split; [|split; [reflexivity|split; [reflexivity|split]]]].
    + unfold sweep, handle, sweepBody, bind at 1.
      rewrite (authenticateAdmin_registry _ _ _ _ Hauth Hreg).
      unfold bind, gets. rewrite Hdry. fold old.
      rewrite (sweep_fold Hs3 old st []).
      * cbn [app]. reflexivity.
      * now apply NoDup_map_filter.
      * intros a Ha. now apply List.filter_In in Ha as [Ha _].
    + cbn [artifacts]. apply List.filter_ext_in. intros x Hx. f_equal.
      destruct (Artifact.createdAt x <? beforeDate req)%Z eqn:E.
      * apply existsb_exists. exists x. split; [|apply String.eqb_refl].
        apply List.filter_In. now split.
      * apply not_true_is_false. intros Hex.
        apply existsb_exists in Hex as (t & Ht & Et).
        apply List.filter_In in Ht as [Ht Hold].
        unfold hasId in Et. apply String.eqb_eq in Et.
        assert (x = t) by now apply (NoDup_id_inj (artifacts st)).
        subst t. congruence.
    + cbn [objects]. intros a Ha. now apply fold_delete_In.
    + cbn [objects]. intros k Hk. now apply fold_delete_other.
Qed.

End AdminFacts.

Lemma pin_then_pin_witness :
  let st1 := fst (AdminOps.pin Demo.platformWithIpfs "https://ipfs.io" Samples.pinReq
                    Demo.completedPlain) in
  AdminOps.pin Demo.platformWithIpfs "https://ipfs.io" Samples.pinReq st1
  = (st1, Sys.Sent 200 (AdminOps.mkPinReply "Artifact already pinned to IPFS"
                          (Some "bafy-demo") None)).
Proof.
  assert (Hauth : Auth.authenticate (Sys.hmacSha256Hex Demo.platformWithIpfs)
                    (Sys.config Demo.platformWithIpfs)
                    (AdminOps.pinHeaders Samples.pinReq)
                    (AdminOps.pinBodyJson Samples.pinReq)
                  = Errors.Ok (Auth.mkAuthContext "registry" None None))
    by (vm_compute; reflexivity).
  assert (Hfind : find (Sys.hasDigest (AdminOps.pinSha256Hex Samples.pinReq))
                    (Sys.artifacts Demo.completedPlain) = Some Samples.artifact1)
    by (vm_compute; reflexivity).
  assert (Hobj : Sys.objects Demo.completedPlain !! Artifact.bucketKey Samples.artifact1
                 = Some "hello world!")
    by (vm_compute; reflexivity).
  assert (Hne : "bafy-demo" <> "") by discriminate.
  destruct (pin_then_pin Demo.platformWithIpfs "https://ipfs.io" Samples.pinReq
              (Auth.mkAuthContext "registry" None None) Demo.completedPlain
              Samples.artifact1 (fun _ => Some "bafy-demo") "hello world!" "bafy-demo"
              Hauth eq_refl Hfind eq_refl eq_refl Hobj eq_refl Hne)
    as [H1 H2].
  cbv zeta. rewrite H1. exact H2.
Defined.

Lemma pin_unpin_round_trip_witness :
  AdminOps.unpin Demo.platformWithIpfs (fun _ => true) Samples.pinReq Samples.pinnedPlain
  = (Sys.mkState (Sys.uploadSessions Demo.completedPlain)
       (Sys.artifacts Demo.completedPlain) (Sys.objects Demo.completedPlain)
       ["hello world!"],
     Sys.Sent 200 (AdminOps.mkPinReply "Artifact unpinned from IPFS successfully"
                     (Some "bafy-demo") None)).
Proof.
  refine (proj1 (pin_unpin_round_trip Demo.platformWithIpfs (fun _ => true) Samples.pinReq
                   (Auth.mkAuthContext "registry" None None) Demo.completedPlain
                   Samples.artifact1 (fun _ => Some "bafy-demo") "bafy-demo"
                   _ _ _ _ _ _ _ ["hello world!"]) eq_refl);
    try (vm_compute; reflexivity); [|discriminate].
  vm_compute. apply NoDup_singleton.
Defined.

Lemma sweep_removes_older_witness :
  Sys.artifacts (fst (AdminOps.sweep Demo.platform (Samples.sweepReq false)
                        Demo.completedPlain)) = [].
Proof.
  destruct (proj2 (sweep_removes_older Demo.platform (Samples.sweepReq false)
                     (Auth.mkAuthContext "registry" None None) Demo.completedPlain
                     ltac:(vm_compute; reflexivity) eq_refl
                     ltac:(vm_compute; reflexivity)
                     ltac:(vm_compute; apply NoDup_singleton)) eq_refl)
    as (st' & E & Ha & _).
  rewrite E. cbn [fst]. rewrite Ha. vm_compute. reflexivity.
Defined.
